(** * FoodScan server: scan-record service

    A shallow embedding of the Express/Mongoose back end of the FoodScan
    application (routes/scan.ts, routes/user.ts, models/Scan.ts and the
    application-level error middleware), and the properties of its
    upload / query / delete life cycle.

    Conventions of the embedding.
    - The two Mongo collections are finite maps keyed by document id; a
      hydrated scan document is the pair of its id and its stored fields.
    - The uploads directory is a finite map from file name to a file
      attribute; a blob name [n] stands for the path [uploadsDir/n].
    - Handlers are computations in a reader/state/exception monad [M]:
      the reader part [Env] carries what the runtime supplies
      ([Math.random], [Date.now], fresh object ids, the storage engine's
      order among equal sort keys, the writes the database refuses), the
      state part [World] carries the
      collections, the uploads directory and a trace of the mutations
      performed, and [Throw] is a JavaScript exception.
    - Handlers are modelled from the point where [authenticateToken] has
      run: [req.user] is the user it attached, if any. *)

From Stdlib Require Import Ascii String QArith Qround.
From stdpp Require Import gmap strings list fin_maps sorting pretty.

Local Open Scope string_scope.
Local Open Scope Z_scope.

(** ** JavaScript values and helpers *)

Abbreviation ObjectId := N (only parsing).

#[warnings="-register-all"]
Inductive Json : Type :=
  | JNull
  | JBool (b : bool)
  | JNum (q : Q)
  | JStr (s : string)
  | JDate (ms : Z)
  | JOid (o : ObjectId)
  | JArr (items : list Json)
  | JObj (fields : list (string * Json)).

Definition JInt (z : Z) : Json := JNum (inject_Z z).

(** [json_has_key k j]: some object nested anywhere in [j] has a
    property named [k]. *)
Fixpoint json_has_key (k : string) (j : Json) : bool :=
  match j with
  | JArr items => existsb (json_has_key k) items
  | JObj fields =>
      existsb (fun kv => match kv with
                         | (k', v) => String.eqb k' k || json_has_key k v
                         end) fields
  | _ => false
  end.

(** Property lookup on an object ([undefined] is [None]). *)
Fixpoint assoc (k : string) (fields : list (string * Json)) : option Json :=
  match fields with
  | [] => None
  | (k', v) :: rest => if String.eqb k' k then Some v else assoc k rest
  end.

Definition json_get (k : string) (j : Json) : option Json :=
  match j with
  | JObj fields => assoc k fields
  | _ => None
  end.

(** Result of [parseInt]: an integer or [NaN]. *)
Inductive JsInt := NaN | Int (z : Z).

(** White space as [trim] and [parseInt] see it. A string is a sequence
    of code units below 256; among those the white space and line
    terminators are TAB, LF, VT, FF, CR, SP and NBSP. *)
Definition is_space (c : ascii) : bool :=
  let n := nat_of_ascii c in
  (Nat.eqb n 32 || (Nat.leb 9 n && Nat.leb n 13) || Nat.eqb n 160)%bool.

Fixpoint skip_spaces (s : string) : string :=
  match s with
  | String c rest => if is_space c then skip_spaces rest else s
  | EmptyString => s
  end.

Definition digit_value (radix : Z) (c : ascii) : option Z :=
  let n := Z.of_nat (nat_of_ascii c) in
  let v := if (48 <=? n) && (n <=? 57) then Some (n - 48)
           else if (97 <=? n) && (n <=? 102) then Some (n - 87)
           else if (65 <=? n) && (n <=? 70) then Some (n - 55)
           else None in
  match v with
  | Some d => if d <? radix then Some d else None
  | None => None
  end.

(** Longest prefix of digits in the given radix; [None] when it is empty. *)
Fixpoint parse_digits (radix : Z) (acc : option Z) (s : string) : option Z :=
  match s with
  | String c rest =>
      match digit_value radix c with
      | Some d => parse_digits radix (Some (radix * default 0 acc + d)) rest
      | None => acc
      end
  | EmptyString => acc
  end.

(** [parseInt(s)] without a radix argument: leading white space, an
    optional sign, an optional [0x]/[0X] prefix, then digits. Values are
    exact integers (the loss of precision of doubles above 2^53 is not
    modelled). *)
Definition parseInt (s : string) : JsInt :=
  let s := skip_spaces s in
  let '(sign, s) :=
    match s with
    | String "-" rest => (-1, rest)
    | String "+" rest => (1, rest)
    | _ => (1, s)
    end in
  let '(radix, s) :=
    match s with
    | String "0" (String "x" rest) => (16, rest)
    | String "0" (String "X" rest) => (16, rest)
    | _ => (10, s)
    end in
  match parse_digits radix None s with
  | Some v => Int (sign * v)
  | None => NaN
  end.

(** [parseInt(q as string) || d]: an absent parameter, [NaN] and [0]
    all fall back to [d]. *)
Definition parseInt_or (q : option string) (d : Z) : Z :=
  match q with
  | None => d
  | Some s => match parseInt s with
              | NaN => d
              | Int 0 => d
              | Int z => z
              end
  end.

(** Truthiness of an optional query-string parameter. *)
Definition truthy (q : option string) : bool :=
  match q with
  | Some s => negb (String.eqb s "")
  | None => false
  end.

(** [Math.ceil(a / b)] for [b <> 0]. *)
Definition Math_ceil_div (a b : Z) : Z := - ((- a) / b).

(** [String.prototype.trim]. *)
Definition trim (s : string) : string :=
  String.rev (skip_spaces (String.rev (skip_spaces s))).

(** [path.extname] (POSIX): trailing slashes are ignored; the result
    runs from the last dot of the last path segment, and is empty when
    the segment has no dot, when its last dot is its first character,
    and for the segment [..]. *)
Fixpoint skip_slashes (s : string) : string :=
  match s with
  | String "/" rest => skip_slashes rest
  | _ => s
  end.

Definition drop_trailing_slashes (s : string) : string :=
  String.rev (skip_slashes (String.rev s)).

Fixpoint basename_go (acc s : string) : string :=
  match s with
  | String "/" rest => basename_go rest rest
  | String _ rest => basename_go acc rest
  | EmptyString => acc
  end.

Definition basename (s : string) : string := basename_go s s.

Fixpoint last_dot_suffix (cur : option string) (s : string) : option string :=
  match s with
  | String "." rest => last_dot_suffix (Some s) rest
  | String _ rest => last_dot_suffix cur rest
  | EmptyString => cur
  end.

Definition extname (p : string) : string :=
  let segment := basename (drop_trailing_slashes p) in
  match last_dot_suffix None segment with
  | Some ext =>
      if String.eqb ext segment || String.eqb segment ".." then "" else ext
  | None => ""
  end.

(** [`${x}`] for a possibly undefined string property. *)
Definition template_of (x : option Json) : string :=
  match x with
  | Some (JStr s) => s
  | _ => "undefined"
  end.

(** ** Errors *)

Inductive ErrCode := CodeStr (s : string) | CodeNum (n : Z).

Global Instance ErrCode_eq_dec : EqDecision ErrCode := ltac:(solve_decision).

Record JsError := {
  err_name : string;
  err_message : string;
  err_code : option ErrCode;
  err_status : option Z;
  err_errors : list string;
}.

Definition Error (msg : string) : JsError :=
  {| err_name := "Error"; err_message := msg; err_code := None;
     err_status := None; err_errors := [] |}.

Definition MulterError (code msg : string) : JsError :=
  {| err_name := "MulterError"; err_message := msg;
     err_code := Some (CodeStr code); err_status := None; err_errors := [] |}.

Definition ValidationError (msgs : list string) : JsError :=
  {| err_name := "ValidationError";
     err_message := "Scan validation failed";
     err_code := None; err_status := None; err_errors := msgs |}.

Definition MongoServerError (code : Z) (msg : string) : JsError :=
  {| err_name := "MongoServerError"; err_message := msg;
     err_code := Some (CodeNum code); err_status := None; err_errors := [] |}.

Definition CastError (msg : string) : JsError :=
  {| err_name := "CastError"; err_message := msg; err_code := None;
     err_status := None; err_errors := [] |}.

Definition FsError (code msg : string) : JsError :=
  {| err_name := "Error"; err_message := msg;
     err_code := Some (CodeStr code); err_status := None; err_errors := [] |}.

(** What the driver raises when the server does not carry out a write. *)
Definition MongoNetworkError (msg : string) : JsError :=
  {| err_name := "MongoNetworkError"; err_message := msg; err_code := None;
     err_status := None; err_errors := [] |}.

(** ** Data model (models/Scan.ts; the user model is not among the
    sources, only the fields the routes read are kept) *)

Record AnalysisMetadata := {
  processingTime : Z;
  modelVersion : string;
  confidence : Q;
}.

(** Stored fields of a scan document. The document's [_id] is its key in
    the collection. [createdAt]/[updatedAt] come from [timestamps: true]. *)
Record Scan := {
  userId : ObjectId;
  fileName : string;
  fileType : string;
  filePath : string;
  fileSize : Z;
  analysisDate : Z;
  qualityScore : Z;
  freshness : string;
  nutritionalValue : string;
  recommendations : list string;
  warnings : list string;
  analysisMetadata : AnalysisMetadata;
  createdAt : Z;
  updatedAt : Z;
}.

Abbreviation ScanDoc := (ObjectId * Scan)%type (only parsing).

Record User := {
  u_name : string;
  u_email : string;
  u_password : string;
  u_createdAt : Z;
  u_updatedAt : Z;
}.

Abbreviation UserDoc := (ObjectId * User)%type (only parsing).

(** ** The server's state and its environment *)

(** [Protected]: a file that [fs.unlinkSync] cannot remove (it throws). *)
Inductive FileAttr := Regular | Protected.

Inductive Effect :=
  | EWriteFile (name : string)
  | EUnlink (name : string)
  | EScanSave (id : ObjectId)
  | EScanDelete (id : ObjectId)
  | EScanDeleteMany (owner : ObjectId)
  | EUserDelete (id : ObjectId).

Record World := {
  users : gmap ObjectId User;
  scans : gmap ObjectId Scan;
  uploads : gmap string FileAttr;
  rng : nat;            (* calls of Math.random() so far *)
  clk : nat;            (* calls of Date.now() so far *)
  trace : list Effect;  (* mutations performed, oldest first *)
}.

Record Env := {
  random : nat → Q;             (* results of Math.random(), in order *)
  now : nat → Z;                (* results of Date.now(), in order *)
  new_oid : ObjectId;           (* the _id that new Scan() generates *)
  natural_rank : ObjectId → Z;  (* the engine's order among equal sort keys *)
  db_rejects : Effect → bool;   (* the writes the database refuses to carry out *)
}.

Definition set_scans (f : gmap ObjectId Scan → gmap ObjectId Scan) (w : World) : World :=
  {| users := users w; scans := f (scans w); uploads := uploads w;
     rng := rng w; clk := clk w; trace := trace w |}.

Definition set_users (f : gmap ObjectId User → gmap ObjectId User) (w : World) : World :=
  {| users := f (users w); scans := scans w; uploads := uploads w;
     rng := rng w; clk := clk w; trace := trace w |}.

Definition set_uploads (f : gmap string FileAttr → gmap string FileAttr) (w : World) : World :=
  {| users := users w; scans := scans w; uploads := f (uploads w);
     rng := rng w; clk := clk w; trace := trace w |}.

Definition log (e : Effect) (w : World) : World :=
  {| users := users w; scans := scans w; uploads := uploads w;
     rng := rng w; clk := clk w; trace := trace w ++ [e] |}.

(** ** The handler monad *)

Inductive Result (A : Type) : Type :=
  | Ok (a : A)
  | Throw (e : JsError).
Arguments Ok {A} a.
Arguments Throw {A} e.

Definition M (A : Type) : Type := Env → World → Result A * World.

Definition ret {A} (a : A) : M A := fun _ w => (Ok a, w).

Definition bind {A B} (m : M A) (k : A → M B) : M B :=
  fun env w =>
    match m env w with
    | (Ok a, w') => k a env w'
    | (Throw e, w') => (Throw e, w')
    end.

Definition throw {A} (e : JsError) : M A := fun _ w => (Throw e, w).

(** [try { body } catch (error) { handler }] *)
Definition try_catch {A} (body : M A) (handler : JsError → M A) : M A :=
  fun env w =>
    match body env w with
    | (Ok a, w') => (Ok a, w')
    | (Throw e, w') => handler e env w'
    end.

Definition gets {A} (f : World → A) : M A := fun _ w => (Ok (f w), w).
Definition modify (f : World → World) : M unit := fun _ w => (Ok tt, f w).
Definition asks {A} (f : Env → A) : M A := fun env w => (Ok (f env), w).

(** A write sent to the database: the promise is rejected when the
    server does not carry it out (nothing changes then); otherwise the
    collection is updated and the write is recorded in the trace. *)
Definition db_write (e : Effect) (f : World → World) : M unit :=
  fun env w =>
    if db_rejects env e
    then (Throw (MongoNetworkError "connection closed"), w)
    else (Ok tt, log e (f w)).

Notation "'do' x <- m ; k" := (bind m (fun x => k))
  (at level 10, x name, m at level 100, k at level 200).
Notation "'do_' m ; k" := (bind m (fun _ => k))
  (at level 10, m at level 100, k at level 200).

(** ** Runtime primitives *)

Definition Math_random : M Q :=
  fun env w =>
    (Ok (random env (rng w)),
     {| users := users w; scans := scans w; uploads := uploads w;
        rng := S (rng w); clk := clk w; trace := trace w |}).

Definition Date_now : M Z :=
  fun env w =>
    (Ok (now env (clk w)),
     {| users := users w; scans := scans w; uploads := uploads w;
        rng := rng w; clk := S (clk w); trace := trace w |}).

(** [Math.floor] and [Math.round] (half up) on exact rationals; the
    rounding of double arithmetic is not modelled. *)
Definition Math_floor (q : Q) : Z := Qfloor q.
Definition Math_round (q : Q) : Z := Qfloor (q + (1 # 2)).

(** [arr.slice(0, n)] *)
Definition slice0 {A} (n : Z) (l : list A) : list A := take (Z.to_nat n) l.

(** [arr[i]] for a string array; [undefined] is rendered as the empty
    string, which fails the same [required] validator. *)
Definition index_or_undefined (l : list string) (i : Z) : string :=
  if i <? 0 then "" else default "" (l !! Z.to_nat i).

(** ** The uploads directory *)

Definition fs_existsSync (name : string) : M bool :=
  gets (fun w => bool_decide (is_Some (uploads w !! name))).

Definition fs_unlinkSync (name : string) : M unit :=
  do attr <- gets (fun w => uploads w !! name);
  match attr with
  | Some Regular =>
      modify (fun w => log (EUnlink name) (set_uploads (delete name) w))
  | Some Protected => throw (FsError "EPERM" "operation not permitted, unlink")
  | None => throw (FsError "ENOENT" "no such file or directory, unlink")
  end.

(** What the disk storage engine does once a file is accepted: the
    part is written to [uploadsDir/name], replacing what was there. *)
Definition fs_writeFile (name : string) : M unit :=
  modify (fun w => log (EWriteFile name) (set_uploads (<[name := Regular]>) w)).

(** [fs.unlink] by the disk storage, on the file it has just written. *)
Definition fs_unlink (name : string) : M unit :=
  modify (fun w => log (EUnlink name) (set_uploads (delete name) w)).

(** ** Responses and the application-level error middleware *)

Record Response := { status : Z; body : Json }.

(** [res.json(b)] and [res.status(c).json(b)] *)
Definition res_json (b : Json) : Response := {| status := 200; body := b |}.
Definition res_status_json (c : Z) (b : Json) : Response := {| status := c; body := b |}.

Definition failure (msg : string) : Json :=
  JObj [("success", JBool false); ("message", JStr msg)].

(** [err.message || fallback] *)
Definition message_or (msg fallback : string) : string :=
  if String.eqb msg "" then fallback else msg.

(** The four-argument middleware of the application entry point. *)
Definition errorHandler (err : JsError) : Response :=
  if String.eqb (err_name err) "ValidationError" then
    res_status_json 400
      (JObj [("success", JBool false); ("message", JStr "Validation Error");
             ("errors", JArr (JStr <$> err_errors err))])
  else if String.eqb (err_name err) "JsonWebTokenError" then
    res_status_json 401 (failure "Invalid token")
  else if String.eqb (err_name err) "TokenExpiredError" then
    res_status_json 401 (failure "Token expired")
  else
    res_status_json
      (match err_status err with
       | Some 0 | None => 500
       | Some c => c
       end)
      (failure (message_or (err_message err) "Internal Server Error")).

(** A middleware that ends in [next(err)] hands the error to
    [errorHandler]; otherwise the next handler of the chain runs. *)
Definition middleware {A} (m : M A) (next : A → M Response) : M Response :=
  fun env w =>
    match m env w with
    | (Ok a, w') => next a env w'
    | (Throw e, w') => (Ok (errorHandler e), w')
    end.

(** ** The scan collection (Mongoose model [Scan]) *)

Definition fileType_enum : list string :=
  ["image/jpeg"; "image/png"; "image/webp"; "application/pdf"].
Definition freshness_enum : list string := ["Excellent"; "Good"; "Fair"; "Poor"].
Definition nutritionalValue_enum : list string := ["High"; "Medium"; "Low"].
Definition maxFileSize : Z := 10 * 1024 * 1024.

Definition check (ok : bool) (msg : string) : list string :=
  if ok then [] else [msg].

(** Schema validators run by [save()]. *)
Definition validate (s : Scan) : list string :=
  check (negb (String.eqb (fileName s) "")) "File name is required"
  ++ check (bool_decide (fileType s ∈ fileType_enum)) "File type is not a valid enum value"
  ++ check (negb (String.eqb (filePath s) "")) "File path is required"
  ++ check (fileSize s <=? maxFileSize) "File size cannot exceed 10MB"
  ++ check (0 <=? qualityScore s) "Quality score cannot be less than 0"
  ++ check (qualityScore s <=? 100) "Quality score cannot be more than 100"
  ++ check (bool_decide (freshness s ∈ freshness_enum)) "Freshness is not a valid enum value"
  ++ check (bool_decide (nutritionalValue s ∈ nutritionalValue_enum))
       "Nutritional value is not a valid enum value"
  ++ check (0 <=? processingTime (analysisMetadata s)) "Processing time is below minimum"
  ++ check (Qle_bool 0 (confidence (analysisMetadata s))) "Confidence is below minimum"
  ++ check (Qle_bool (confidence (analysisMetadata s)) 1) "Confidence is above maximum".

(** What the analysis hands to [new Scan({...})]. *)
Record AnalysisResult := {
  a_qualityScore : Z;
  a_freshness : string;
  a_nutritionalValue : string;
  a_recommendations : list string;
  a_warnings : list string;
  a_analysisMetadata : AnalysisMetadata;
}.

(** [new Scan({ userId, fileName, fileType, filePath, fileSize,
    ...analysisResult })]: the schema's [trim] setters and the
    [analysisDate] default are applied, a fresh [_id] is taken. *)
Definition new_Scan (owner : ObjectId) (originalname mimetype filename : string)
    (size : Z) (a : AnalysisResult) : M ScanDoc :=
  do id <- asks new_oid;
  do date <- Date_now;
  ret (id, {| userId := owner;
              fileName := trim originalname;
              fileType := mimetype;
              filePath := filename;
              fileSize := size;
              analysisDate := date;
              qualityScore := a_qualityScore a;
              freshness := a_freshness a;
              nutritionalValue := a_nutritionalValue a;
              recommendations := trim <$> a_recommendations a;
              warnings := trim <$> a_warnings a;
              analysisMetadata := a_analysisMetadata a;
              createdAt := 0;
              updatedAt := 0 |}).

Definition stamp (t : Z) (s : Scan) : Scan :=
  {| userId := userId s; fileName := fileName s; fileType := fileType s;
     filePath := filePath s; fileSize := fileSize s;
     analysisDate := analysisDate s; qualityScore := qualityScore s;
     freshness := freshness s; nutritionalValue := nutritionalValue s;
     recommendations := recommendations s; warnings := warnings s;
     analysisMetadata := analysisMetadata s; createdAt := t; updatedAt := t |}.

(** [scan.save()]: validation, time stamps, insertion; a duplicate [_id]
    is rejected by the collection's unique index. *)
Definition Scan_save (d : ScanDoc) : M ScanDoc :=
  match validate d.2 with
  | [] =>
      do t <- Date_now;
      do old <- gets (fun w => scans w !! d.1);
      match old with
      | Some _ => throw (MongoServerError 11000 "E11000 duplicate key error")
      | None =>
          let s := stamp t d.2 in
          do_ db_write (EScanSave d.1) (set_scans (<[d.1 := s]>));
          ret (d.1, s)
      end
  | msgs => throw (ValidationError msgs)
  end.

Section Lookup.

(** Mongoose's cast of a query value to the schema type [ObjectId],
    which is library code: [None] when the value is not a well-formed
    object id (the query is then rejected with a [CastError] before it
    is sent). *)
Variable castObjectId : string → option ObjectId.

(** [Scan.findOne({ _id: id, userId: owner })], [id] being the value as
    the caller gave it. *)
Definition Scan_findOne (id : string) (owner : ObjectId) : M (option ScanDoc) :=
  match castObjectId id with
  | None => throw (CastError "Cast to ObjectId failed at path _id")
  | Some oid =>
      gets (fun w =>
        match scans w !! oid with
        | Some s => if decide (userId s = owner) then Some (oid, s) else None
        | None => None
        end)
  end.

End Lookup.

(** [Scan.findByIdAndDelete(id)] *)
Definition Scan_findByIdAndDelete (id : ObjectId) : M unit :=
  db_write (EScanDelete id) (set_scans (delete id)).

(** [Scan.deleteMany({ userId })] *)
Definition Scan_deleteMany (owner : ObjectId) : M unit :=
  db_write (EScanDeleteMany owner)
    (set_scans (filter (fun kv : ObjectId * Scan => userId kv.2 ≠ owner))).

(** *** Queries *)

(** The value of [filters.qualityScore]: an object with optional
    [$gte] and [$lte] members. *)
Record ScoreCond := { c_gte : option JsInt; c_lte : option JsInt }.

(** The [filters] object of the history handler. *)
Record Filters := {
  f_userId : ObjectId;
  f_freshness : option string;
  f_qualityScore : option ScoreCond;
}.

(** Mongoose casts the query against the schema before running it; a
    [NaN] operand for the numeric path [qualityScore] is a cast error. *)
Definition cast_operand (b : option JsInt) : Result (option Z) :=
  match b with
  | None => Ok None
  | Some (Int z) => Ok (Some z)
  | Some NaN => Throw (CastError "Cast to Number failed at path qualityScore")
  end.

Definition cast_filters (f : Filters) : Result (option Z * option Z) :=
  match f_qualityScore f with
  | None => Ok (None, None)
  | Some c =>
      match cast_operand (c_gte c), cast_operand (c_lte c) with
      | Ok lo, Ok hi => Ok (lo, hi)
      | Throw e, _ => Throw e
      | _, Throw e => Throw e
      end
  end.

(** Does a stored document satisfy the (cast) filter object? *)
Definition matches (owner : ObjectId) (fresh : option string)
    (range : option Z * option Z) (s : Scan) : bool :=
  bool_decide (userId s = owner)
  && match fresh with
     | Some x => String.eqb (freshness s) x
     | None => true
     end
  && match range.1 with
     | Some lo => lo <=? qualityScore s
     | None => true
     end
  && match range.2 with
     | Some hi => qualityScore s <=? hi
     | None => true
     end.

Definition matching (f : Filters) (range : option Z * option Z)
    (m : gmap ObjectId Scan) : gmap ObjectId Scan :=
  filter (fun kv : ObjectId * Scan =>
            matches (f_userId f) (f_freshness f) range kv.2 = true) m.

(** [sort({ createdAt: -1 })]. The sort key is the creation time only;
    among documents with equal creation times the storage engine may
    return any order, which [rank] (from the environment of the query at
    hand) decides here. *)
Definition newest_first (rank : ObjectId → Z) (x y : ObjectId * Scan) : Prop :=
  createdAt y.2 < createdAt x.2
  ∨ (createdAt x.2 = createdAt y.2
     ∧ (rank x.1 < rank y.1 ∨ (rank x.1 = rank y.1 ∧ (x.1 ≤ y.1)%N))).

Global Instance newest_first_dec rank x y : Decision (newest_first rank x y) :=
  ltac:(unfold newest_first; apply _).

Definition sort_newest_first (rank : ObjectId → Z)
    (m : gmap ObjectId Scan) : list (ObjectId * Scan) :=
  merge_sort (newest_first rank) (map_to_list m).

(** [Scan.find(filters).sort({ createdAt: -1 }).skip(skip).limit(limit)].
    A negative [skip] is rejected by the server; a negative [limit] is
    treated as its absolute value and [0] as no limit. *)
Definition Scan_find_sorted (f : Filters) (skip limit : Z) : M (list ScanDoc) :=
  match cast_filters f with
  | Throw e => throw e
  | Ok range =>
      if skip <? 0 then throw (MongoServerError 2 "Skip value must be non-negative")
      else
        do rank <- asks natural_rank;
        do docs <- gets (fun w => sort_newest_first rank (matching f range (scans w)));
        let rest := drop (Z.to_nat skip) docs in
        ret (if limit =? 0 then rest else take (Z.to_nat (Z.abs limit)) rest)
  end.

(** [Scan.countDocuments(filters)] *)
Definition Scan_countDocuments (f : Filters) : M Z :=
  match cast_filters f with
  | Throw e => throw e
  | Ok range => gets (fun w => Z.of_nat (size (matching f range (scans w))))
  end.

(** *** Serialisation *)

Definition metadata_json (m : AnalysisMetadata) : Json :=
  JObj [("processingTime", JInt (processingTime m));
        ("modelVersion", JStr (modelVersion m));
        ("confidence", JNum (confidence m))].

(** The stored paths of a hydrated document, as an object. *)
Definition scan_object (d : ObjectId * Scan) : list (string * Json) :=
  let s := d.2 in
  [("_id", JOid d.1);
   ("userId", JOid (userId s));
   ("fileName", JStr (fileName s));
   ("fileType", JStr (fileType s));
   ("filePath", JStr (filePath s));
   ("fileSize", JInt (fileSize s));
   ("analysisDate", JDate (analysisDate s));
   ("qualityScore", JInt (qualityScore s));
   ("freshness", JStr (freshness s));
   ("nutritionalValue", JStr (nutritionalValue s));
   ("recommendations", JArr (JStr <$> recommendations s));
   ("warnings", JArr (JStr <$> warnings s));
   ("analysisMetadata", metadata_json (analysisMetadata s));
   ("createdAt", JDate (createdAt s));
   ("updatedAt", JDate (updatedAt s));
   ("__v", JInt 0)].

(** [.select('-path')]: the document is loaded without that path. *)
Definition select_minus (path : string) (doc : list (string * Json)) : list (string * Json) :=
  List.filter (fun kv => negb (String.eqb kv.1 path)) doc.

(** The [fileUrl] virtual: [`/uploads/${this.filePath}`], evaluated on
    the document as it was loaded. *)
Definition fileUrl (doc : list (string * Json)) : string :=
  "/uploads/" +:+ template_of (assoc "filePath" doc).

(** [toJSON] with [virtuals: true]: the loaded paths followed by the
    [fileUrl] and [id] virtuals. *)
Definition toJSON (doc : list (string * Json)) : Json :=
  JObj (doc ++ [("fileUrl", JStr (fileUrl doc));
                ("id", default JNull (assoc "_id" doc))]).

(** ** routes/scan.ts *)

(** *** The upload middleware *)

(** The file part of the multipart request as multer presents it to the
    callbacks of the route: [originalname] is [file.originalname] (the
    file name of the part, which the multipart parser has reduced to its
    last path segment), [mimetype] is [file.mimetype], and [size_bytes]
    is the number of bytes the part's stream carries. *)
Record FilePart := { originalname : string; mimetype : string; size_bytes : Z }.

(** [req.file] once the disk storage has stored the part;
    [req.file.path] is [uploadsDir/filename]. *)
Record MulterFile := {
  mf_originalname : string;
  mf_mimetype : string;
  mf_filename : string;
  mf_size : Z;
}.

Definition allowedTypes : list string :=
  ["image/jpeg"; "image/png"; "image/webp"; "application/pdf"].

Definition fileFilter (file : FilePart) : M bool :=
  if bool_decide (mimetype file ∈ allowedTypes) then ret true
  else throw (Error
    "Invalid file type. Only JPEG, PNG, WebP images and PDF files are allowed.").

(** The [filename] callback of the disk storage. *)
Definition storage_filename (file : FilePart) : M string :=
  do t <- Date_now;
  do r <- Math_random;
  let uniqueSuffix := pretty t +:+ "-" +:+ pretty (Math_round (r * inject_Z 1000000000)) in
  ret ("scan-" +:+ uniqueSuffix +:+ extname (originalname file)).

(** [upload.single('file')] with the disk storage and
    [limits: { fileSize: 10 MiB }]: the filter runs first, then the part
    is streamed to its generated name. A stream that reaches the limit
    is cut off: the file written so far is removed again and
    [LIMIT_FILE_SIZE] is passed to [next]. *)
Definition upload_single (part : option FilePart) : M (option MulterFile) :=
  match part with
  | None => ret None
  | Some file =>
      do_ fileFilter file;
      do name <- storage_filename file;
      do_ fs_writeFile name;
      if maxFileSize <=? size_bytes file
      then
        do_ fs_unlink name;
        throw (MulterError "LIMIT_FILE_SIZE" "File too large")
      else
        ret (Some {| mf_originalname := originalname file;
                     mf_mimetype := mimetype file;
                     mf_filename := name;
                     mf_size := size_bytes file |})
  end.

(** *** The placeholder analysis *)

(** [arr.sort(() => 0.5 - Math.random())]: an insertion sort that asks
    the comparator, and hence [Math.random], at each comparison. Which
    algorithm the engine runs is implementation-defined. *)
Fixpoint insert_random {A} (x : A) (sorted : list A) : M (list A) :=
  match sorted with
  | [] => ret [x]
  | y :: rest =>
      do r <- Math_random;
      if Qle_bool ((1 # 2) - r) 0
      then do l <- insert_random x rest; ret (y :: l)
      else ret (x :: y :: rest)
  end.

Fixpoint sort_random {A} (l : list A) : M (list A) :=
  match l with
  | [] => ret []
  | x :: rest => do s <- sort_random rest; insert_random x s
  end.

Definition performFoodAnalysis (path fileType : string) : M AnalysisResult :=
  do processingStart <- Date_now;
  do delay <- Math_random;  (* setTimeout(resolve, 1000 + delay * 2000) *)
  do finished <- Date_now;
  let processingTime := finished - processingStart in
  do r1 <- Math_random;
  let qualityScore := Math_floor (r1 * inject_Z 40) + 60 in
  do r2 <- Math_random;
  let freshness :=
    index_or_undefined ["Excellent"; "Good"; "Fair"; "Poor"]
                       (Math_floor (r2 * inject_Z 4)) in
  do r3 <- Math_random;
  let nutritionalValue :=
    index_or_undefined ["High"; "Medium"; "Low"] (Math_floor (r3 * inject_Z 3)) in
  do shuffled <- sort_random
    ["Store in refrigerator to maintain freshness";
     "Consume within 2-3 days for best quality";
     "Rich in vitamins and minerals";
     "Good source of dietary fiber";
     "Low in saturated fats"];
  let recommendations := slice0 3 shuffled in
  do r4 <- Math_random;
  do warnings <-
    (if Qle_bool r4 (7 # 10) then ret []
     else
       do r5 <- Math_random;
       ret (slice0 (Math_floor (r5 * inject_Z 2) + 1)
              ["Check for signs of spoilage before consumption";
               "May contain allergens - check ingredients"]));
  do r6 <- Math_random;
  ret {| a_qualityScore := qualityScore;
         a_freshness := freshness;
         a_nutritionalValue := nutritionalValue;
         a_recommendations := recommendations;
         a_warnings := warnings;
         a_analysisMetadata :=
           {| processingTime := processingTime;
              modelVersion := "1.0.0";
              confidence := (7 # 10) + r6 * (3 # 10) |} |}.

(** *** POST /analyze *)

Record AnalyzeRequest := {
  an_user : option UserDoc;
  an_file : option FilePart;
}.

(** The [data] member of the success response. *)
Definition analyze_data (d : ObjectId * Scan) : Json :=
  let s := d.2 in
  JObj [("id", JOid d.1);
        ("fileName", JStr (fileName s));
        ("fileType", JStr (fileType s));
        ("fileUrl", JStr (fileUrl (scan_object d)));
        ("analysisDate", JDate (analysisDate s));
        ("qualityScore", JInt (qualityScore s));
        ("freshness", JStr (freshness s));
        ("nutritionalValue", JStr (nutritionalValue s));
        ("recommendations", JArr (JStr <$> recommendations s));
        ("warnings", JArr (JStr <$> warnings s));
        ("analysisMetadata", metadata_json (analysisMetadata s))].

(** The [catch] block of the handler. *)
Definition analyze_catch (file : option MulterFile) (error : JsError) : M Response :=
  do_ (match file with
       | Some f =>
           do present <- fs_existsSync (mf_filename f);
           if present then fs_unlinkSync (mf_filename f) else ret tt
       | None => ret tt
       end);
  if bool_decide (err_code error = Some (CodeStr "LIMIT_FILE_SIZE")) then
    ret (res_status_json 400
           (failure "File size too large. Maximum size is 10MB."))
  else
    ret (res_status_json 500
           (failure (message_or (err_message error)
                       "Internal server error during analysis"))).

Definition analyze_handler (user : option UserDoc) (file : option MulterFile) : M Response :=
  try_catch
    (match file with
     | None => ret (res_status_json 400 (failure "No file uploaded"))
     | Some f =>
         match user with
         | None => ret (res_status_json 401 (failure "User not authenticated"))
         | Some u =>
             do analysisResult <- performFoodAnalysis (mf_filename f) (mf_mimetype f);
             do scan <- new_Scan u.1 (mf_originalname f) (mf_mimetype f)
                          (mf_filename f) (mf_size f) analysisResult;
             do saved <- Scan_save scan;
             ret (res_json
                    (JObj [("success", JBool true);
                           ("message", JStr "File analyzed successfully");
                           ("data", analyze_data saved)]))
         end
     end)
    (analyze_catch file).

(** [router.post('/analyze', authenticateToken, upload.single('file'), handler)] *)
Definition post_analyze (req : AnalyzeRequest) : M Response :=
  middleware (upload_single (an_file req)) (analyze_handler (an_user req)).

(** *** GET /history *)

Record HistoryRequest := {
  h_user : option UserDoc;
  q_page : option string;
  q_limit : option string;
  q_freshness : option string;
  q_minScore : option string;
  q_maxScore : option string;
}.

(** The [filters] object as the handler assembles it. The spread
    [...filters.qualityScore] keeps a [$gte] set by [minScore]. *)
Definition history_filters (owner : ObjectId) (req : HistoryRequest) : Filters :=
  let filters := {| f_userId := owner; f_freshness := None; f_qualityScore := None |} in
  let filters :=
    if truthy (q_freshness req)
    then {| f_userId := f_userId filters; f_freshness := q_freshness req;
            f_qualityScore := f_qualityScore filters |}
    else filters in
  let filters :=
    if truthy (q_minScore req)
    then {| f_userId := f_userId filters; f_freshness := f_freshness filters;
            f_qualityScore :=
              Some {| c_gte := parseInt <$> q_minScore req; c_lte := None |} |}
    else filters in
  let filters :=
    if truthy (q_maxScore req)
    then {| f_userId := f_userId filters; f_freshness := f_freshness filters;
            f_qualityScore :=
              Some {| c_gte := c ← f_qualityScore filters; c_gte c;
                      c_lte := parseInt <$> q_maxScore req |} |}
    else filters in
  filters.

(** A document loaded with [.select('-filePath')], as serialised. *)
Definition scan_view (d : ObjectId * Scan) : Json :=
  toJSON (select_minus "filePath" (scan_object d)).

Definition history_body (docs : list (ObjectId * Scan)) (page limit total : Z) : Json :=
  JObj [("success", JBool true);
        ("data",
         JObj [("scans", JArr (scan_view <$> docs));
               ("pagination",
                JObj [("page", JInt page);
                      ("limit", JInt limit);
                      ("total", JInt total);
                      ("pages", JInt (Math_ceil_div total limit))])])].

Definition get_history (req : HistoryRequest) : M Response :=
  try_catch
    (match h_user req with
     | None => ret (res_status_json 401 (failure "User not authenticated"))
     | Some u =>
         let page := parseInt_or (q_page req) 1 in
         let limit := parseInt_or (q_limit req) 10 in
         let skip := (page - 1) * limit in
         let filters := history_filters u.1 req in
         do scans <- Scan_find_sorted filters skip limit;
         do total <- Scan_countDocuments filters;
         ret (res_json (history_body scans page limit total))
     end)
    (fun _ => ret (res_status_json 500
                     (failure "Internal server error while fetching history"))).

(** *** GET /:scanId and DELETE /:scanId *)

(** [s_scanId] is [req.params.scanId], the path segment as sent. *)
Record ScanIdRequest := {
  s_user : option UserDoc;
  s_scanId : string;
}.

Section ById.

Variable castObjectId : string → option ObjectId.

Definition get_scan (req : ScanIdRequest) : M Response :=
  try_catch
    (match s_user req with
     | None => ret (res_status_json 401 (failure "User not authenticated"))
     | Some u =>
         do scan <- Scan_findOne castObjectId (s_scanId req) u.1;
         match scan with
         | None => ret (res_status_json 404 (failure "Scan not found"))
         | Some d =>
             ret (res_json (JObj [("success", JBool true); ("data", scan_view d)]))
         end
     end)
    (fun _ => ret (res_status_json 500
                     (failure "Internal server error while fetching scan"))).

Definition delete_scan (req : ScanIdRequest) : M Response :=
  try_catch
    (match s_user req with
     | None => ret (res_status_json 401 (failure "User not authenticated"))
     | Some u =>
         do scan <- Scan_findOne castObjectId (s_scanId req) u.1;
         match scan with
         | None => ret (res_status_json 404 (failure "Scan not found"))
         | Some d =>
             (* Delete file from filesystem *)
             do present <- fs_existsSync (filePath d.2);
             do_ (if present then fs_unlinkSync (filePath d.2) else ret tt);
             (* Delete scan from database *)
             do_ Scan_findByIdAndDelete d.1;
             ret (res_json (JObj [("success", JBool true);
                                  ("message", JStr "Scan deleted successfully")]))
         end
     end)
    (fun _ => ret (res_status_json 500
                     (failure "Internal server error while deleting scan"))).

End ById.

(** ** routes/user.ts: DELETE /account *)

Record AccountRequest := {
  ac_user : option UserDoc;
  ac_password : option string;
}.

(** [User.findById(id)] and [User.findByIdAndDelete(id)] *)
Definition User_findById (id : ObjectId) : M (option UserDoc) :=
  gets (fun w => (fun u => (id, u)) <$> users w !! id).

Definition User_findByIdAndDelete (id : ObjectId) : M unit :=
  db_write (EUserDelete id) (set_users (delete id)).

Section Account.

(** The [comparePassword] method of the user model, which is not among
    the sources: whether a candidate matches the stored hash. *)
Variable comparePassword : User → string → bool.

Definition delete_account (req : AccountRequest) : M Response :=
  try_catch
    (match ac_user req with
     | None => ret (res_status_json 401 (failure "User not authenticated"))
     | Some u =>
         if negb (truthy (ac_password req)) then
           ret (res_status_json 400 (failure "Password is required to delete account"))
         else
           (* Verify password *)
           do user <- User_findById u.1;
           match user with
           | None => ret (res_status_json 404 (failure "User not found"))
           | Some stored =>
               if negb (comparePassword stored.2 (default "" (ac_password req))) then
                 ret (res_status_json 401 (failure "Invalid password"))
               else
                 (* Delete all user's scans *)
                 do_ Scan_deleteMany u.1;
                 (* Delete user account *)
                 do_ User_findByIdAndDelete u.1;
                 ret (res_json (JObj [("success", JBool true);
                                      ("message", JStr "Account deleted successfully")]))
           end
     end)
    (fun _ => ret (res_status_json 500
                     (failure "Internal server error while deleting account"))).

End Account.

(** ** Observations used in the statements *)

(** The value a computation returned, if it did not throw; for a
    handler, the response it sent. *)
Definition responds {A} (r : Result A * World) : option A :=
  match r.1 with
  | Ok a => Some a
  | Throw _ => None
  end.

(** [exists(blobName)] of the blob store. *)
Definition blob_exists (w : World) (name : string) : bool :=
  bool_decide (is_Some (uploads w !! name)).

(** The [scans] array of a history response. *)
Definition scans_of (b : Json) : list Json :=
  match json_get "data" b with
  | Some d => match json_get "scans" d with
              | Some (JArr l) => l
              | _ => []
              end
  | None => []
  end.

(** ** Reasoning about handlers: set-up *)

#[global] Arguments Scan_findOne : simpl never.
#[global] Arguments Scan_findByIdAndDelete : simpl never.
#[global] Arguments Scan_deleteMany : simpl never.
#[global] Arguments Scan_save : simpl never.
#[global] Arguments Scan_find_sorted : simpl never.
#[global] Arguments Scan_countDocuments : simpl never.
#[global] Arguments User_findById : simpl never.
#[global] Arguments User_findByIdAndDelete : simpl never.
#[global] Arguments fs_existsSync : simpl never.
#[global] Arguments fs_unlinkSync : simpl never.
#[global] Arguments fs_writeFile : simpl never.
#[global] Arguments performFoodAnalysis : simpl never.
#[global] Arguments new_Scan : simpl never.
#[global] Arguments upload_single : simpl never.
#[global] Arguments storage_filename : simpl never.
#[global] Arguments analyze_catch : simpl never.
#[global] Arguments Math_random : simpl never.
#[global] Arguments Date_now : simpl never.

Ltac unfold_monad :=
  unfold try_catch, middleware, bind, ret, throw, gets, modify, asks in *.

Definition not_found : Response := res_status_json 404 (failure "Scan not found").

(** A record is out of a caller's reach when it does not exist or when
    it belongs to another account. *)
Definition out_of_reach (w : World) (owner id : ObjectId) : Prop :=
  scans w !! id = None ∨ ∃ s, scans w !! id = Some s ∧ userId s ≠ owner.

(** ** Sample data *)

Module Sample.

Definition env0 : Env :=
  {| random := fun _ => 1 # 2;
     now := fun n => 1700000000000 + Z.of_nat n;
     new_oid := 30%N;
     natural_rank := fun _ => 0;
     db_rejects := fun _ => false |}.

(** Two environments whose storage engines disagree on the order of
    documents with equal creation times. *)
Definition env_up : Env :=
  {| random := random env0; now := now env0; new_oid := new_oid env0;
     natural_rank := fun id => Z.of_N id;
     db_rejects := db_rejects env0 |}.
Definition env_down : Env :=
  {| random := random env0; now := now env0; new_oid := new_oid env0;
     natural_rank := fun id => - Z.of_N id;
     db_rejects := db_rejects env0 |}.

(** The analysis fails to validate under this clock: it runs backwards. *)
Definition env_skew : Env :=
  {| random := random env0; now := fun n => 1700000000000 - Z.of_nat n;
     new_oid := new_oid env0; natural_rank := natural_rank env0;
     db_rejects := db_rejects env0 |}.

Definition comparePassword (u : User) (candidate : string) : bool :=
  String.eqb (u_password u) ("hash:" +:+ candidate).

(** A cast for the samples: the 24 hexadecimal digits of an object id. *)
Fixpoint hex_value (acc : N) (s : string) : option N :=
  match s with
  | EmptyString => Some acc
  | String c rest =>
      match digit_value 16 c with
      | Some d => hex_value (16 * acc + Z.to_N d)%N rest
      | None => None
      end
  end.

Definition castObjectId (s : string) : option ObjectId :=
  if Nat.eqb (String.length s) 24 then hex_value 0 s else None.

(** The path segments of the ids 10, 20 and 30. *)
Definition seg10 : string := "00000000000000000000000a".
Definition seg20 : string := "000000000000000000000014".
Definition seg30 : string := "00000000000000000000001e".

Definition alice : UserDoc :=
  (1%N, {| u_name := "Alice"; u_email := "alice@example.com";
           u_password := "hash:secret123456";
           u_createdAt := 1690000000000; u_updatedAt := 1690000000000 |}).
Definition bob : UserDoc :=
  (2%N, {| u_name := "Bob"; u_email := "bob@example.com";
           u_password := "hash:hunter2hunter2";
           u_createdAt := 1690000000001; u_updatedAt := 1690000000001 |}).

Definition scan_of (owner : ObjectId) (file blob : string) (score : Z)
    (fresh : string) (created : Z) : Scan :=
  {| userId := owner; fileName := file; fileType := "image/jpeg";
     filePath := blob; fileSize := 2048; analysisDate := created;
     qualityScore := score; freshness := fresh; nutritionalValue := "High";
     recommendations :=
       ["Rich in vitamins and minerals"; "Good source of dietary fiber";
        "Low in saturated fats"];
     warnings := [];
     analysisMetadata :=
       {| processingTime := 1500; modelVersion := "1.0.0"; confidence := 9 # 10 |};
     createdAt := created; updatedAt := created |}.

Definition apple : Scan := scan_of 1 "apple.jpg" "scan-1-10.jpg" 82 "Good" 1700000001000.
Definition pear : Scan := scan_of 1 "pear.jpg" "scan-1-11.jpg" 75 "Fair" 1700000001000.
Definition plum : Scan := scan_of 1 "plum.jpg" "scan-1-12.jpg" 95 "Good" 1700000002000.
Definition kiwi : Scan := scan_of 2 "kiwi.jpg" "scan-2-20.jpg" 88 "Good" 1700000003000.

Definition empty : World :=
  {| users := {[ 1%N := alice.2; 2%N := bob.2 ]}; scans := ∅; uploads := ∅;
     rng := 0; clk := 0; trace := [] |}.

(** Alice owns three scans, two of them created in the same
    millisecond; Bob owns one. Every blob is in place. *)
Definition world : World :=
  {| users := {[ 1%N := alice.2; 2%N := bob.2 ]};
     scans := {[ 10%N := apple; 11%N := pear; 12%N := plum; 20%N := kiwi ]};
     uploads := {[ "scan-1-10.jpg" := Regular; "scan-1-11.jpg" := Regular;
                   "scan-1-12.jpg" := Regular; "scan-2-20.jpg" := Regular ]};
     rng := 0; clk := 0; trace := [] |}.

(** Alice owns the two scans created in the same millisecond. *)
Definition world_tie : World :=
  {| users := {[ 1%N := alice.2; 2%N := bob.2 ]};
     scans := {[ 10%N := apple; 11%N := pear ]};
     uploads := {[ "scan-1-10.jpg" := Regular; "scan-1-11.jpg" := Regular ]};
     rng := 0; clk := 0; trace := [] |}.

(** The blob of Alice's scan cannot be unlinked. *)
Definition world_locked : World :=
  {| users := {[ 1%N := alice.2 ]};
     scans := {[ 10%N := apple ]};
     uploads := {[ "scan-1-10.jpg" := Protected ]};
     rng := 0; clk := 0; trace := [] |}.

Definition jpeg : FilePart :=
  {| originalname := "apple.jpg"; mimetype := "image/jpeg"; size_bytes := 2097152 |}.
Definition text : FilePart :=
  {| originalname := "notes.txt"; mimetype := "text/plain"; size_bytes := 120 |}.
(** A part whose name is blank once trimmed: the record fails validation. *)
Definition blank_name : FilePart :=
  {| originalname := "   "; mimetype := "image/png"; size_bytes := 2048 |}.

Definition history_request (page limit : string) : HistoryRequest :=
  {| h_user := Some alice; q_page := Some page; q_limit := Some limit;
     q_freshness := None; q_minScore := None; q_maxScore := None |}.

(** Alice's scans with a score of at least 80, one per page. *)
Definition band_request : HistoryRequest :=
  {| h_user := Some alice; q_page := None; q_limit := Some "1";
     q_freshness := None; q_minScore := Some "80"; q_maxScore := None |}.

Definition page_label (i : nat) : string :=
  match i with
  | O => "1"
  | _ => "2"
  end.

(** Successive queries served by engines of different preferences. *)
Definition engines (i : nat) : Env :=
  if Nat.even i then env_up else env_down.

(** The score band of the listing property, with and without the
    freshness filter. *)
Definition score_band_request (good : bool) : HistoryRequest :=
  {| h_user := Some alice; q_page := None; q_limit := None;
     q_freshness := if good then Some "Good" else None;
     q_minScore := Some "70"; q_maxScore := Some "89" |}.

End Sample.

Definition deleted : Response :=
  res_json (JObj [("success", JBool true); ("message", JStr "Scan deleted successfully")]).

Definition delete_failed : Response :=
  res_status_json 500 (failure "Internal server error while deleting scan").

Definition fetch_failed : Response :=
  res_status_json 500 (failure "Internal server error while fetching scan").

Definition account_deleted : Response :=
  res_json (JObj [("success", JBool true); ("message", JStr "Account deleted successfully")]).

(** ** Reasoning about computations that only consult the runtime *)

(** The two collections, the uploads directory and the trace agree. *)
Definition same_stores (w w' : World) : Prop :=
  users w' = users w ∧ scans w' = scans w
  ∧ uploads w' = uploads w ∧ trace w' = trace w.

(** Under [env], [m] always returns, touches no store, and its result
    satisfies [P]. *)
Definition yields {A} (env : Env) (m : M A) (P : A → Prop) : Prop :=
  ∀ w, ∃ a w', m env w = (Ok a, w') ∧ same_stores w w' ∧ P a.

(** The contract of [Math.random]: every draw lies in [0, 1). *)
Definition fair (env : Env) : Prop :=
  ∀ n, (0 <= random env n)%Q ∧ (random env n < 1)%Q.

(** What the placeholder analysis guarantees about its result. *)
Definition analysis_post (a : AnalysisResult) : Prop :=
  60 ≤ a_qualityScore a ≤ 99
  ∧ a_freshness a ∈ freshness_enum
  ∧ a_nutritionalValue a ∈ nutritionalValue_enum
  ∧ length (a_recommendations a) = 3%nat
  ∧ (length (a_warnings a) ≤ 2)%nat
  ∧ (7 # 10 <= confidence (a_analysisMetadata a))%Q
  ∧ (confidence (a_analysisMetadata a) < 1)%Q.

(** The name under which the disk storage stores a part. *)
Definition generated_name (env : Env) (w : World) (part : FilePart) : string :=
  match (storage_filename part env w).1 with
  | Ok name => name
  | Throw _ => ""
  end.

Definition analyzed (d : ObjectId * Scan) : Response :=
  res_json (JObj [("success", JBool true);
                  ("message", JStr "File analyzed successfully");
                  ("data", analyze_data d)]).

Definition invalid_file_type : Response :=
  res_status_json 500
    (failure "Invalid file type. Only JPEG, PNG, WebP images and PDF files are allowed.").

(** Does the answer (if any) carry a property named [k] anywhere? *)
Definition exposes (k : string) (r : Result Response * World) : bool :=
  match r.1 with
  | Ok resp => json_has_key k (body resp)
  | Throw _ => false
  end.

Definition with_filePath (p : string) (s : Scan) : Scan :=
  {| userId := userId s; fileName := fileName s; fileType := fileType s;
     filePath := p; fileSize := fileSize s;
     analysisDate := analysisDate s; qualityScore := qualityScore s;
     freshness := freshness s; nutritionalValue := nutritionalValue s;
     recommendations := recommendations s; warnings := warnings s;
     analysisMetadata := analysisMetadata s; createdAt := createdAt s;
     updatedAt := updatedAt s |}.

(** The same document under another blob name. *)
Definition rename_blob (ρ : ObjectId → string) (d : ObjectId * Scan) : ObjectId * Scan :=
  (d.1, with_filePath (ρ d.1) d.2).

(** [j] without its members named [k], at any depth. *)
Fixpoint json_erase (k : string) (j : Json) : Json :=
  match j with
  | JArr items => JArr (List.map (json_erase k) items)
  | JObj fields =>
      JObj ((fix go (l : list (string * Json)) : list (string * Json) :=
               match l with
               | [] => []
               | (k', v) :: rest =>
                   if String.eqb k' k then go rest else (k', json_erase k v) :: go rest
               end) fields)
  | _ => j
  end.

(** Does [needle] occur in [hay]? *)
Definition occurs_in (needle hay : string) : bool :=
  match String.index 0 needle hay with
  | Some _ => true
  | None => false
  end.

(** Does some string value of [j], at any depth, contain [needle]? *)
Fixpoint json_mentions (needle : string) (j : Json) : bool :=
  match j with
  | JStr s => occurs_in needle s
  | JArr items => existsb (json_mentions needle) items
  | JObj fields =>
      existsb (fun kv => match kv with (_, v) => json_mentions needle v end) fields
  | _ => false
  end.

(** The documents that [find(filters).sort().skip().limit()] returns
    once the filter object has been cast. *)
Definition history_page (rank : ObjectId → Z) (f : Filters)
    (range : option Z * option Z) (skip limit : Z) (m : gmap ObjectId Scan)
    : list (ObjectId * Scan) :=
  let rest := drop (Z.to_nat skip) (sort_newest_first rank (matching f range m)) in
  if limit =? 0 then rest else take (Z.to_nat (Z.abs limit)) rest.

Definition history_failed : Response :=
  res_status_json 500 (failure "Internal server error while fetching history").

(** The [fileUrl] of the record in the [data] member of an answer. *)
Definition data_fileUrl (r : Result Response * World) : option Json :=
  match responds r with
  | Some resp =>
      match json_get "data" (body resp) with
      | Some d => json_get "fileUrl" d
      | None => None
      end
  | None => None
  end.

(** The [fileUrl]s of the records listed in an answer. *)
Definition listed_fileUrls (r : Result Response * World) : list (option Json) :=
  match responds r with
  | Some resp => json_get "fileUrl" <$> scans_of (body resp)
  | None => []
  end.

(** ** Vocabulary of the listing properties *)

(** A record of [owner] with a score in the band [70, 89], and, when
    [good] is set, with freshness ["Good"]. *)
Definition in_band (owner : ObjectId) (good : bool) (s : Scan) : Prop :=
  userId s = owner ∧ 70 ≤ qualityScore s ≤ 89
  ∧ (good = true → freshness s = "Good").

Global Instance in_band_dec owner good s : Decision (in_band owner good s) :=
  ltac:(unfold in_band; apply _).

(** [x] was created strictly after [y]. *)
Definition strictly_newer (x y : ObjectId * Scan) : Prop :=
  createdAt y.2 < createdAt x.2.

(** No two documents of [m] were created in the same millisecond. *)
Definition distinct_times (m : gmap ObjectId Scan) : Prop :=
  NoDup ((λ kv : ObjectId * Scan, createdAt kv.2) <$> map_to_list m).

(** The same query for another page. *)
Definition page_request (base : HistoryRequest) (page : string) : HistoryRequest :=
  {| h_user := h_user base; q_page := Some page; q_limit := q_limit base;
     q_freshness := q_freshness base; q_minScore := q_minScore base;
     q_maxScore := q_maxScore base |}.

(** Page [i] (counted from 0) of a list cut into pages of [limit]. *)
Definition page_slice {A} (limit : Z) (i : nat) (l : list A) : list A :=
  take (Z.to_nat limit) (drop (i * Z.to_nat limit) l).

(** The [_id]s of the records listed in an answer. *)
Definition listed_ids (r : Result Response * World) : list (option Json) :=
  match responds r with
  | Some resp => json_get "_id" <$> scans_of (body resp)
  | None => []
  end.

(** The [pagination] member of an answer. *)
Definition pagination_of (r : Result Response * World) : option Json :=
  match responds r with
  | Some resp =>
      match json_get "data" (body resp) with
      | Some d => json_get "pagination" d
      | None => None
      end
  | None => None
  end.

(** ** middleware/auth.ts *)

(** [s.split(' ')] *)
Fixpoint split_space (s : string) : list string :=
  match s with
  | EmptyString => [""]
  | String c rest =>
      if Ascii.eqb c " " then "" :: split_space rest
      else match split_space rest with
           | seg :: segs => String c seg :: segs
           | [] => [String c ""]
           end
  end.

(** [authHeader && authHeader.split(' ')[1]]: an absent or empty header
    is itself the (falsy) result. *)
Definition bearer_token (authorization : option string) : option string :=
  match authorization with
  | None => None
  | Some h => if String.eqb h "" then Some "" else split_space h !! 1%nat
  end.

(** What the middleware did: it answered, or it attached [req.user] and
    called [next()]. *)
Inductive AuthOutcome :=
  | Responded (r : Response)
  | Next (user : UserDoc).

Section Auth.

(** [process.env.JWT_SECRET]. *)
Variable JWT_SECRET : option string.

(** [jwt.verify(token, secret)] of the jsonwebtoken package, which is not
    among the sources: the [userId] of the payload (as an object id), or
    the error it throws ([JsonWebTokenError], [TokenExpiredError], ...). *)
Variable jwt_verify : string → string → Result ObjectId.

(** Mongoose's cast of a query value to an object id, as in [Lookup]. *)
Variable castObjectId : string → option ObjectId.

Definition authenticateToken (authorization : option string) : M AuthOutcome :=
  try_catch
    (let token := bearer_token authorization in
     if negb (truthy token) then
       ret (Responded (res_status_json 401 (failure "Access token is required")))
     else if negb (truthy JWT_SECRET) then
       throw (Error "JWT_SECRET is not defined in environment variables")
     else
       (* Verify token *)
       match jwt_verify (default "" token) (default "" JWT_SECRET) with
       | Throw e => throw e
       | Ok userId =>
           (* Find user by ID *)
           do user <- User_findById userId;
           match user with
           | None =>
               ret (Responded
                      (res_status_json 401 (failure "Invalid token - user not found")))
           | Some u => ret (Next u)
           end
       end)
    (fun error =>
       if String.eqb (err_name error) "JsonWebTokenError" then
         ret (Responded (res_status_json 401 (failure "Invalid token")))
       else if String.eqb (err_name error) "TokenExpiredError" then
         ret (Responded (res_status_json 401 (failure "Token expired")))
       else
         ret (Responded (res_status_json 500 (failure "Authentication failed")))).

(** A route mounted behind [authenticateToken]: the handler runs only
    when the middleware called [next()], with the user it attached. *)
Definition protected (authorization : option string)
    (handler : option UserDoc → M Response) : M Response :=
  do outcome <- authenticateToken authorization;
  match outcome with
  | Responded r => ret r
  | Next u => handler (Some u)
  end.

(** The routes of routes/scan.ts as they are mounted. *)
Definition route_analyze (authorization : option string)
    (part : option FilePart) : M Response :=
  protected authorization (fun user =>
    post_analyze {| an_user := user; an_file := part |}).

Definition route_get_scan (authorization : option string) (id : string) : M Response :=
  protected authorization (fun user =>
    get_scan castObjectId {| s_user := user; s_scanId := id |}).

Definition route_delete_scan (authorization : option string) (id : string) : M Response :=
  protected authorization (fun user =>
    delete_scan castObjectId {| s_user := user; s_scanId := id |}).

End Auth.

(** ** routes/user.ts: GET /profile and PUT /profile *)

(** The [data] member of both profile responses. *)
Definition profile_data (u : ObjectId * User) : Json :=
  JObj [("id", JOid u.1);
        ("name", JStr (u_name u.2));
        ("email", JStr (u_email u.2));
        ("createdAt", JDate (u_createdAt u.2));
        ("updatedAt", JDate (u_updatedAt u.2))].

Definition get_profile (user : option UserDoc) : M Response :=
  try_catch
    (match user with
     | None => ret (res_status_json 401 (failure "User not authenticated"))
     | Some u => ret (res_json (JObj [("success", JBool true); ("data", profile_data u)]))
     end)
    (fun _ => ret (res_status_json 500
                     (failure "Internal server error while fetching profile"))).

Definition rename (name : string) (t : option Z) (u : User) : User :=
  {| u_name := name; u_email := u_email u; u_password := u_password u;
     u_createdAt := u_createdAt u;
     u_updatedAt := default (u_updatedAt u) t |}.

Definition UserValidationError (msgs : list string) : JsError :=
  {| err_name := "ValidationError"; err_message := "Validation failed";
     err_code := None; err_status := None; err_errors := msgs |}.

Section Profile.

(** The user schema is not among the sources. Its validators for the
    [name] path give the messages of the rules a value breaks, and
    [user_timestamps] tells whether the schema maintains [updatedAt]. *)
Variable name_errors : string → list string.
Variable user_timestamps : bool.

(** [User.findByIdAndUpdate(id, { name }, { new: true, runValidators:
    true })]: the update validators run first; the updated document is
    returned, or null when there is none with that id. An update in place
    leaves no entry in the trace. *)
Definition User_findByIdAndUpdate (id : ObjectId) (name : string) : M (option UserDoc) :=
  match name_errors name with
  | [] =>
      do t <- Date_now;
      do old <- gets (fun w => users w !! id);
      match old with
      | None => ret None
      | Some u =>
          let u' := rename name (if user_timestamps then Some t else None) u in
          do_ modify (set_users (<[id := u']>));
          ret (Some (id, u'))
      end
  | msgs => throw (UserValidationError msgs)
  end.

Definition put_profile (user : option UserDoc) (name : option string) : M Response :=
  try_catch
    (match user with
     | None => ret (res_status_json 401 (failure "User not authenticated"))
     | Some u =>
         if negb (truthy name) || (String.length (trim (default "" name)) =? 0)%nat then
           ret (res_status_json 400 (failure "Name is required"))
         else
           do updatedUser <- User_findByIdAndUpdate u.1 (trim (default "" name));
           match updatedUser with
           | None => ret (res_status_json 404 (failure "User not found"))
           | Some u' =>
               ret (res_json (JObj [("success", JBool true);
                                    ("message", JStr "Profile updated successfully");
                                    ("data", profile_data u')]))
           end
     end)
    (fun error =>
       if String.eqb (err_name error) "ValidationError" then
         ret (res_status_json 400
                (JObj [("success", JBool false); ("message", JStr "Validation error");
                       ("errors", JArr (JStr <$> err_errors error))]))
       else
         ret (res_status_json 500
                (failure "Internal server error while updating profile"))).

End Profile.

(** ** routes/user.ts: GET /stats *)

(** The documents selected by [{ userId }]. *)
Definition owned (owner : ObjectId) (m : gmap ObjectId Scan) : gmap ObjectId Scan :=
  filter (fun kv : ObjectId * Scan => userId kv.2 = owner) m.

Definition owned_scans (owner : ObjectId) (w : World) : list Scan :=
  (map_to_list (owned owner (scans w))).*2.

(** [{ $group: { _id: key, count: { $sum: 1 } } }]: one group per key
    that occurs, with the number of its documents. *)
Definition group_count `{Countable K} (key : Scan → K) (l : list Scan) : gmap K Z :=
  foldr (fun s m => <[key s := default 0 (m !! key s) + 1]> m) ∅ l.

(** [{ $group: { _id: null, avgScore: { $avg: '$qualityScore' } } }]:
    no group at all when nothing matches. *)
Definition avg_score (l : list Scan) : option Q :=
  match l with
  | [] => None
  | _ => Some (foldr (fun s acc => qualityScore s + acc) 0 l # Pos.of_nat (length l))
  end.

(** The [$switch] of the score-range aggregation. *)
Definition quality_range (score : Z) : string :=
  if 90 <=? score then "excellent"
  else if 70 <=? score then "good"
  else if 50 <=? score then "fair"
  else "poor".

(** [Scan.aggregate([{ $match: { userId } }, stage])]: the stage applied
    to the documents of the owner. *)
Definition Scan_aggregate {A} (owner : ObjectId) (stage : list Scan → A) : M A :=
  gets (fun w => stage (owned_scans owner w)).

(** [Scan.findOne({ userId }).sort({ createdAt: -1 })] *)
Definition Scan_findLatest (owner : ObjectId) : M (option ScanDoc) :=
  do rank <- asks natural_rank;
  gets (fun w => head (sort_newest_first rank (owned owner (scans w)))).

(** [acc[item._id] = item.count] over the groups; the order in which the
    aggregation returns its groups is unspecified. *)
Definition counts_object (m : gmap string Z) : Json :=
  JObj ((fun kv : string * Z => (kv.1, JInt kv.2)) <$> map_to_list m).

(** [s.padStart(2, '0')] *)
Definition padStart2 (s : string) : string :=
  match String.length s with
  | 0%nat => "00"
  | 1%nat => "0" +:+ s
  | _ => s
  end.

(** [{ $sort: { '_id.year': 1, '_id.month': 1 } }] *)
Definition month_le (x y : (Z * Z) * Z) : Prop :=
  x.1.1 < y.1.1 ∨ (x.1.1 = y.1.1 ∧ x.1.2 ≤ y.1.2).

Global Instance month_le_dec x y : Decision (month_le x y) :=
  ltac:(unfold month_le; apply _).

Definition month_entry (g : (Z * Z) * Z) : Json :=
  JObj [("month", JStr (pretty g.1.1 +:+ "-" +:+ padStart2 (pretty g.1.2)));
        ("count", JInt g.2)].

Definition stats_body (totalScans averageScore : Z) (latestScan : option (ObjectId * Scan))
    (freshnessCounts qualityRanges : gmap string Z)
    (monthlyScans : list ((Z * Z) * Z)) : Json :=
  JObj [("success", JBool true);
        ("data",
         JObj [("totalScans", JInt totalScans);
               ("averageScore", JInt averageScore);
               ("lastScanDate",
                match latestScan with
                | Some d => JDate (analysisDate d.2)
                | None => JNull
                end);
               ("freshnessCounts", counts_object freshnessCounts);
               ("qualityRanges", counts_object qualityRanges);
               ("monthlyScans", JArr (month_entry <$> monthlyScans))])].

Section Stats.

(** The calendar arithmetic of [Date] and of the aggregation operators,
    on millisecond time stamps: the instant six months before a given
    one ([setMonth(getMonth() - 6)]), and [$year] and [$month]. *)
Variable six_months_before : Z → Z.
Variable year_of : Z → Z.
Variable month_of : Z → Z.

Definition monthly_groups (since : Z) (l : list Scan) : list ((Z * Z) * Z) :=
  merge_sort month_le
    (map_to_list
       (group_count (fun s => (year_of (createdAt s), month_of (createdAt s)))
          (List.filter (fun s => since <=? createdAt s) l))).

Definition get_stats (user : option UserDoc) : M Response :=
  try_catch
    (match user with
     | None => ret (res_status_json 401 (failure "User not authenticated"))
     | Some u =>
         (* Get scan statistics *)
         do totalScans <- Scan_countDocuments
                            {| f_userId := u.1; f_freshness := None;
                               f_qualityScore := None |};
         do avgScoreResult <- Scan_aggregate u.1 avg_score;
         let averageScore :=
           match avgScoreResult with
           | Some avg => Math_round avg
           | None => 0
           end in
         (* Get latest scan *)
         do latestScan <- Scan_findLatest u.1;
         (* Get scans by freshness *)
         do freshnessCounts <- Scan_aggregate u.1 (group_count freshness);
         (* Get scans by quality score ranges *)
         do qualityRanges <-
           Scan_aggregate u.1 (group_count (fun s => quality_range (qualityScore s)));
         (* Get monthly scan counts for the last 6 months *)
         do today <- Date_now;
         let sixMonthsAgo := six_months_before today in
         do monthlyScans <- Scan_aggregate u.1 (monthly_groups sixMonthsAgo);
         ret (res_json (stats_body totalScans averageScore latestScan
                          freshnessCounts qualityRanges monthlyScans))
     end)
    (fun _ => ret (res_status_json 500
                     (failure "Internal server error while fetching statistics"))).

End Stats.

(** ** Vocabulary of the further properties *)

(** Every record's blob is in the uploads directory. *)
Definition blobs_present (w : World) : Prop :=
  ∀ id s, scans w !! id = Some s → is_Some (uploads w !! filePath s).

(** No two records share a blob. *)
Definition blobs_distinct (w : World) : Prop :=
  ∀ i j s t, scans w !! i = Some s → scans w !! j = Some t →
             filePath s = filePath t → i = j.

(** Every record passes the schema validators. *)
Definition records_valid (w : World) : Prop :=
  ∀ id s, scans w !! id = Some s → validate s = [].

(** The number of documents of a list with a given key. *)
Definition occurrences `{EqDecision K} (key : Scan → K) (k : K) (l : list Scan) : Z :=
  Z.of_nat (length (List.filter (fun s => bool_decide (key s = k)) l)).

Definition has_slash (s : string) : bool :=
  existsb (fun c => Ascii.eqb c "/") (list_ascii_of_string s).

(** The band count of a score-range object, [0] when the band is absent. *)
Definition band_count (m : gmap string Z) (band : string) : Z :=
  default 0 (m !! band).

Definition has_space (s : string) : bool :=
  existsb (fun c => Ascii.eqb c " ") (list_ascii_of_string s).

Definition token_required : Response :=
  res_status_json 401 (failure "Access token is required").

(** A verifier for the samples: the token ["alice-token"] is Alice's,
    ["ghost-token"] names an account that no longer exists,
    ["old-token"] has expired, anything else is malformed. *)
Definition sample_verify (token secret : string) : Result ObjectId :=
  if String.eqb token "alice-token" then Ok 1%N
  else if String.eqb token "ghost-token" then Ok 77%N
  else if String.eqb token "old-token" then
    Throw {| err_name := "TokenExpiredError"; err_message := "jwt expired";
             err_code := None; err_status := None; err_errors := [] |}
  else
    Throw {| err_name := "JsonWebTokenError"; err_message := "jwt malformed";
             err_code := None; err_status := None; err_errors := [] |}.

(** The steps of the analyze handler's [try] block once the stored file
    and the caller are known: the analysis, the construction of the
    record and its persist. *)
Definition analyse_and_persist (u : UserDoc) (f : MulterFile) : M ScanDoc :=
  do analysisResult <- performFoodAnalysis (mf_filename f) (mf_mimetype f);
  do scan <- new_Scan u.1 (mf_originalname f) (mf_mimetype f)
               (mf_filename f) (mf_size f) analysisResult;
  Scan_save scan.

(** The clock never runs backwards between two readings. *)
Definition steady_clock (env : Env) : Prop :=
  ∀ n, now env n ≤ now env (S n).

(** * Properties *)

(** ** Point look-ups and ownership *)

Lemma Scan_findOne_malformed cast env w owner seg :
  cast seg = None →
  Scan_findOne cast seg owner env w
  = (Throw (CastError "Cast to ObjectId failed at path _id"), w).
Proof. intros Hc. unfold Scan_findOne. by rewrite Hc. Qed.

Lemma Scan_findOne_out_of_reach cast env w owner seg id :
  cast seg = Some id → out_of_reach w owner id →
  Scan_findOne cast seg owner env w = (Ok None, w).
Proof.
  intros Hc [Hnone | (s & Hs & Hne)]; unfold Scan_findOne, gets; rewrite Hc.
  - by rewrite Hnone.
  - rewrite Hs. by destruct (decide (userId s = owner)).
Qed.

Lemma Scan_findOne_owned cast env w owner seg id s :
  cast seg = Some id → scans w !! id = Some s → userId s = owner →
  Scan_findOne cast seg owner env w = (Ok (Some (id, s)), w).
Proof.
  intros Hc Hs Ho. unfold Scan_findOne, gets. rewrite Hc, Hs.
  by destruct (decide (userId s = owner)).
Qed.

Lemma Scan_findOne_Some cast env w owner seg d r :
  Scan_findOne cast seg owner env w = (Ok (Some d), r) →
  r = w ∧ cast seg = Some d.1 ∧ scans w !! d.1 = Some d.2 ∧ userId d.2 = owner.
Proof.
  unfold Scan_findOne, gets. destruct (cast seg) as [id|]; [|done].
  destruct (scans w !! id) as [s|] eqn:Hs; [|done].
  destruct (decide (userId s = owner)); [|done].
  intros [= <- <-]. done.
Qed.

(** A look-up never changes the state. *)
Lemma Scan_findOne_state cast env w owner seg :
  (Scan_findOne cast seg owner env w).2 = w.
Proof. unfold Scan_findOne, gets, throw. by destruct (cast seg). Qed.

Lemma get_scan_out_of_reach cast env w (u : UserDoc) seg id :
  cast seg = Some id → out_of_reach w u.1 id →
  get_scan cast {| s_user := Some u; s_scanId := seg |} env w = (Ok not_found, w).
Proof.
  intros Hc H. unfold get_scan. unfold_monad. cbn.
  by rewrite (Scan_findOne_out_of_reach cast env w u.1 seg id Hc H).
Qed.

Lemma delete_scan_out_of_reach cast env w (u : UserDoc) seg id :
  cast seg = Some id → out_of_reach w u.1 id →
  delete_scan cast {| s_user := Some u; s_scanId := seg |} env w = (Ok not_found, w).
Proof.
  intros Hc H. unfold delete_scan. unfold_monad. cbn.
  by rewrite (Scan_findOne_out_of_reach cast env w u.1 seg id Hc H).
Qed.

Lemma get_scan_malformed cast env w (u : UserDoc) seg :
  cast seg = None →
  get_scan cast {| s_user := Some u; s_scanId := seg |} env w = (Ok fetch_failed, w).
Proof.
  intros Hc. unfold get_scan. unfold_monad. cbn.
  by rewrite (Scan_findOne_malformed cast env w u.1 seg Hc).
Qed.

Lemma delete_scan_malformed cast env w (u : UserDoc) seg :
  cast seg = None →
  delete_scan cast {| s_user := Some u; s_scanId := seg |} env w = (Ok delete_failed, w).
Proof.
  intros Hc. unfold delete_scan. unfold_monad. cbn.
  by rewrite (Scan_findOne_malformed cast env w u.1 seg Hc).
Qed.

(** A successful [getById] only ever returns a record of the caller. *)
Lemma get_scan_owned cast env w u seg r w' :
  get_scan cast {| s_user := Some u; s_scanId := seg |} env w = (Ok r, w') →
  status r = 200 →
  ∃ id s, cast seg = Some id ∧ scans w !! id = Some s ∧ userId s = u.1
       ∧ body r = JObj [("success", JBool true); ("data", scan_view (id, s))].
Proof.
  unfold get_scan. unfold_monad. cbn.
  destruct (Scan_findOne cast seg u.1 env w) as [[[d|]|e] w1] eqn:Hf; cbn;
    intros [= <- <-]; try done.
  apply Scan_findOne_Some in Hf as (-> & Hid & Hs & Ho).
  destruct d as [i s]; simpl in *. intros _. by exists i, s.
Qed.

(** What [DELETE /:scanId] does on a record of the caller, by the state
    of the record's blob and the database's answer to the delete. *)
Lemma delete_scan_owned cast env w (u : UserDoc) seg id s :
  cast seg = Some id → scans w !! id = Some s → userId s = u.1 →
  delete_scan cast {| s_user := Some u; s_scanId := seg |} env w =
    match uploads w !! filePath s with
    | Some Regular =>
        let w1 := log (EUnlink (filePath s)) (set_uploads (delete (filePath s)) w) in
        if db_rejects env (EScanDelete id) then (Ok delete_failed, w1)
        else (Ok deleted, log (EScanDelete id) (set_scans (delete id) w1))
    | Some Protected => (Ok delete_failed, w)
    | None =>
        if db_rejects env (EScanDelete id) then (Ok delete_failed, w)
        else (Ok deleted, log (EScanDelete id) (set_scans (delete id) w))
    end.
Proof.
  intros Hc Hs Ho. unfold delete_scan. unfold_monad. cbn.
  rewrite (Scan_findOne_owned cast env w u.1 seg id s Hc Hs Ho). cbn.
  unfold fs_existsSync, fs_unlinkSync, Scan_findByIdAndDelete, db_write.
  unfold_monad. cbn.
  destruct (uploads w !! filePath s) as [[]|] eqn:Hb; cbn; rewrite ?Hb; cbn;
    by destruct (db_rejects env (EScanDelete id)).
Qed.

(** What [DELETE /:scanId] does to the stores, for every request:
    nothing; or the caller's record and its blob are removed; or, when
    the database refuses the delete, the blob alone is removed. *)
Lemma delete_scan_stores cast env w req :
  let out := delete_scan cast req env w in
  users out.2 = users w
  ∧ ((scans out.2 = scans w ∧ uploads out.2 = uploads w ∧ out.1 ≠ Ok deleted)
     ∨ (∃ u id s, s_user req = Some u ∧ cast (s_scanId req) = Some id
          ∧ scans w !! id = Some s ∧ userId s = (u : UserDoc).1
          ∧ uploads out.2 = delete (filePath s) (uploads w)
          ∧ ((out.1 = Ok deleted ∧ db_rejects env (EScanDelete id) = false
              ∧ scans out.2 = delete id (scans w))
             ∨ (out.1 = Ok delete_failed ∧ db_rejects env (EScanDelete id) = true
                ∧ scans out.2 = scans w)))).
Proof.
  destruct req as [[u|] seg]; cbn zeta; [|split; [done|]; left; by split_and!].
  destruct (cast seg) as [id|] eqn:Hc.
  - destruct (scans w !! id) as [s|] eqn:Hs.
    + destruct (decide (userId s = u.1)) as [Ho|Ho].
      * rewrite (delete_scan_owned cast env w u seg id s Hc Hs Ho).
        destruct (uploads w !! filePath s) as [[|]|] eqn:Hb; cbn zeta;
          try destruct (db_rejects env (EScanDelete id)) eqn:Hdb; cbn.
        -- split; [done|]. right. exists u, id, s. split_and!; try done. by right.
        -- split; [done|]. right. exists u, id, s. split_and!; try done. by left.
        -- split; [done|]. left. by split_and!.
        -- split; [done|]. left. by split_and!.
        -- split; [done|]. left. by split_and!.
        -- split; [done|]. right. exists u, id, s. split_and!; try done.
           ++ by rewrite delete_id.
           ++ by left.
      * rewrite (delete_scan_out_of_reach cast env w u seg id Hc); [|right; eauto].
        split; [done|]. left. by split_and!.
    + rewrite (delete_scan_out_of_reach cast env w u seg id Hc); [|by left].
      split; [done|]. left. by split_and!.
  - rewrite (delete_scan_malformed cast env w u seg Hc).
    split; [done|]. left. by split_and!.
Qed.

(** [delete] never removes a record of another account. *)
Lemma delete_scan_foreign_kept cast env w u seg id' s' :
  scans w !! id' = Some s' → userId s' ≠ u.1 →
  scans (delete_scan cast {| s_user := Some u; s_scanId := seg |} env w).2 !! id'
  = Some s'.
Proof.
  intros Hs' Hne.
  destruct (delete_scan_stores cast env w {| s_user := Some u; s_scanId := seg |})
    as (_ & [(C & _) | (u0 & id & s & Hu & Hc & Hs & Ho & _ & [(_ & _ & C) | (_ & _ & C)])]);
    rewrite C; try done.
  cbn in Hu. injection Hu as <-.
  rewrite lookup_delete_ne; [done|]. intros <-. congruence.
Qed.

(** C1 (as the code has it). For every authenticated caller and every
    path segment that is a well-formed record id, [getById] and [delete]
    on a record that does not exist, or that belongs to another owner,
    both answer with the same 404 "Scan not found" response and leave
    the state untouched, so the two cases cannot be told apart. A
    segment that is not a well-formed id is answered 500 by both, with
    the state untouched as well. Whatever the segment, a record of
    another account is neither returned nor deleted. *)
Theorem not_found_collapse (cast : string → option ObjectId) (env : Env) (w : World)
    (u : UserDoc) (seg : string) :
  let get := get_scan cast {| s_user := Some u; s_scanId := seg |} env w in
  let del := delete_scan cast {| s_user := Some u; s_scanId := seg |} env w in
  (∀ id, cast seg = Some id → out_of_reach w u.1 id →
         get = (Ok not_found, w) ∧ del = (Ok not_found, w))
  ∧ (cast seg = None → get = (Ok fetch_failed, w) ∧ del = (Ok delete_failed, w))
  ∧ (∀ id s, scans w !! id = Some s → userId s ≠ u.1 →
             scans del.2 !! id = Some s ∧ get.2 = w)
  ∧ (∀ r, get.1 = Ok r → status r = 200 →
          ∃ id s, cast seg = Some id ∧ scans w !! id = Some s ∧ userId s = u.1
                  ∧ body r = JObj [("success", JBool true);
                                   ("data", scan_view (id, s))]).
Proof.
  intros get del. split_and!.
  - intros id Hc H. split.
    + by apply (get_scan_out_of_reach cast env w u seg id).
    + by apply (delete_scan_out_of_reach cast env w u seg id).
  - intros Hc. split.
    + by apply get_scan_malformed.
    + by apply delete_scan_malformed.
  - intros id s Hs Hne. split.
    + by apply delete_scan_foreign_kept.
    + subst get. unfold get_scan. unfold_monad. cbn.
      pose proof (Scan_findOne_state cast env w u.1 seg) as Hw.
      destruct (Scan_findOne cast seg u.1 env w) as [[[d|]|e] w1]; by cbn in *.
  - intros r Hr Hst. subst get.
    destruct (get_scan cast _ env w) as [res w'] eqn:E. cbn in Hr. subst res.
    by apply (get_scan_owned cast env w u seg r w').
Qed.

Lemma not_found_collapse_witness :
  get_scan Sample.castObjectId {| s_user := Some Sample.bob; s_scanId := Sample.seg10 |}
    Sample.env0 Sample.world = (Ok not_found, Sample.world)
  ∧ delete_scan Sample.castObjectId
      {| s_user := Some Sample.bob; s_scanId := Sample.seg10 |}
      Sample.env0 Sample.world = (Ok not_found, Sample.world).
Proof.
  apply (not_found_collapse Sample.castObjectId Sample.env0 Sample.world Sample.bob
           Sample.seg10) with 10%N.
  - reflexivity.
  - right. exists Sample.apple. split; [reflexivity | discriminate].
Defined.

(** C1 (as stated) fails on ids that are not well formed: no record
    exists under the segment ["42"], yet both operations answer 500
    rather than 404. *)
Lemma malformed_id_counterexample :
  Sample.castObjectId "42" = None
  ∧ (status <$> responds (get_scan Sample.castObjectId
                            {| s_user := Some Sample.alice; s_scanId := "42" |}
                            Sample.env0 Sample.world)) = Some 500
  ∧ (status <$> responds (delete_scan Sample.castObjectId
                            {| s_user := Some Sample.alice; s_scanId := "42" |}
                            Sample.env0 Sample.world)) = Some 500
  ∧ (status <$> responds (get_scan Sample.castObjectId
                            {| s_user := Some Sample.alice; s_scanId := "42" |}
                            Sample.env0 Sample.world)) ≠ Some 404.
Proof. vm_compute. repeat split; congruence. Qed.

(** ** Deleting a scan record *)

(** C4 (as the code has it). Scan-record deletion removes the blob
    first and the record second. When the blob cannot be removed the
    request fails with status 500 and nothing is deleted: the record
    stays in the collection. A blob that is already missing is skipped
    and the record is deleted. When the database refuses the delete of
    the record, the request fails with status 500 after the blob has
    been removed, and the record stays. *)
Theorem delete_blob_then_record (cast : string → option ObjectId) (env : Env)
    (w : World) (u : UserDoc) (seg : string) (id : ObjectId) (s : Scan) :
  cast seg = Some id → scans w !! id = Some s → userId s = u.1 →
  let r := delete_scan cast {| s_user := Some u; s_scanId := seg |} env w in
  match uploads w !! filePath s with
  | Some Regular =>
      if db_rejects env (EScanDelete id)
      then r.1 = Ok delete_failed
           ∧ trace r.2 = (trace w ++ [EUnlink (filePath s)])%list
           ∧ scans r.2 !! id = Some s ∧ uploads r.2 !! filePath s = None
      else r.1 = Ok deleted
           ∧ trace r.2 = (trace w ++ [EUnlink (filePath s); EScanDelete id])%list
  | Some Protected =>
      r.1 = Ok delete_failed ∧ r.2 = w ∧ scans r.2 !! id = Some s
  | None =>
      if db_rejects env (EScanDelete id)
      then r.1 = Ok delete_failed ∧ r.2 = w ∧ scans r.2 !! id = Some s
      else r.1 = Ok deleted ∧ trace r.2 = (trace w ++ [EScanDelete id])%list
  end.
Proof.
  intros Hc Hs Ho r. subst r. rewrite (delete_scan_owned cast env w u seg id s Hc Hs Ho).
  destruct (uploads w !! filePath s) as [[]|]; cbn zeta;
    try destruct (db_rejects env (EScanDelete id)); cbn; repeat split; try done.
  - apply lookup_delete_eq.
  - by rewrite <- app_assoc.
Qed.

Lemma delete_blob_then_record_witness :
  let r := delete_scan Sample.castObjectId
             {| s_user := Some Sample.alice; s_scanId := Sample.seg10 |}
             Sample.env0 Sample.world_locked in
  r.1 = Ok delete_failed ∧ r.2 = Sample.world_locked
  ∧ scans r.2 !! 10%N = Some Sample.apple.
Proof.
  exact (delete_blob_then_record Sample.castObjectId Sample.env0 Sample.world_locked
           Sample.alice Sample.seg10 10%N Sample.apple eq_refl eq_refl eq_refl).
Defined.

(** C4 (as stated) fails: on a record whose blob is in place the blob
    is unlinked before the record is deleted, and on a record whose blob
    cannot be unlinked the request answers 500 and keeps the record. *)
Lemma delete_record_first_counterexample :
  trace (delete_scan Sample.castObjectId
           {| s_user := Some Sample.alice; s_scanId := Sample.seg10 |}
           Sample.env0 Sample.world_tie).2
    = [EUnlink "scan-1-10.jpg"; EScanDelete 10%N]
  ∧ (let r := delete_scan Sample.castObjectId
                {| s_user := Some Sample.alice; s_scanId := Sample.seg10 |}
                Sample.env0 Sample.world_locked in
     (status <$> responds r) = Some 500
     ∧ (status <$> responds r) ≠ Some 200
     ∧ scans r.2 !! 10%N = Some Sample.apple).
Proof. vm_compute. repeat split; congruence. Qed.

(** C5. For every owned scan record, a delete that reports success has
    removed both the record and its blob: a following [getById] for the
    id answers 404 "Scan not found" (under any environment), and the
    existence check for the record's blob name is false. *)
Theorem delete_removes_record_and_blob (cast : string → option ObjectId)
    (env env' : Env) (w w' : World)
    (u : UserDoc) (seg : string) (id : ObjectId) (s : Scan) (r : Response) :
  cast seg = Some id → scans w !! id = Some s → userId s = u.1 →
  delete_scan cast {| s_user := Some u; s_scanId := seg |} env w = (Ok r, w') →
  status r = 200 →
  get_scan cast {| s_user := Some u; s_scanId := seg |} env' w' = (Ok not_found, w')
  ∧ scans w' !! id = None
  ∧ blob_exists w' (filePath s) = false.
Proof.
  intros Hc Hs Ho Hdel Hst.
  rewrite (delete_scan_owned cast env w u seg id s Hc Hs Ho) in Hdel.
  assert (scans w' !! id = None ∧ uploads w' !! filePath s = None) as [Hrec Hblob].
  { destruct (uploads w !! filePath s) as [[]|] eqn:Hb; cbn zeta in Hdel;
      try destruct (db_rejects env (EScanDelete id));
      injection Hdel as <- <-; cbn in *; try done.
    - split; apply lookup_delete_eq.
    - split; [apply lookup_delete_eq | done]. }
  split_and!; [|done|].
  - apply (get_scan_out_of_reach cast env' w' u seg id Hc). by left.
  - unfold blob_exists. rewrite Hblob. apply bool_decide_eq_false_2. by intros [? ?].
Qed.

Lemma delete_removes_record_and_blob_witness :
  let w' := (delete_scan Sample.castObjectId
               {| s_user := Some Sample.alice; s_scanId := Sample.seg10 |}
               Sample.env0 Sample.world).2 in
  get_scan Sample.castObjectId
    {| s_user := Some Sample.alice; s_scanId := Sample.seg10 |} Sample.env_up w'
    = (Ok not_found, w')
  ∧ scans w' !! 10%N = None
  ∧ blob_exists w' "scan-1-10.jpg" = false.
Proof.
  exact (delete_removes_record_and_blob Sample.castObjectId Sample.env0 Sample.env_up
           Sample.world _ Sample.alice Sample.seg10 10%N Sample.apple deleted
           eq_refl eq_refl eq_refl eq_refl eq_refl).
Defined.

(** ** Deleting an account *)

(** What [DELETE /account] does, for every request and every password
    check: an answer that leaves the state as it was; or, once the
    password re-verifies, the caller's records are removed and then the
    account, unless the database refuses the second delete. *)
Lemma delete_account_stores compare env w req :
  ∃ r w', delete_account compare req env w = (Ok r, w')
    ∧ ((status r ≠ 200 ∧ w' = w
        ∧ (status r = 500 →
           ∃ u : UserDoc, ac_user req = Some u
                          ∧ db_rejects env (EScanDeleteMany u.1) = true))
       ∨ (∃ (u : UserDoc) stored pw,
            ac_user req = Some u ∧ ac_password req = Some pw ∧ pw ≠ ""
            ∧ users w !! u.1 = Some stored ∧ compare stored pw = true
            ∧ db_rejects env (EScanDeleteMany u.1) = false
            ∧ scans w' = filter (λ kv : ObjectId * Scan, userId kv.2 ≠ u.1) (scans w)
            ∧ uploads w' = uploads w
            ∧ ((r = account_deleted ∧ db_rejects env (EUserDelete u.1) = false
                ∧ users w' = delete u.1 (users w)
                ∧ trace w' = (trace w ++ [EScanDeleteMany u.1; EUserDelete u.1])%list)
               ∨ (status r = 500 ∧ db_rejects env (EUserDelete u.1) = true
                  ∧ users w' = users w
                  ∧ trace w' = (trace w ++ [EScanDeleteMany u.1])%list)))).
Proof.
  destruct req as [[u|] pw];
    [|eexists _, _; split; [reflexivity|]; left; by split_and!].
  unfold delete_account, try_catch. cbn [ac_user ac_password].
  destruct (truthy pw) eqn:Hpw; cbn [negb];
    [|eexists _, _; split; [reflexivity|]; left; by split_and!].
  destruct pw as [pw|]; [|done]. cbn in Hpw.
  apply negb_true_iff, String.eqb_neq in Hpw.
  unfold bind at 1. unfold User_findById, gets.
  destruct (users w !! u.1) as [stored|] eqn:Hu; cbn [fmap option_fmap option_map];
    [|eexists _, _; split; [reflexivity|]; left; by split_and!].
  change (default "" (Some pw)) with pw. cbn [snd].
  destruct (compare stored pw) eqn:Hok; cbn [negb];
    [|eexists _, _; split; [reflexivity|]; left; by split_and!].
  unfold bind, Scan_deleteMany, User_findByIdAndDelete, db_write, ret.
  destruct (db_rejects env (EScanDeleteMany u.1)) eqn:Hmany.
  { eexists _, _; split; [reflexivity|]; left. split_and!; [done..|]. eauto. }
  cbn. destruct (db_rejects env (EUserDelete u.1)) eqn:Hone.
  - eexists _, _. split; [reflexivity|]. right. exists u, stored, pw.
    split_and!; try done. right. by split_and!.
  - eexists _, _. split; [reflexivity|]. right. exists u, stored, pw.
    split_and!; try done. left. cbn. rewrite <- app_assoc. by split_and!.
Qed.

(** Whatever the request, [DELETE /account] leaves the uploads directory
    as it found it: no blob is ever removed on this path. *)
Lemma delete_account_keeps_uploads compare req env w :
  uploads (delete_account compare req env w).2 = uploads w.
Proof.
  destruct (delete_account_stores compare env w req) as (r & w' & E & H).
  rewrite E. cbn.
  by destruct H as [(_ & -> & _) | (u & stored & pw & _ & _ & _ & _ & _ & _ & _ & B & _)].
Qed.

(** Once the password re-verifies and the database carries out both
    deletes, the request succeeds and no record of the account remains. *)
Lemma delete_account_removes_records compare env w (u : UserDoc) stored pw :
  users w !! u.1 = Some stored → pw ≠ "" → compare stored pw = true →
  db_rejects env (EScanDeleteMany u.1) = false →
  db_rejects env (EUserDelete u.1) = false →
  let r := delete_account compare {| ac_user := Some u; ac_password := Some pw |} env w in
  r.1 = Ok account_deleted
  ∧ (∀ id s, scans r.2 !! id = Some s → userId s ≠ u.1)
  ∧ (∀ id s, scans w !! id = Some s → userId s ≠ u.1 → scans r.2 !! id = Some s)
  ∧ users r.2 !! u.1 = None.
Proof.
  intros Hu Hpw Hok Hmany Hone. unfold delete_account. unfold_monad. cbn.
  assert (String.eqb pw "" = false) as -> by by apply String.eqb_neq.
  cbn. unfold User_findById, Scan_deleteMany, User_findByIdAndDelete, db_write.
  unfold_monad.
  cbn. rewrite Hu. cbn. rewrite Hok. cbn. rewrite Hmany. cbn. rewrite Hone. cbn.
  split_and!; [done| | |apply lookup_delete_eq].
  - intros id s Hs. by apply map_lookup_filter_Some in Hs as [_ ?].
  - intros id s Hs Hne. by apply map_lookup_filter_Some.
Qed.

(** C3 (failing input). Alice deletes her account with the right
    password: the request succeeds, her three scan records and her
    account are gone, Bob's record is kept, but the three blobs of her
    records are still in the uploads directory. *)
Theorem account_deletion_leaves_blobs :
  let r := delete_account Sample.comparePassword
             {| ac_user := Some Sample.alice; ac_password := Some "secret123456" |}
             Sample.env0 Sample.world in
  r.1 = Ok account_deleted
  ∧ map_to_list (scans r.2) = [(20%N, Sample.kiwi)]
  ∧ users r.2 !! 1%N = None
  ∧ trace r.2 = [EScanDeleteMany 1%N; EUserDelete 1%N]
  ∧ blob_exists r.2 (filePath Sample.apple) = true
  ∧ blob_exists r.2 (filePath Sample.pear) = true
  ∧ blob_exists r.2 (filePath Sample.plum) = true.
Proof. vm_compute. repeat split. Qed.

(** ** Computations that only consult the runtime *)

Lemma same_stores_refl w : same_stores w w.
Proof. by repeat split. Qed.

Lemma same_stores_trans w1 w2 w3 :
  same_stores w1 w2 → same_stores w2 w3 → same_stores w1 w3.
Proof. intros (?&?&?&?) (?&?&?&?). repeat split; congruence. Qed.

Lemma yields_ret {A} env (a : A) (P : A → Prop) : P a → yields env (ret a) P.
Proof. intros HP w. exists a, w. split_and!; [done|apply same_stores_refl|done]. Qed.

Lemma yields_bind {A B} env (m : M A) (k : A → M B) (P : A → Prop) (Q : B → Prop) :
  yields env m P → (∀ a, P a → yields env (k a) Q) → yields env (bind m k) Q.
Proof.
  intros Hm Hk w. destruct (Hm w) as (a & w1 & E1 & S1 & Pa).
  destruct (Hk a Pa w1) as (b & w2 & E2 & S2 & Qb).
  exists b, w2. unfold bind. rewrite E1. eauto using same_stores_trans.
Qed.

Lemma yields_weaken {A} env (m : M A) (P Q : A → Prop) :
  yields env m P → (∀ a, P a → Q a) → yields env m Q.
Proof.
  intros Hm HPQ w. destruct (Hm w) as (a & w1 & ? & ? & ?). eauto 6.
Qed.

Lemma yields_Math_random env (D : Q → Prop) :
  (∀ n, D (random env n)) → yields env Math_random D.
Proof. intros HD w. eexists _, _. split_and!; [reflexivity| |apply HD]. by repeat split. Qed.

Lemma yields_Date_now env : yields env Date_now (λ _, True).
Proof. intros w. eexists _, _. split_and!; [reflexivity| |done]. by repeat split. Qed.

Lemma yields_asks {A} env (f : Env → A) : yields env (asks f) (λ a, a = f env).
Proof. intros w. exists (f env), w. split_and!; [done|apply same_stores_refl|done]. Qed.

Lemma yields_insert_random {A} env (x : A) (l : list A) :
  yields env (insert_random x l) (λ l', length l' = S (length l)).
Proof.
  induction l as [|y rest IH]; cbn [insert_random].
  - by apply yields_ret.
  - eapply yields_bind; [apply (yields_Math_random env (λ _, True)); done|].
    intros r _. destruct (Qle_bool _ _).
    + eapply yields_bind; [apply IH|]. intros l' Hl'. apply yields_ret.
      cbn. by rewrite Hl'.
    + by apply yields_ret.
Qed.

Lemma yields_sort_random {A} env (l : list A) :
  yields env (sort_random l) (λ l', length l' = length l).
Proof.
  induction l as [|x rest IH]; cbn [sort_random].
  - by apply yields_ret.
  - eapply yields_bind; [apply IH|]. intros s Hs.
    eapply yields_weaken; [apply yields_insert_random|].
    intros l' Hl'. cbn. by rewrite Hl', Hs.
Qed.

(** ** The placeholder analysis *)

Lemma floor_scaled (r : Q) (n : Z) :
  0 < n → (0 <= r)%Q → (r < 1)%Q →
  0 ≤ Math_floor (r * inject_Z n) ≤ n - 1.
Proof.
  destruct r as [a b]. unfold Qle, Qlt, Math_floor. cbn.
  intros Hn Ha Hb. rewrite Z.mul_1_r in Ha, Hb. rewrite Z.mul_1_l in Hb.
  rewrite Pos.mul_1_r. split.
  - apply Z.div_pos; lia.
  - apply Z.lt_le_pred, Z.div_lt_upper_bound; nia.
Qed.

Lemma index_in_enum (l : list string) (i : Z) :
  0 ≤ i ≤ Z.of_nat (length l) - 1 → index_or_undefined l i ∈ l.
Proof.
  intros Hi. unfold index_or_undefined.
  destruct (i <? 0) eqn:E; [lia|].
  destruct (l !! Z.to_nat i) as [x|] eqn:Hx.
  - cbn. by eapply list_elem_of_lookup_2.
  - apply lookup_ge_None in Hx. lia.
Qed.

Lemma confidence_range (r : Q) :
  (0 <= r)%Q → (r < 1)%Q →
  (7 # 10 <= (7 # 10) + r * (3 # 10))%Q ∧ ((7 # 10) + r * (3 # 10) < 1)%Q.
Proof.
  destruct r as [a b]. unfold Qle, Qlt, Qplus, Qmult. cbn. intros Ha Hb. lia.
Qed.

(** The analysis always returns and touches no store. *)
Lemma performFoodAnalysis_total env path fileType :
  yields env (performFoodAnalysis path fileType) (λ _, True).
Proof.
  unfold performFoodAnalysis.
  assert (HD : yields env Math_random (λ _, True))
    by (by apply (yields_Math_random env (λ _, True))).
  eapply yields_bind; [apply yields_Date_now|]; intros t0 _.
  eapply yields_bind; [apply HD|]; intros delay _.
  eapply yields_bind; [apply yields_Date_now|]; intros t1 _.
  do 3 (eapply yields_bind; [apply HD|]; intros ? _).
  eapply yields_bind; [apply yields_sort_random|]; intros shuffled _.
  eapply yields_bind; [apply HD|]; intros r4 _.
  eapply yields_bind with (P := λ _ : list string, True).
  { destruct (Qle_bool r4 (7 # 10)); [by apply yields_ret|].
    eapply yields_bind; [apply HD|]; intros r5 _. by apply yields_ret. }
  intros ws _.
  eapply yields_bind; [apply HD|]; intros r6 _.
  by apply yields_ret.
Qed.

(** With fair draws the result is within the ranges of [analysis_post]. *)
Lemma performFoodAnalysis_post env path fileType :
  fair env → yields env (performFoodAnalysis path fileType) analysis_post.
Proof.
  intros Hfair. unfold performFoodAnalysis.
  pose (D := λ r : Q, (0 <= r)%Q ∧ (r < 1)%Q).
  assert (HD : yields env Math_random D) by (apply yields_Math_random, Hfair).
  eapply yields_bind; [apply yields_Date_now|]; intros t0 _.
  eapply yields_bind; [apply HD|]; intros delay _.
  eapply yields_bind; [apply yields_Date_now|]; intros t1 _.
  eapply yields_bind; [apply HD|]; intros r1 [H1 H1'].
  eapply yields_bind; [apply HD|]; intros r2 [H2 H2'].
  eapply yields_bind; [apply HD|]; intros r3 [H3 H3'].
  eapply yields_bind; [apply yields_sort_random|]; intros shuffled Hlen.
  eapply yields_bind; [apply HD|]; intros r4 _.
  eapply yields_bind with (P := λ ws : list string, (length ws ≤ 2)%nat).
  { destruct (Qle_bool r4 (7 # 10)).
    - apply yields_ret. cbn. lia.
    - eapply yields_bind; [apply HD|]; intros r5 _. apply yields_ret.
      unfold slice0. rewrite length_take. cbn. lia. }
  intros ws Hws.
  eapply yields_bind; [apply HD|]; intros r6 [H6 H6'].
  apply yields_ret. unfold analysis_post.
  cbn [a_qualityScore a_freshness a_nutritionalValue a_recommendations
       a_warnings a_analysisMetadata confidence].
  pose proof (floor_scaled r1 40 ltac:(lia) H1 H1').
  pose proof (floor_scaled r2 4 ltac:(lia) H2 H2').
  pose proof (floor_scaled r3 3 ltac:(lia) H3 H3').
  split_and!; try lia.
  - apply index_in_enum. change (Z.of_nat _) with 4. lia.
  - apply index_in_enum. change (Z.of_nat _) with 3. lia.
  - unfold slice0. rewrite length_take, Hlen. cbn. lia.
  - by apply confidence_range.
  - by apply confidence_range.
Qed.

(** ** Uploading and analysing *)

Lemma storage_filename_run env w part :
  ∃ w1, storage_filename part env w = (Ok (generated_name env w part), w1)
        ∧ same_stores w w1.
Proof.
  unfold generated_name, storage_filename, Date_now, Math_random. unfold_monad. cbn.
  eexists. split; [reflexivity|]. by repeat split.
Qed.

(** The upload middleware on a part of an allowed type: the part is
    written under its generated name; a part that reaches the size
    limit is removed again and refused. *)
Lemma upload_single_allowed env w part :
  mimetype part ∈ allowedTypes →
  let name := generated_name env w part in
  ∃ w1, same_stores w w1
    ∧ let w2 := log (EWriteFile name) (set_uploads (<[name := Regular]>) w1) in
      upload_single (Some part) env w =
        if maxFileSize <=? size_bytes part
        then (Throw (MulterError "LIMIT_FILE_SIZE" "File too large"),
              log (EUnlink name) (set_uploads (delete name) w2))
        else (Ok (Some {| mf_originalname := originalname part;
                          mf_mimetype := mimetype part;
                          mf_filename := name;
                          mf_size := size_bytes part |}), w2).
Proof.
  intros Hty name. destruct (storage_filename_run env w part) as (w1 & E1 & S1).
  exists w1. split; [done|]. cbn zeta.
  unfold upload_single, fileFilter. rewrite bool_decide_eq_true_2 by done.
  unfold bind at 1 2. unfold ret at 1. rewrite E1. fold name.
  unfold bind at 1. unfold fs_writeFile, modify.
  destruct (maxFileSize <=? size_bytes part); [|reflexivity].
  unfold bind, fs_unlink, modify, throw. reflexivity.
Qed.

Lemma new_Scan_yields env owner originalname mimetype filename size a :
  yields env (new_Scan owner originalname mimetype filename size a)
    (λ d, d.1 = new_oid env ∧ userId d.2 = owner ∧ filePath d.2 = filename
          ∧ qualityScore d.2 = a_qualityScore a
          ∧ recommendations d.2 = trim <$> a_recommendations a
          ∧ warnings d.2 = trim <$> a_warnings a
          ∧ analysisMetadata d.2 = a_analysisMetadata a).
Proof.
  unfold new_Scan.
  eapply yields_bind; [apply yields_asks|]; intros id ->.
  eapply yields_bind; [apply yields_Date_now|]; intros date _.
  by apply yields_ret.
Qed.

(** The [catch] block of the analyze handler, entered with any error
    that does not carry the upload middleware's size-limit code: the
    stored blob is unlinked and the answer is 500. *)
Lemma analyze_catch_cleans env w f e :
  uploads w !! mf_filename f = Some Regular →
  err_code e ≠ Some (CodeStr "LIMIT_FILE_SIZE") →
  analyze_catch (Some f) e env w =
    (Ok (res_status_json 500
           (failure (message_or (err_message e) "Internal server error during analysis"))),
     log (EUnlink (mf_filename f)) (set_uploads (delete (mf_filename f)) w)).
Proof.
  intros Hb Hcode. unfold analyze_catch, fs_existsSync, fs_unlinkSync. unfold_monad.
  rewrite (bool_decide_eq_false_2 _ Hcode).
  rewrite Hb, bool_decide_eq_true_2 by eauto. cbn. by rewrite Hb.
Qed.

(** What [scan.save()] does: the document is stored when it passes the
    validators, its id is free and the database carries out the insert;
    otherwise the promise is rejected and nothing changes. *)
Lemma Scan_save_run env w (d : ObjectId * Scan) :
  (validate d.2 = [] ∧ scans w !! d.1 = None
   ∧ db_rejects env (EScanSave d.1) = false
   ∧ ∃ t w1, Scan_save d env w
               = (Ok (d.1, stamp t d.2),
                  log (EScanSave d.1) (set_scans (<[d.1 := stamp t d.2]>) w1))
             ∧ same_stores w w1)
  ∨ ((validate d.2 ≠ [] ∨ scans w !! d.1 ≠ None
      ∨ db_rejects env (EScanSave d.1) = true)
     ∧ ∃ e w1, Scan_save d env w = (Throw e, w1) ∧ same_stores w w1
               ∧ err_code e ≠ Some (CodeStr "LIMIT_FILE_SIZE")).
Proof.
  unfold Scan_save. destruct (validate d.2) as [|m ms] eqn:Hv.
  - unfold Date_now, db_write. unfold_monad. cbn.
    destruct (scans w !! d.1) as [old|] eqn:Hold.
    + right. split; [right; by left|].
      eexists _, _. split_and!; [reflexivity| |done]. by repeat split.
    + destruct (db_rejects env (EScanSave d.1)) eqn:Hdb.
      * right. split; [by right; right|].
        eexists _, _. split_and!; [reflexivity| |done]. by repeat split.
      * left. split_and!; [done..|]. eexists _, _. split; [reflexivity|].
        by repeat split.
  - right. split; [by left|]. exists (ValidationError (m :: ms)), w.
    split_and!; [done|apply same_stores_refl|done].
Qed.

(** The handler's [try] block on a stored file of an authenticated
    caller is the analysis followed by the persist; an exception of
    either enters the [catch] block. *)
Lemma analyze_handler_try env w (u : UserDoc) f :
  analyze_handler (Some u) (Some f) env w =
    match analyse_and_persist u f env w with
    | (Ok saved, w') =>
        (Ok (res_json (JObj [("success", JBool true);
                             ("message", JStr "File analyzed successfully");
                             ("data", analyze_data saved)])), w')
    | (Throw e, w') => analyze_catch (Some f) e env w'
    end.
Proof.
  unfold analyze_handler, analyse_and_persist, try_catch, bind.
  destruct (performFoodAnalysis _ _ env w) as [[a|e] w1]; [|done].
  destruct (new_Scan _ _ _ _ _ a env w1) as [[d|e] w2]; [|done].
  by destruct (Scan_save d env w2) as [[saved|e] w3].
Qed.

(** The analysis and the persist touch no store unless the record is
    saved, and an exception of theirs never carries the upload
    middleware's size-limit code. *)
Lemma analyse_and_persist_run env w (u : UserDoc) f (P : AnalysisResult → Prop) :
  (∀ p t, yields env (performFoodAnalysis p t) P) →
  (∃ a d w1,
     P a ∧ same_stores w w1
     ∧ d.1 = new_oid env ∧ validate d.2 = [] ∧ scans w !! d.1 = None
     ∧ userId d.2 = u.1 ∧ filePath d.2 = mf_filename f
     ∧ qualityScore d.2 = a_qualityScore a
     ∧ recommendations d.2 = trim <$> a_recommendations a
     ∧ warnings d.2 = trim <$> a_warnings a
     ∧ analysisMetadata d.2 = a_analysisMetadata a
     ∧ analyse_and_persist u f env w
       = (Ok d, log (EScanSave d.1) (set_scans (<[d.1 := d.2]>) w1)))
  ∨ (∃ e w1, analyse_and_persist u f env w = (Throw e, w1) ∧ same_stores w w1
             ∧ err_code e ≠ Some (CodeStr "LIMIT_FILE_SIZE")).
Proof.
  intros HP.
  destruct (HP (mf_filename f) (mf_mimetype f) w)
    as (a & w3 & E3 & S3 & Pa).
  destruct (new_Scan_yields env u.1 (mf_originalname f) (mf_mimetype f)
              (mf_filename f) (mf_size f) a w3)
    as (d & w4 & E4 & S4 & Hid & Ho & Hp & Hq & Hr & Hw & Hm).
  assert (analyse_and_persist u f env w = Scan_save d env w4) as ->.
  { unfold analyse_and_persist. unfold bind at 1. rewrite E3.
    unfold bind at 1. by rewrite E4. }
  pose proof (same_stores_trans _ _ _ S3 S4) as S.
  destruct (Scan_save_run env w4 d)
    as [(Hv & Hnone & _ & t & w5 & E5 & S5) | (_ & e & w5 & E5 & S5 & Hcode)];
    rewrite E5.
  - left. exists a, (d.1, stamp t d.2), w5. cbn [fst snd].
    pose proof (same_stores_trans _ _ _ S S5) as S'.
    destruct S as (_ & C & _). rewrite C in Hnone.
    split_and!; done.
  - right. exists e, w5. split_and!; [done| |done]. by eapply same_stores_trans.
Qed.

(** [POST /analyze] for an authenticated caller whose part passes the
    upload middleware (allowed type, below the size limit): the handler
    always answers, either with the new record, or with 500 after
    removing the blob it had stored. [P] is any property that the
    analysis guarantees under [env]. *)
Lemma post_analyze_stored env w (u : UserDoc) part (P : AnalysisResult → Prop) :
  (∀ p t, yields env (performFoodAnalysis p t) P) →
  mimetype part ∈ allowedTypes → size_bytes part < maxFileSize →
  let name := generated_name env w part in
  ∃ r w', post_analyze {| an_user := Some u; an_file := Some part |} env w = (Ok r, w')
    ∧ users w' = users w
    ∧ ((∃ a s, P a ∧ r = analyzed (new_oid env, s)
          ∧ scans w !! new_oid env = None
          ∧ scans w' = <[new_oid env := s]> (scans w)
          ∧ uploads w' = <[name := Regular]> (uploads w)
          ∧ trace w' = (trace w ++ [EWriteFile name; EScanSave (new_oid env)])%list
          ∧ validate s = []
          ∧ userId s = u.1 ∧ filePath s = name
          ∧ qualityScore s = a_qualityScore a
          ∧ recommendations s = trim <$> a_recommendations a
          ∧ warnings s = trim <$> a_warnings a
          ∧ analysisMetadata s = a_analysisMetadata a)
       ∨ (∃ msg, r = res_status_json 500 (failure msg)
          ∧ scans w' = scans w
          ∧ uploads w' = delete name (uploads w)
          ∧ trace w' = (trace w ++ [EWriteFile name; EUnlink name])%list)).
Proof.
  intros HP Hty Hsz name.
  destruct (upload_single_allowed env w part Hty) as (w1 & (U1 & C1 & B1 & T1) & E1).
  cbn zeta in E1. fold name in E1.
  assert ((maxFileSize <=? size_bytes part) = false) as Hlt by lia.
  rewrite Hlt in E1.
  unfold post_analyze, middleware. cbn [an_user an_file]. rewrite E1.
  set (w2 := log (EWriteFile name) (set_uploads (<[name:=Regular]>) w1)).
  assert (U2 : users w2 = users w) by done.
  assert (C2 : scans w2 = scans w) by done.
  assert (B2 : uploads w2 = <[name:=Regular]> (uploads w)) by (cbn; by rewrite B1).
  assert (T2 : trace w2 = (trace w ++ [EWriteFile name])%list) by (cbn; by rewrite T1).
  clearbody w2.
  set (f := {| mf_originalname := originalname part; mf_mimetype := mimetype part;
               mf_filename := name; mf_size := size_bytes part |}).
  rewrite analyze_handler_try.
  destruct (analyse_and_persist_run env w2 u f P HP)
    as [(a & d & w5 & Pa & (U5 & C5 & B5 & T5) & Hid & Hv & Hnone & Ho & Hp & Hq
           & Hr & Hw & Hm & E)
       | (e & w5 & E & (U5 & C5 & B5 & T5) & Hcode)]; rewrite E.
  - eexists _, _. split; [reflexivity|].
    split; [cbn; by rewrite U5|].
    left. exists a, d.2. rewrite Hid in *. unfold analyzed. cbn.
    rewrite C5, C2, B5, B2, T5, T2, <- app_assoc. rewrite C2 in Hnone.
    destruct d as [i s]. cbn in *. subst i. by split_and!.
  - rewrite (analyze_catch_cleans env w5 f e); [|by rewrite B5, B2, lookup_insert_eq|done].
    eexists _, _. split; [reflexivity|].
    split; [cbn; by rewrite U5|].
    right. eexists. split; [reflexivity|]. cbn.
    rewrite C5, C2, B5, B2, T5, T2, <- app_assoc.
    split_and!; [done|apply delete_insert_eq|done].
Qed.

(** A part of an allowed type that reaches the size limit: the file
    written so far is removed and the error middleware answers. *)
Lemma post_analyze_oversized env w req part :
  an_file req = Some part → mimetype part ∈ allowedTypes →
  maxFileSize ≤ size_bytes part →
  let name := generated_name env w part in
  ∃ w', post_analyze req env w
          = (Ok (res_status_json 500 (failure "File too large")), w')
        ∧ users w' = users w ∧ scans w' = scans w
        ∧ uploads w' = delete name (uploads w)
        ∧ trace w' = (trace w ++ [EWriteFile name; EUnlink name])%list.
Proof.
  intros Hf Hty Hsz name.
  destruct (upload_single_allowed env w part Hty) as (w1 & (U1 & C1 & B1 & T1) & E).
  cbn zeta in E. fold name in E.
  assert ((maxFileSize <=? size_bytes part) = true) as Hlt by lia.
  rewrite Hlt in E. eexists. split.
  - unfold post_analyze, middleware. rewrite Hf, E. reflexivity.
  - cbn. rewrite U1, C1, B1, T1, <- app_assoc. split_and!; try done.
    apply delete_insert_eq.
Qed.

Lemma post_analyze_bad_type env w req part :
  an_file req = Some part → mimetype part ∉ allowedTypes →
  post_analyze req env w = (Ok invalid_file_type, w).
Proof.
  intros Hf Hty. unfold post_analyze, middleware, upload_single, fileFilter.
  rewrite Hf, bool_decide_eq_false_2 by done. reflexivity.
Qed.

(** C8 (as the code has it). For every upload whose declared content
    type is not one of the four allowed types, the upload middleware's
    filter error reaches the application's error middleware, which
    answers with status 500 (the error carries no status) and the
    filter's message. Nothing is stored: the uploads directory, the
    collections and the trace are exactly as before. *)
Theorem unsupported_type_rejected (env : Env) (w : World)
    (req : AnalyzeRequest) (part : FilePart) :
  an_file req = Some part → mimetype part ∉ allowedTypes →
  post_analyze req env w = (Ok invalid_file_type, w).
Proof. apply post_analyze_bad_type. Qed.

Lemma unsupported_type_rejected_witness :
  post_analyze {| an_user := Some Sample.alice; an_file := Some Sample.text |}
    Sample.env0 Sample.empty = (Ok invalid_file_type, Sample.empty).
Proof.
  apply (unsupported_type_rejected Sample.env0 Sample.empty
           {| an_user := Some Sample.alice; an_file := Some Sample.text |}
           Sample.text eq_refl).
  apply (bool_decide_unpack _). vm_compute. exact I.
Defined.

(** C8 (as stated) fails: a part declared as [text/plain] is answered
    with status 500, not 400 (and no blob is stored). *)
Lemma unsupported_type_counterexample :
  let r := post_analyze {| an_user := Some Sample.alice; an_file := Some Sample.text |}
             Sample.env0 Sample.empty in
  (mimetype Sample.text ∉ allowedTypes)
  ∧ (status <$> responds r) = Some 500
  ∧ (status <$> responds r) ≠ Some 400
  ∧ uploads r.2 = ∅.
Proof.
  split; [apply (bool_decide_unpack _); vm_compute; exact I|].
  vm_compute. repeat split; congruence.
Qed.

(** C9. For every authenticated upload whose blob was stored by the
    upload middleware and whose analysis or record persist then fails
    (the handler's [try] block throws, whatever the error): the endpoint
    answers 500, the stored blob has been removed again, and the
    collection is as it was, so no record was created to own the blob.
    The only mutations of the request are the write of the blob and its
    removal. *)
Theorem failed_analysis_cleans_up (env : Env) (w w1 w2 : World) (u : UserDoc)
    (part : FilePart) (f : MulterFile) (e : JsError) :
  upload_single (Some part) env w = (Ok (Some f), w1) →
  analyse_and_persist u f env w1 = (Throw e, w2) →
  ∃ msg w',
    post_analyze {| an_user := Some u; an_file := Some part |} env w
    = (Ok (res_status_json 500 (failure msg)), w')
    ∧ blob_exists w' (mf_filename f) = false
    ∧ scans w' = scans w ∧ users w' = users w
    ∧ trace w' = (trace w ++ [EWriteFile (mf_filename f);
                              EUnlink (mf_filename f)])%list.
Proof.
  intros Eup Efail.
  assert (Hty : mimetype part ∈ allowedTypes).
  { destruct (decide (mimetype part ∈ allowedTypes)) as [|Hno]; [done|].
    unfold upload_single, fileFilter in Eup.
    by rewrite bool_decide_eq_false_2 in Eup by done. }
  destruct (upload_single_allowed env w part Hty) as (w0 & (U0 & C0 & B0 & T0) & E).
  cbn zeta in E. rewrite Eup in E.
  destruct (maxFileSize <=? size_bytes part); [done|].
  injection E as -> ->.
  set (name := generated_name env w part) in *.
  match type of Efail with analyse_and_persist _ ?f0 _ ?w0' = _ =>
    destruct (analyse_and_persist_run env w0' u f0 (λ _, True)
                (λ p t, performFoodAnalysis_total env p t))
      as [(a & d & w5 & _ & _ & _ & _ & _ & _ & _ & _ & _ & _ & _ & E5)
         | (e' & w5 & E5 & (U5 & C5 & B5 & T5) & Hcode)]
  end;
    [rewrite Efail in E5; done|rewrite E5 in Efail].
  injection Efail as <- <-.
  unfold post_analyze, middleware. cbn [an_user an_file]. rewrite Eup.
  rewrite analyze_handler_try, E5.
  rewrite (analyze_catch_cleans env w5 _ e');
    [|cbn; rewrite B5; cbn; by rewrite lookup_insert_eq|done].
  eexists _, _. split; [reflexivity|]. cbn [mf_filename].
  assert (Hgone : blob_exists
            (log (EUnlink name) (set_uploads (delete name) w5)) name = false).
  { unfold blob_exists. cbn. rewrite lookup_delete_eq.
    apply bool_decide_eq_false_2. by intros [? ?]. }
  split_and!.
  - done.
  - cbn. by rewrite C5.
  - cbn. by rewrite U5.
  - cbn. rewrite T5. cbn. by rewrite T0, <- app_assoc.
Qed.

(** An instance where the persist fails: the part's name is blank once
    trimmed, so the record does not validate. *)
Lemma failed_analysis_cleans_up_witness :
  ∃ msg w',
    post_analyze {| an_user := Some Sample.alice; an_file := Some Sample.blank_name |}
      Sample.env0 Sample.empty
    = (Ok (res_status_json 500 (failure msg)), w')
    ∧ blob_exists w' "scan-1700000000000-500000000" = false
    ∧ scans w' = scans Sample.empty.
Proof.
  destruct (failed_analysis_cleans_up Sample.env0 Sample.empty
              (upload_single (Some Sample.blank_name) Sample.env0 Sample.empty).2
              (analyse_and_persist Sample.alice
                 {| mf_originalname := "   "; mf_mimetype := "image/png";
                    mf_filename := "scan-1700000000000-500000000";
                    mf_size := 2048 |} Sample.env0
                 (upload_single (Some Sample.blank_name) Sample.env0 Sample.empty).2).2
              Sample.alice Sample.blank_name
              {| mf_originalname := "   "; mf_mimetype := "image/png";
                 mf_filename := "scan-1700000000000-500000000"; mf_size := 2048 |}
              (ValidationError ["File name is required"]))
    as (msg & w' & E & Hb & Hc & _).
  - vm_compute. reflexivity.
  - vm_compute. reflexivity.
  - exists msg, w'. exact (conj E (conj Hb Hc)).
Defined.

(** The failing persist of the witness, evaluated: the blob is written,
    then unlinked, and the answer is 500. *)
Example failed_persist_run :
  let r := post_analyze {| an_user := Some Sample.alice; an_file := Some Sample.blank_name |}
             Sample.env0 Sample.empty in
  (status <$> responds r) = Some 500
  ∧ trace r.2 = [EWriteFile "scan-1700000000000-500000000";
                 EUnlink "scan-1700000000000-500000000"]
  ∧ uploads r.2 = ∅ ∧ scans r.2 = ∅.
Proof. vm_compute. repeat split. Qed.

(** Every answer of [POST /analyze]: a failure object with a status
    other than 200, or the new record of an authenticated caller. *)
Lemma post_analyze_cases env w req (P : AnalysisResult → Prop) :
  (∀ p t, yields env (performFoodAnalysis p t) P) →
  ∃ r w', post_analyze req env w = (Ok r, w')
    ∧ ((∃ c msg, r = res_status_json c (failure msg) ∧ c ≠ 200)
       ∨ (∃ u part a s,
            an_user req = Some u ∧ an_file req = Some part
            ∧ P a ∧ r = analyzed (new_oid env, s)
            ∧ scans w' = <[new_oid env := s]> (scans w)
            ∧ uploads w' = <[generated_name env w part := Regular]> (uploads w)
            ∧ userId s = (u : UserDoc).1
            ∧ filePath s = generated_name env w part
            ∧ qualityScore s = a_qualityScore a
            ∧ recommendations s = trim <$> a_recommendations a
            ∧ warnings s = trim <$> a_warnings a
            ∧ analysisMetadata s = a_analysisMetadata a)).
Proof.
  intros HP. destruct req as [user [part|]].
  - destruct (decide (mimetype part ∈ allowedTypes)) as [Hty|Hty].
    + destruct (decide (size_bytes part < maxFileSize)) as [Hsz|Hsz].
      * destruct user as [u|].
        -- destruct (post_analyze_stored env w u part P HP Hty Hsz)
             as (r & w' & E & _ & [(a & s & Pa & -> & _ & Hc & Hb & _ & _ & H)
                                  | (msg & -> & _)]).
           ++ exists (analyzed (new_oid env, s)), w'. split; [done|].
              right. exists u, part, a, s.
              destruct H as (?&?&?&?&?&?). by split_and!.
           ++ eexists _, _. split; [done|]. left. by eexists _, _.
        -- destruct (upload_single_allowed env w part Hty) as (w1 & _ & E1).
           cbn zeta in E1.
           assert ((maxFileSize <=? size_bytes part) = false) as Hlt by lia.
           rewrite Hlt in E1.
           unfold post_analyze, middleware. cbn [an_user an_file]. rewrite E1.
           eexists _, _. split; [reflexivity|]. left. by eexists _, _.
      * destruct (post_analyze_oversized env w
                    {| an_user := user; an_file := Some part |} part eq_refl Hty
                    ltac:(lia)) as (w' & E & _).
        eexists _, _. split; [exact E|]. left. by eexists _, _.
    + exists invalid_file_type, w.
      split; [by apply (post_analyze_bad_type env w _ part)|].
      left. by eexists _, _.
  - eexists _, _. split; [reflexivity|]. left. by eexists _, _.
Qed.

(** C10. For every successful analyze call and every sequence of random
    draws in [0, 1): the record created has a quality score in
    [60, 100] (in fact at most 99), a confidence in [0.7, 1.0], exactly
    three recommendations and at most two warnings; the response carries
    that record. *)
Theorem analysis_ranges (env : Env) (w w' : World) (req : AnalyzeRequest)
    (r : Response) :
  fair env →
  post_analyze req env w = (Ok r, w') → status r = 200 →
  ∃ s, scans w' !! new_oid env = Some s
       ∧ r = analyzed (new_oid env, s)
       ∧ 60 ≤ qualityScore s ≤ 100
       ∧ (7 # 10 <= confidence (analysisMetadata s))%Q
       ∧ (confidence (analysisMetadata s) <= 1)%Q
       ∧ length (recommendations s) = 3%nat
       ∧ (length (warnings s) ≤ 2)%nat.
Proof.
  intros Hfair E Hst.
  destruct (post_analyze_cases env w req analysis_post) as (r0 & w0 & E0 & H);
    [intros; by apply performFoodAnalysis_post|].
  rewrite E in E0. injection E0 as <- <-.
  destruct H as [(c & msg & -> & Hc) | (u & part & a & s & _ & _ & Pa & -> & Hs & _ & _ & _ & Hq & Hr & Hw & Hm)];
    [done|].
  destruct Pa as (Hscore & _ & _ & Hrecs & Hwarn & Hlo & Hhi).
  exists s. rewrite Hs, lookup_insert_eq, Hq, Hr, Hw, Hm, !length_fmap.
  split_and!; try done; try lia. by apply Qlt_le_weak.
Qed.

Lemma analysis_ranges_witness :
  ∃ s, scans (post_analyze {| an_user := Some Sample.alice; an_file := Some Sample.jpeg |}
                Sample.env0 Sample.empty).2 !! 30%N = Some s
       ∧ 60 ≤ qualityScore s ≤ 100
       ∧ (7 # 10 <= confidence (analysisMetadata s))%Q
       ∧ (confidence (analysisMetadata s) <= 1)%Q
       ∧ length (recommendations s) = 3%nat
       ∧ (length (warnings s) ≤ 2)%nat.
Proof.
  pose (req := {| an_user := Some Sample.alice; an_file := Some Sample.jpeg |}).
  pose (res := post_analyze req Sample.env0 Sample.empty).
  assert (Hfair : fair Sample.env0) by (intros n; split; [discriminate|reflexivity]).
  assert (E : ∃ r, post_analyze req Sample.env0 Sample.empty = (Ok r, res.2)
                   ∧ status r = 200)
    by (vm_compute; eexists; split; reflexivity).
  destruct E as (r & E & Hst).
  destruct (analysis_ranges Sample.env0 Sample.empty res.2 req r Hfair E Hst)
    as (s & Hs & _ & H).
  exists s. exact (conj Hs H).
Defined.

(** ** Listing *)

Lemma parseInt_or_nonzero q d : d ≠ 0 → parseInt_or q d ≠ 0.
Proof.
  intros Hd. unfold parseInt_or. destruct q as [s|]; [|done].
  destruct (parseInt s) as [|[| |]]; done.
Qed.

(** [GET /history] for an authenticated caller whose filter object casts
    and whose skip is not negative. *)
Lemma get_history_ok env w req (u : UserDoc) range :
  h_user req = Some u →
  cast_filters (history_filters u.1 req) = Ok range →
  let page := parseInt_or (q_page req) 1 in
  let limit := parseInt_or (q_limit req) 10 in
  0 ≤ (page - 1) * limit →
  get_history req env w =
    (Ok (res_json
           (history_body
              (history_page (natural_rank env) (history_filters u.1 req) range
                 ((page - 1) * limit) limit (scans w))
              page limit
              (Z.of_nat (size (matching (history_filters u.1 req) range (scans w)))))),
     w).
Proof.
  intros Hu Hc page limit Hskip. unfold get_history, try_catch. rewrite Hu.
  unfold bind at 1. unfold Scan_find_sorted. fold page limit. rewrite Hc.
  assert (((page - 1) * limit <? 0) = false) as -> by lia.
  unfold bind at 1 2. unfold asks, gets, ret at 1.
  unfold bind, Scan_countDocuments. rewrite Hc. unfold gets, ret.
  reflexivity.
Qed.

(** Every answer of [GET /history]: a failure object with a status other
    than 200, or a page of documents. The state is never changed. *)
Lemma get_history_cases env w req :
  ∃ r, get_history req env w = (Ok r, w)
       ∧ ((∃ c msg, r = res_status_json c (failure msg) ∧ c ≠ 200)
          ∨ (∃ docs page limit total, r = res_json (history_body docs page limit total))).
Proof.
  destruct (h_user req) as [u|] eqn:Hu.
  - destruct (cast_filters (history_filters u.1 req)) as [range|e] eqn:Hc.
    + destruct (decide (0 ≤ (parseInt_or (q_page req) 1 - 1) * parseInt_or (q_limit req) 10))
        as [Hs|Hs].
      * eexists. split; [by apply get_history_ok|]. right. by eexists _, _, _, _.
      * exists history_failed. split; [|left; by eexists _, _].
        unfold get_history, try_catch. rewrite Hu.
        unfold bind at 1. unfold Scan_find_sorted. rewrite Hc.
        match goal with |- context [?a <? 0] => assert ((a <? 0) = true) as -> by lia end.
        reflexivity.
    + exists history_failed. split; [|left; by eexists _, _].
      unfold get_history, try_catch. rewrite Hu.
      unfold bind at 1. unfold Scan_find_sorted. rewrite Hc. reflexivity.
  - exists (res_status_json 401 (failure "User not authenticated")).
    split; [|left; by eexists _, _].
    unfold get_history, try_catch. rewrite Hu. reflexivity.
Qed.

(** ** What a response exposes *)

Lemma strings_no_key k (l : list string) :
  existsb (json_has_key k) (JStr <$> l) = false.
Proof. induction l as [|x l IH]; [done|]. cbn. exact IH. Qed.

Lemma failure_no_key msg : json_has_key "filePath" (failure msg) = false.
Proof. reflexivity. Qed.

Lemma analyze_data_no_filePath d : json_has_key "filePath" (analyze_data d) = false.
Proof.
  unfold analyze_data, metadata_json. cbn [json_has_key existsb].
  rewrite !strings_no_key. reflexivity.
Qed.

Lemma scan_view_no_filePath d : json_has_key "filePath" (scan_view d) = false.
Proof.
  unfold scan_view, toJSON, scan_object, metadata_json.
  cbn [select_minus List.filter fst snd String.eqb Ascii.eqb Bool.eqb negb app].
  cbn [json_has_key existsb]. rewrite !strings_no_key. reflexivity.
Qed.

Lemma scan_views_no_filePath (docs : list (ObjectId * Scan)) :
  existsb (json_has_key "filePath") (scan_view <$> docs) = false.
Proof.
  induction docs as [|d docs IH]; [done|].
  cbn [fmap list_fmap existsb]. by rewrite scan_view_no_filePath, IH.
Qed.

Lemma history_body_no_filePath docs page limit total :
  json_has_key "filePath" (history_body docs page limit total) = false.
Proof.
  unfold history_body. cbn [json_has_key existsb].
  rewrite scan_views_no_filePath. reflexivity.
Qed.

Lemma scan_view_fileUrl d :
  json_get "fileUrl" (scan_view d) = Some (JStr "/uploads/undefined")
  ∧ json_get "filePath" (scan_view d) = None.
Proof. vm_compute. by split. Qed.

Lemma scan_view_independent id s p :
  scan_view (id, with_filePath p s) = scan_view (id, s).
Proof. vm_compute. reflexivity. Qed.

Lemma analyze_data_fileUrl d :
  json_get "fileUrl" (analyze_data d) = Some (JStr ("/uploads/" +:+ filePath d.2)).
Proof. reflexivity. Qed.

Lemma analyzed_independent id s p :
  json_erase "fileUrl" (body (analyzed (id, with_filePath p s)))
  = json_erase "fileUrl" (body (analyzed (id, s))).
Proof. reflexivity. Qed.

Lemma history_body_independent ρ docs page limit total :
  history_body (rename_blob ρ <$> docs) page limit total
  = history_body docs page limit total.
Proof.
  unfold history_body. rewrite <- list_fmap_compose.
  assert (scan_view ∘ rename_blob ρ <$> docs = scan_view <$> docs) as ->; [|done].
  apply list_fmap_ext. intros i [id s] _. apply scan_view_independent.
Qed.

(** C2 (as the code has it). No response of the analyze, list (history)
    or getById operations has a [filePath] member, at any depth. In the
    analyze response the derived access path [fileUrl] is ["/uploads/"]
    followed by the blob name of the stored record, and it is the only
    member that depends on the blob name: with [fileUrl] left out, the
    response is the same whatever the blob name is. In list and getById
    the returned records do not depend on their blob names at all. *)
Theorem blob_name_hidden (cast : string → option ObjectId) (env : Env) (w : World) :
  (∀ req, exposes "filePath" (post_analyze req env w) = false)
  ∧ (∀ req, exposes "filePath" (get_history req env w) = false)
  ∧ (∀ req, exposes "filePath" (get_scan cast req env w) = false)
  ∧ (∀ req r w',
       post_analyze req env w = (Ok r, w') → status r = 200 →
       ∃ s, scans w' !! new_oid env = Some s
            ∧ r = analyzed (new_oid env, s)
            ∧ json_get "fileUrl" (analyze_data (new_oid env, s))
              = Some (JStr ("/uploads/" +:+ filePath s))
            ∧ ∀ p, json_erase "fileUrl" (body (analyzed (new_oid env, with_filePath p s)))
                   = json_erase "fileUrl" (body r))
  ∧ (∀ req r w',
       get_history req env w = (Ok r, w') → status r = 200 →
       ∃ docs page limit total,
         r = res_json (history_body docs page limit total)
         ∧ ∀ ρ, body (res_json (history_body (rename_blob ρ <$> docs) page limit total))
                = body r)
  ∧ (∀ req r w',
       get_scan cast req env w = (Ok r, w') → status r = 200 →
       ∃ d, scans w !! d.1 = Some d.2
            ∧ body r = JObj [("success", JBool true); ("data", scan_view d)]
            ∧ ∀ ρ, JObj [("success", JBool true); ("data", scan_view (rename_blob ρ d))]
                   = body r).
Proof.
  assert (HP : ∀ p t, yields env (performFoodAnalysis p t) (λ _, True))
    by (intros; apply performFoodAnalysis_total).
  split_and!.
  - intros req.
    destruct (post_analyze_cases env w req _ HP) as (r & w' & E & H).
    unfold exposes. rewrite E. cbn [fst].
    destruct H as [(c & msg & -> & _) | (u & part & a & s & _ & _ & _ & -> & _)].
    + apply failure_no_key.
    + unfold analyzed, res_json. cbn [body json_has_key existsb].
      by rewrite analyze_data_no_filePath.
  - intros req. destruct (get_history_cases env w req) as (r & E & H).
    unfold exposes. rewrite E. cbn [fst].
    destruct H as [(c & msg & -> & _) | (docs & page & limit & total & ->)].
    + apply failure_no_key.
    + apply history_body_no_filePath.
  - intros req. unfold exposes, get_scan, try_catch.
    destruct (s_user req) as [u|]; [|reflexivity].
    unfold bind, Scan_findOne, gets, throw.
    destruct (cast (s_scanId req)) as [id|]; [|reflexivity].
    destruct (scans w !! id) as [s|]; [|reflexivity].
    destruct (decide (userId s = u.1)); [|reflexivity].
    unfold ret, res_json. cbn [fst body json_has_key existsb].
    by rewrite scan_view_no_filePath.
  - intros req r w' E Hst.
    destruct (post_analyze_cases env w req _ HP) as (r0 & w0 & E0 & H).
    rewrite E in E0. injection E0 as <- <-.
    destruct H as [(c & msg & -> & Hc) | (u & part & a & s & _ & _ & _ & -> & Hs & _)];
      [done|].
    exists s. rewrite Hs, lookup_insert_eq.
    split_and!; [done|done|apply analyze_data_fileUrl|].
    intros p. apply analyzed_independent.
  - intros req r w' E Hst.
    destruct (get_history_cases env w req) as (r0 & E0 & H).
    rewrite E in E0. injection E0 as <- _.
    destruct H as [(c & msg & -> & Hc) | (docs & page & limit & total & ->)]; [done|].
    exists docs, page, limit, total. split; [done|].
    intros ρ. cbn [body res_json]. apply history_body_independent.
  - intros [user seg] r w' E Hst. destruct user as [u|];
      [|unfold get_scan, try_catch, ret in E; cbn in E; by injection E as <- <-].
    destruct (get_scan_owned cast env w u seg r w' E Hst) as (id & s & _ & Hs & _ & Hb).
    exists (id, s). split_and!; [done..|].
    intros ρ. rewrite Hb. unfold rename_blob. cbn [fst snd].
    by rewrite scan_view_independent.
Qed.

(** C2 (as stated) fails on the analyze response: the blob name of the
    record just stored can be read in the response, as the tail of its
    [fileUrl]. *)
Lemma blob_name_in_access_path_counterexample :
  let r := post_analyze {| an_user := Some Sample.alice; an_file := Some Sample.jpeg |}
             Sample.env0 Sample.empty in
  (filePath <$> scans r.2 !! 30%N) = Some "scan-1700000000000-500000000.jpg"
  ∧ (json_mentions "scan-1700000000000-500000000.jpg" <$> (body <$> responds r))
    = Some true
  ∧ data_fileUrl r = Some (JStr "/uploads/scan-1700000000000-500000000.jpg").
Proof. vm_compute. repeat split. Qed.

(** The three responses on sample data: the analyze response names the
    derived path of the blob just stored; the list and getById responses
    carry the virtual of the projected document. *)
Example blob_name_hidden_run :
  (let r := post_analyze {| an_user := Some Sample.alice; an_file := Some Sample.jpeg |}
              Sample.env0 Sample.empty in
   data_fileUrl r = Some (JStr "/uploads/scan-1700000000000-500000000.jpg")
   ∧ (filePath <$> scans r.2 !! 30%N) = Some "scan-1700000000000-500000000.jpg")
  ∧ data_fileUrl (get_scan Sample.castObjectId
                    {| s_user := Some Sample.alice; s_scanId := Sample.seg10 |}
                    Sample.env0 Sample.world)
    = Some (JStr "/uploads/undefined")
  ∧ listed_fileUrls (get_history (Sample.history_request "1" "10")
                       Sample.env0 Sample.world)
    = [Some (JStr "/uploads/undefined"); Some (JStr "/uploads/undefined");
       Some (JStr "/uploads/undefined")].
Proof. vm_compute. repeat split. Qed.

(** ** Sorting and paging *)

Global Instance newest_first_total rank : Total (newest_first rank).
Proof. intros x y. unfold newest_first. lia. Qed.

Global Instance newest_first_trans rank : Transitive (newest_first rank).
Proof. intros x y z. unfold newest_first. lia. Qed.

Lemma sort_newest_first_perm rank (m : gmap ObjectId Scan) :
  sort_newest_first rank m ≡ₚ map_to_list m.
Proof. apply merge_sort_Permutation. Qed.

Lemma sort_newest_first_sorted rank (m : gmap ObjectId Scan) :
  StronglySorted (newest_first rank) (sort_newest_first rank m).
Proof. apply StronglySorted_merge_sort; apply _. Qed.

Lemma sort_newest_first_lookup rank (m : gmap ObjectId Scan) d :
  d ∈ sort_newest_first rank m ↔ m !! d.1 = Some d.2.
Proof.
  rewrite sort_newest_first_perm. destruct d as [i s]. apply elem_of_map_to_list.
Qed.

Lemma sort_newest_first_length rank (m : gmap ObjectId Scan) :
  length (sort_newest_first rank m) = size m.
Proof. by rewrite sort_newest_first_perm, length_map_to_list. Qed.

Lemma sort_newest_first_NoDup rank (m : gmap ObjectId Scan) :
  NoDup (sort_newest_first rank m).*1.
Proof. rewrite sort_newest_first_perm. apply NoDup_fst_map_to_list. Qed.

(** A sorted list stays sorted for a relation that the first one
    implies between distinct members. *)
Lemma StronglySorted_refine {A} (R R' : relation A) (l : list A) :
  NoDup l →
  (∀ x y, x ∈ l → y ∈ l → x ≠ y → R x y → R' x y) →
  StronglySorted R l → StronglySorted R' l.
Proof.
  intros Hnd HR Hs. induction Hs as [|x l Hl IH Hx]; [constructor|].
  apply NoDup_cons in Hnd as [Hxl Hnd]. constructor.
  - apply IH; [done|]. intros a b Ha Hb. apply HR; by right.
  - rewrite Forall_forall in Hx |- *. intros y Hy.
    apply HR; [by left|by right| |by apply Hx]. by intros ->.
Qed.

(** With pairwise distinct creation times the order is strict, whatever
    the engine's order among equal keys. *)
Lemma sort_newest_first_strict rank (m : gmap ObjectId Scan) :
  distinct_times m →
  StronglySorted strictly_newer (sort_newest_first rank m).
Proof.
  intros Hd.
  assert (Hnd : NoDup (sort_newest_first rank m)).
  { rewrite sort_newest_first_perm. apply NoDup_map_to_list. }
  eapply StronglySorted_refine; [done| |apply sort_newest_first_sorted].
  intros x y Hx Hy Hne [Hlt|[Heq _]]; [done|]. exfalso. apply Hne.
  rewrite sort_newest_first_perm in Hx, Hy.
  apply list_elem_of_lookup in Hx as [i Hi], Hy as [j Hj].
  assert (i = j) as ->; [|congruence].
  eapply NoDup_lookup; [exact Hd| |];
    rewrite list_lookup_fmap; [by rewrite Hi | by rewrite Hj, Heq].
Qed.

(** Hence every query sees the same list. *)
Lemma sort_newest_first_unique rank rank' (m : gmap ObjectId Scan) :
  distinct_times m →
  sort_newest_first rank m = sort_newest_first rank' m.
Proof.
  intros Hd. apply (StronglySorted_unique_strong strictly_newer).
  - intros x y _ _. unfold strictly_newer. lia.
  - by apply sort_newest_first_strict.
  - by apply sort_newest_first_strict.
  - by rewrite !sort_newest_first_perm.
Qed.

Lemma concat_page_slices {A} (n k : nat) (l : list A) :
  concat ((λ i, take n (drop (i * n) l)) <$> seq 0 k) = take (k * n) l.
Proof.
  induction k as [|k IH]; [done|].
  rewrite seq_S, fmap_app, concat_app, IH. cbn [fmap list_fmap concat].
  rewrite app_nil_r, take_take_drop. f_equal. lia.
Qed.

Lemma Math_ceil_div_covers (total limit : Z) :
  0 ≤ total → 0 < limit →
  0 ≤ Math_ceil_div total limit ∧ total ≤ Math_ceil_div total limit * limit.
Proof.
  intros Ht Hl. unfold Math_ceil_div.
  pose proof (Z.div_mod (- total) limit ltac:(lia)).
  pose proof (Z.mod_pos_bound (- total) limit Hl). nia.
Qed.

(** C6 (as the code has it). For every owner, filter set and positive
    page size, when the matching records have pairwise distinct creation
    times: there is one list of the matching records, newest first, with
    each record exactly once, such that the answer to page [i + 1] is the
    [i]-th slice of it, whatever order the storage engine prefers among
    equal keys for that query, and the slices of pages [1..pages]
    concatenate to the whole list. The sort key is the creation time
    alone: the code has no secondary key. *)
Theorem pagination_complete (w : World) (u : UserDoc) (base : HistoryRequest)
    (range : option Z * option Z) (envs : nat → Env) (pg : nat → string) :
  h_user base = Some u →
  cast_filters (history_filters u.1 base) = Ok range →
  let limit := parseInt_or (q_limit base) 10 in
  let found := matching (history_filters u.1 base) range (scans w) in
  let total := Z.of_nat (size found) in
  let pages := Z.to_nat (Math_ceil_div total limit) in
  0 < limit →
  distinct_times found →
  (∀ i, (i < pages)%nat → parseInt_or (Some (pg i)) 1 = Z.of_nat (S i)) →
  ∃ all : list (ObjectId * Scan),
    all ≡ₚ map_to_list found
    ∧ NoDup all.*1
    ∧ StronglySorted strictly_newer all
    ∧ (∀ i, (i < pages)%nat →
         get_history (page_request base (pg i)) (envs i) w
         = (Ok (res_json (history_body (page_slice limit i all)
                            (Z.of_nat (S i)) limit total)), w))
    ∧ concat ((λ i, page_slice limit i all) <$> seq 0 pages) = all.
Proof.
  intros Hu Hc limit found total pages Hlimit Hd Hpg.
  exists (sort_newest_first (λ _, 0) found).
  split_and!.
  - apply sort_newest_first_perm.
  - apply sort_newest_first_NoDup.
  - by apply sort_newest_first_strict.
  - intros i Hi.
    rewrite (get_history_ok (envs i) w (page_request base (pg i)) u range Hu Hc);
      cbn [q_page q_limit page_request]; rewrite (Hpg i Hi); fold limit; [|nia].
    change (history_filters u.1 (page_request base (pg i)))
      with (history_filters u.1 base).
    fold found total. do 4 f_equal.
    unfold history_page, page_slice. fold found.
    assert ((limit =? 0) = false) as -> by lia.
    rewrite (sort_newest_first_unique _ (λ _, 0) found Hd).
    do 2 f_equal; [lia|].
    rewrite <- (Nat2Z.id (i * Z.to_nat limit)). f_equal. lia.
  - unfold page_slice. rewrite concat_page_slices. apply take_ge.
    rewrite sort_newest_first_length.
    destruct (Math_ceil_div_covers total limit) as [H0 H1]; [lia|done|].
    fold pages in H1. subst pages total. nia.
Qed.

Lemma pagination_complete_witness :
  let base := Sample.band_request in
  let range := (Some 80, None) in
  let limit := parseInt_or (q_limit base) 10 in
  let found := matching (history_filters Sample.alice.1 base) range (scans Sample.world) in
  let total := Z.of_nat (size found) in
  let pages := Z.to_nat (Math_ceil_div total limit) in
  ∃ all : list (ObjectId * Scan),
    all ≡ₚ map_to_list found
    ∧ NoDup all.*1
    ∧ StronglySorted strictly_newer all
    ∧ (∀ i, (i < pages)%nat →
         get_history (page_request base (Sample.page_label i)) (Sample.engines i)
           Sample.world
         = (Ok (res_json (history_body (page_slice limit i all)
                            (Z.of_nat (S i)) limit total)), Sample.world))
    ∧ concat ((λ i, page_slice limit i all) <$> seq 0 pages) = all.
Proof.
  apply (pagination_complete Sample.world Sample.alice Sample.band_request
           (Some 80, None) Sample.engines Sample.page_label).
  - reflexivity.
  - vm_compute. reflexivity.
  - vm_compute. reflexivity.
  - apply (bool_decide_unpack _). vm_compute. exact I.
  - intros i Hi. destruct i as [|[|i]]; [reflexivity|reflexivity|].
    exfalso. vm_compute in Hi. lia.
Defined.

(** C6 (as stated) fails: Alice's two scans were created in the same
    millisecond and the page size is 1. The engine serving page 1
    returns record 10 first, the engine serving page 2 returns record 11
    first, so both pages list record 10: the concatenation of pages
    [1..2] repeats it and misses record 11. *)
Lemma pagination_tie_counterexample :
  let page1 := get_history (Sample.history_request "1" "1")
                 Sample.env_up Sample.world_tie in
  let page2 := get_history (Sample.history_request "2" "1")
                 Sample.env_down Sample.world_tie in
  pagination_of page1
    = Some (JObj [("page", JInt 1); ("limit", JInt 1); ("total", JInt 2);
                  ("pages", JInt 2)])
  ∧ listed_ids page1 = [Some (JOid 10%N)]
  ∧ listed_ids page2 = [Some (JOid 10%N)]
  ∧ ¬ NoDup (listed_ids page1 ++ listed_ids page2)%list
  ∧ Some (JOid 11%N) ∉ (listed_ids page1 ++ listed_ids page2)%list.
Proof.
  vm_compute. split_and!; try reflexivity.
  - intros H. apply NoDup_cons in H as [H _]. apply H. by left.
  - intros H. apply elem_of_cons in H as [H|H]; [discriminate|].
    apply elem_of_cons in H as [H|H]; [discriminate|]. by apply elem_of_nil in H.
Qed.

(** ** Filters *)

Lemma matches_spec owner fresh range s :
  matches owner fresh range s = true ↔
    userId s = owner
    ∧ (∀ x, fresh = Some x → freshness s = x)
    ∧ (∀ lo, range.1 = Some lo → lo ≤ qualityScore s)
    ∧ (∀ hi, range.2 = Some hi → qualityScore s ≤ hi).
Proof.
  unfold matches. rewrite !andb_true_iff, bool_decide_eq_true.
  destruct fresh as [x|], range as [[lo|] [hi|]]; cbn [fst snd];
    rewrite ?String.eqb_eq, ?Z.leb_le;
    (split; [intros (((?&?)&?)&?); split_and!; [done|intros; simplify_eq; done..]
            |intros (?&Hf&Hlo&Hhi); split_and!; eauto]).
Qed.

(** The filter object for [minScore=70&maxScore=89], with or without
    [freshness=Good]: one range carrying both bounds. *)
Lemma history_filters_band owner req (good : bool) :
  q_minScore req = Some "70" → q_maxScore req = Some "89" →
  q_freshness req = (if good then Some "Good" else None) →
  history_filters owner req =
    {| f_userId := owner;
       f_freshness := if good then Some "Good" else None;
       f_qualityScore := Some {| c_gte := Some (Int 70); c_lte := Some (Int 89) |} |}.
Proof.
  intros Hmin Hmax Hfresh. unfold history_filters.
  rewrite Hmin, Hmax, Hfresh. by destruct good.
Qed.

Lemma matching_band owner (good : bool) (m : gmap ObjectId Scan) :
  matching {| f_userId := owner;
              f_freshness := if good then Some "Good" else None;
              f_qualityScore := Some {| c_gte := Some (Int 70); c_lte := Some (Int 89) |} |}
           (Some 70, Some 89) m
  = filter (λ kv : ObjectId * Scan, in_band owner good kv.2) m.
Proof.
  unfold matching. apply map_filter_ext. intros i s _.
  cbn [f_userId f_freshness snd]. rewrite matches_spec. unfold in_band. cbn [fst snd].
  destruct good; split.
  all: try (intros (?&Hf&Hlo&Hhi); specialize (Hlo _ eq_refl);
            specialize (Hhi _ eq_refl)).
  all: try intros (?&?&Hg).
  all: repeat split;
         first [done | lia | intros ? [= <-]; first [lia | auto] | auto].
Qed.

(** C7. For every owner, the list operation with [minScore=70] and
    [maxScore=89] (first page onwards, positive page size) answers with
    records that all belong to the owner and have a score in the
    inclusive range [70, 89]; the reported total is the number of such
    records; and a first page at least as large as the total lists
    every one of them. With [freshness=Good] added, the same holds for
    the records of the band whose freshness is ["Good"]: the filters
    combine conjunctively. *)
Theorem score_band_filter (env : Env) (w : World) (u : UserDoc)
    (req : HistoryRequest) (good : bool) :
  h_user req = Some u →
  q_minScore req = Some "70" → q_maxScore req = Some "89" →
  q_freshness req = (if good then Some "Good" else None) →
  let page := parseInt_or (q_page req) 1 in
  let limit := parseInt_or (q_limit req) 10 in
  0 < page → 0 < limit →
  ∃ docs total,
    get_history req env w = (Ok (res_json (history_body docs page limit total)), w)
    ∧ (∀ d, d ∈ docs → scans w !! d.1 = Some d.2 ∧ in_band u.1 good d.2)
    ∧ total = Z.of_nat (size (filter (λ kv : ObjectId * Scan, in_band u.1 good kv.2)
                                (scans w)))
    ∧ (page = 1 → total ≤ limit →
       ∀ id s, scans w !! id = Some s → in_band u.1 good s → (id, s) ∈ docs).
Proof.
  intros Hu Hmin Hmax Hfresh page limit Hpage Hlimit.
  pose proof (history_filters_band u.1 req good Hmin Hmax Hfresh) as Hf.
  assert (Hc : cast_filters (history_filters u.1 req) = Ok (Some 70, Some 89))
    by (by rewrite Hf).
  eexists _, _. split; [apply (get_history_ok env w req u _ Hu Hc); fold page limit; nia|].
  fold page limit. rewrite Hf, matching_band.
  set (found := filter (λ kv : ObjectId * Scan, in_band u.1 good kv.2) (scans w)).
  unfold history_page. rewrite matching_band. fold found.
  assert ((limit =? 0) = false) as -> by lia.
  split_and!; [|done|].
  - intros d Hd. apply subseteq_take, subseteq_drop in Hd.
    apply sort_newest_first_lookup in Hd.
    by apply map_lookup_filter_Some in Hd.
  - intros -> Htotal id s Hs Hband.
    change (Z.to_nat ((1 - 1) * limit)) with 0%nat. rewrite drop_0.
    rewrite take_ge by (rewrite sort_newest_first_length; lia).
    apply (sort_newest_first_lookup _ found (id, s)).
    by apply map_lookup_filter_Some.
Qed.

Lemma score_band_filter_witness :
  let req := Sample.score_band_request true in
  let page := parseInt_or (q_page req) 1 in
  let limit := parseInt_or (q_limit req) 10 in
  ∃ docs total,
    get_history req Sample.env0 Sample.world
      = (Ok (res_json (history_body docs page limit total)), Sample.world)
    ∧ (∀ d, d ∈ docs → scans Sample.world !! d.1 = Some d.2
                       ∧ in_band Sample.alice.1 true d.2)
    ∧ total = Z.of_nat (size (filter (λ kv : ObjectId * Scan,
                                        in_band Sample.alice.1 true kv.2)
                                (scans Sample.world)))
    ∧ (page = 1 → total ≤ limit →
       ∀ id s, scans Sample.world !! id = Some s →
               in_band Sample.alice.1 true s → (id, s) ∈ docs).
Proof.
  apply (score_band_filter Sample.env0 Sample.world Sample.alice
           (Sample.score_band_request true) true);
    reflexivity.
Defined.

(** The two listings of the property on sample data: Alice's scans in
    the band are records 10 and 11; only record 10 is ["Good"]. Bob's
    record 20, also in the band, is never listed. *)
Example score_band_filter_run :
  listed_ids (get_history (Sample.score_band_request false) Sample.env_up Sample.world)
    = [Some (JOid 10%N); Some (JOid 11%N)]
  ∧ listed_ids (get_history (Sample.score_band_request true) Sample.env_up Sample.world)
    = [Some (JOid 10%N)].
Proof. vm_compute. by split. Qed.

(** ** Further runs on the sample data *)

(** Bob asks for Alice's record 10 and for the unused id 99: the two
    answers, and the states they leave, are the same. *)
Example not_found_indistinguishable :
  get_scan Sample.castObjectId
    {| s_user := Some Sample.bob; s_scanId := Sample.seg10 |} Sample.env0 Sample.world
  = get_scan Sample.castObjectId
      {| s_user := Some Sample.bob; s_scanId := "000000000000000000000063" |}
      Sample.env0 Sample.world
  ∧ delete_scan Sample.castObjectId
      {| s_user := Some Sample.bob; s_scanId := Sample.seg10 |} Sample.env0 Sample.world
    = delete_scan Sample.castObjectId
        {| s_user := Some Sample.bob; s_scanId := "000000000000000000000063" |}
        Sample.env0 Sample.world.
Proof. vm_compute. by split. Qed.

(** A clock that runs backwards makes the measured processing time
    negative: the record fails the schema's minimum, the persist throws,
    and the stored blob is removed again. *)
Example skewed_clock_run :
  let r := post_analyze {| an_user := Some Sample.alice; an_file := Some Sample.jpeg |}
             Sample.env_skew Sample.empty in
  (status <$> responds r) = Some 500
  ∧ trace r.2 = [EWriteFile "scan-1700000000000-500000000.jpg";
                 EUnlink "scan-1700000000000-500000000.jpg"]
  ∧ uploads r.2 = ∅ ∧ scans r.2 = ∅.
Proof. vm_compute. repeat split. Qed.

(** A part of exactly the size limit: status 500 from the error
    middleware; the file written so far is removed again. *)
Example oversized_run :
  let r := post_analyze
             {| an_user := Some Sample.alice;
                an_file := Some {| originalname := "big.png"; mimetype := "image/png";
                                   size_bytes := maxFileSize |} |}
             Sample.env0 Sample.empty in
  responds r = Some (res_status_json 500 (failure "File too large"))
  ∧ trace r.2 = [EWriteFile "scan-1700000000000-500000000.png";
                 EUnlink "scan-1700000000000-500000000.png"]
  ∧ uploads r.2 = ∅ ∧ scans r.2 = ∅.
Proof. vm_compute. repeat split. Qed.

(** A successful upload, then the listing of the testable end-to-end
    scenario: one record, [total = 1], [pages = 1]. *)
Example upload_then_list_run :
  let w1 := (post_analyze {| an_user := Some Sample.alice; an_file := Some Sample.jpeg |}
               Sample.env0 Sample.empty).2 in
  let r := get_history (Sample.history_request "1" "10") Sample.env0 w1 in
  listed_ids r = [Some (JOid 30%N)]
  ∧ pagination_of r
    = Some (JObj [("page", JInt 1); ("limit", JInt 10); ("total", JInt 1);
                  ("pages", JInt 1)]).
Proof. vm_compute. by split. Qed.

(** * Further properties *)

(** ** The authentication middleware *)

Lemma split_space_no_space s : has_space s = false → split_space s = [s].
Proof.
  induction s as [|c s IH]; [done|]. unfold has_space. cbn.
  destruct (Ascii.eqb c " "); [done|]. cbn. intros H. by rewrite (IH H).
Qed.

Lemma split_space_app s rest :
  has_space s = false →
  split_space (s +:+ String " " rest) = s :: split_space rest.
Proof.
  induction s as [|c s IH]; intros H.
  - reflexivity.
  - unfold has_space in H. cbn in H.
    destruct (Ascii.eqb c " ") eqn:E; [done|]. cbn in H.
    change (String c s +:+ String " " rest) with (String c (s +:+ String " " rest)).
    cbn [split_space]. by rewrite E, (IH H).
Qed.

Lemma split_space_head_nonempty s : ∃ seg segs, split_space s = seg :: segs.
Proof.
  destruct s as [|c s]; [by eexists _, _|]. cbn.
  destruct (Ascii.eqb c " "); [by eexists _, _|].
  destruct (split_space s); by eexists _, _.
Qed.

(** What the middleware does with a token it can read. *)
Lemma authenticateToken_run secret verify authorization env w :
  ∃ outcome, authenticateToken secret verify authorization env w = (Ok outcome, w).
Proof.
  unfold authenticateToken, try_catch.
  destruct (negb (truthy (bearer_token authorization))); [by eexists|].
  destruct (negb (truthy secret)); [cbn; repeat case_match; by eexists|].
  destruct (verify _ _) as [id|e].
  - unfold bind, User_findById, gets. destruct (users w !! id); by eexists.
  - cbn. repeat case_match; by eexists.
Qed.

(** X1. Whenever the authentication middleware lets a request through,
    the user it attaches is a document of the users collection, stored
    under the id carried by a non-empty token (the second
    space-separated segment of the header) that [jwt.verify] accepted
    against a non-empty secret; the state is untouched. *)
Theorem auth_attaches_stored_user (secret : option string)
    (verify : string → string → Result ObjectId)
    (authorization : option string) (env : Env) (w w' : World) (u : UserDoc) :
  authenticateToken secret verify authorization env w = (Ok (Next u), w') →
  w' = w
  ∧ users w !! u.1 = Some u.2
  ∧ ∃ token key,
      bearer_token authorization = Some token ∧ token ≠ ""
      ∧ secret = Some key ∧ key ≠ ""
      ∧ verify token key = Ok u.1.
Proof.
  unfold authenticateToken, try_catch. cbv zeta.
  destruct (bearer_token authorization) as [token|] eqn:Ht; cbn [truthy negb];
    [|intros [=]].
  destruct (String.eqb token "") eqn:Et; cbn [negb]; [intros [=]|].
  destruct secret as [key|]; cbn [truthy negb]; [|cbn; intros [=]].
  destruct (String.eqb key "") eqn:Ek; cbn [negb]; [cbn; intros [=]|].
  cbn [default]. unfold bind, User_findById, gets.
  destruct (verify _ _) as [id|e] eqn:Ev; cbv [Datatypes.id] in Ev.
  - destruct (users w !! id) as [stored|] eqn:Hu; cbn; [|intros [=]].
    intros [= <- <-]. cbn.
    split_and!; [done..|]. exists token, key.
    apply String.eqb_neq in Et, Ek. by split_and!.
  - cbn. repeat case_match; intros [=].
Qed.

Lemma auth_attaches_stored_user_witness :
  Sample.world = Sample.world
  ∧ users Sample.world !! Sample.alice.1 = Some Sample.alice.2
  ∧ ∃ token key,
      bearer_token (Some "Bearer alice-token") = Some token ∧ token ≠ ""
      ∧ Some "s3cret" = Some key ∧ key ≠ ""
      ∧ sample_verify token key = Ok Sample.alice.1.
Proof.
  apply (auth_attaches_stored_user (Some "s3cret") sample_verify
           (Some "Bearer alice-token") Sample.env0 Sample.world Sample.world
           Sample.alice).
  vm_compute. reflexivity.
Defined.

(** X2. A request with no [Authorization] header, or with a header that
    has no space in it (so no second segment), is answered 401 "Access
    token is required", whatever the secret and the verifier are: they
    are not consulted. The state is untouched. *)
Theorem auth_missing_token (secret : option string)
    (verify : string → string → Result ObjectId) (env : Env) (w : World)
    (authorization : option string) :
  (∀ h, authorization = Some h → has_space h = false) →
  authenticateToken secret verify authorization env w
  = (Ok (Responded token_required), w).
Proof.
  intros Hh. unfold authenticateToken, try_catch.
  assert (truthy (bearer_token authorization) = false) as ->; [|done].
  destruct authorization as [h|]; [|done]. unfold bearer_token.
  destruct (String.eqb h "") eqn:E; [done|].
  by rewrite (split_space_no_space h (Hh h eq_refl)).
Qed.

Lemma auth_missing_token_witness :
  authenticateToken (Some "s3cret") sample_verify (Some "alice-token")
    Sample.env0 Sample.world
  = (Ok (Responded token_required), Sample.world).
Proof.
  apply (auth_missing_token (Some "s3cret") sample_verify Sample.env0 Sample.world
           (Some "alice-token")).
  intros h [= <-]. reflexivity.
Defined.

(** X3. The middleware never looks at the scheme word of the header:
    two headers that differ only in their first (space-free) segment are
    treated alike. *)
Theorem auth_scheme_ignored (secret : option string)
    (verify : string → string → Result ObjectId) (env : Env) (w : World)
    (scheme scheme' rest : string) :
  has_space scheme = false → has_space scheme' = false →
  authenticateToken secret verify (Some (scheme +:+ " " +:+ rest)) env w
  = authenticateToken secret verify (Some (scheme' +:+ " " +:+ rest)) env w.
Proof.
  intros H H'. unfold authenticateToken.
  assert (Ht : ∀ s, has_space s = false →
            bearer_token (Some (s +:+ " " +:+ rest)) = head (split_space rest)).
  { intros s Hs. change (s +:+ " " +:+ rest) with (s +:+ String " " rest).
    unfold bearer_token. rewrite split_space_app by done.
    destruct (String.eqb (s +:+ String " " rest) "") eqn:E.
    - apply String.eqb_eq in E. destruct s; discriminate.
    - by destruct (split_space rest). }
  by rewrite (Ht scheme H), (Ht scheme' H').
Qed.

Lemma auth_scheme_ignored_witness :
  authenticateToken (Some "s3cret") sample_verify (Some ("Bearer" +:+ " " +:+ "alice-token"))
    Sample.env0 Sample.world
  = authenticateToken (Some "s3cret") sample_verify (Some ("Basic" +:+ " " +:+ "alice-token"))
      Sample.env0 Sample.world.
Proof.
  apply (auth_scheme_ignored (Some "s3cret") sample_verify Sample.env0 Sample.world
           "Bearer" "Basic" "alice-token"); reflexivity.
Defined.

(** X4. A request that does not pass the authentication middleware is
    answered by the middleware alone, with status 401 or 500, and
    leaves the state exactly as it was: whatever file part it carries,
    no blob is written and no record is created or deleted. *)
Theorem unauthenticated_request_changes_nothing (secret : option string)
    (verify : string → string → Result ObjectId)
    (authorization : option string) (env : Env) (w : World) :
  (∀ u w', authenticateToken secret verify authorization env w ≠ (Ok (Next u), w')) →
  ∃ r, (status r = 401 ∨ status r = 500)
       ∧ (∀ part, route_analyze secret verify authorization part env w = (Ok r, w))
       ∧ (∀ cast id,
            route_get_scan secret verify cast authorization id env w = (Ok r, w))
       ∧ (∀ cast id,
            route_delete_scan secret verify cast authorization id env w = (Ok r, w)).
Proof.
  intros Hno.
  assert (∃ r, authenticateToken secret verify authorization env w
               = (Ok (Responded r), w) ∧ (status r = 401 ∨ status r = 500))
    as (r & E & Hst).
  { revert Hno. unfold authenticateToken, try_catch.
    destruct (negb (truthy (bearer_token authorization))); [by eexists; eauto|].
    destruct (negb (truthy secret)); [cbn; eexists; eauto|].
    destruct (verify _ _) as [id|e].
    - unfold bind, User_findById, gets. destruct (users w !! id) as [stored|]; cbn.
      + intros Hno. by destruct (Hno (id, stored) w).
      + eexists; eauto.
    - cbn. repeat case_match; eexists; eauto. }
  exists r. split; [done|].
  unfold route_analyze, route_get_scan, route_delete_scan, protected, bind.
  rewrite E. by split_and!.
Qed.

Lemma unauthenticated_request_changes_nothing_witness :
  ∃ r, (status r = 401 ∨ status r = 500)
       ∧ (∀ part, route_analyze (Some "s3cret") sample_verify (Some "Bearer old-token")
                    part Sample.env0 Sample.world = (Ok r, Sample.world))
       ∧ (∀ cast id,
            route_get_scan (Some "s3cret") sample_verify cast (Some "Bearer old-token")
              id Sample.env0 Sample.world = (Ok r, Sample.world))
       ∧ (∀ cast id,
            route_delete_scan (Some "s3cret") sample_verify cast (Some "Bearer old-token")
              id Sample.env0 Sample.world = (Ok r, Sample.world)).
Proof.
  apply (unauthenticated_request_changes_nothing (Some "s3cret") sample_verify
           (Some "Bearer old-token") Sample.env0 Sample.world).
  intros u w'. vm_compute. discriminate.
Defined.

(** ** The profile routes *)

Lemma profile_data_no_password u : json_has_key "password" (profile_data u) = false.
Proof. reflexivity. Qed.

(** What [PUT /profile] does for an authenticated caller and a name that
    is not blank. *)
Lemma put_profile_run name_errors stamps (u : UserDoc) name env w :
  trim name ≠ "" →
  put_profile name_errors stamps (Some u) (Some name) env w =
    match name_errors (trim name) with
    | [] =>
        match users w !! u.1 with
        | Some old =>
            let u' := rename (trim name)
                        (if stamps then Some (now env (clk w)) else None) old in
            (Ok (res_json (JObj [("success", JBool true);
                                 ("message", JStr "Profile updated successfully");
                                 ("data", profile_data (u.1, u'))])),
             set_users (<[u.1 := u']>) (Date_now env w).2)
        | None => (Ok (res_status_json 404 (failure "User not found")), (Date_now env w).2)
        end
    | msgs =>
        (Ok (res_status_json 400
               (JObj [("success", JBool false); ("message", JStr "Validation error");
                      ("errors", JArr (JStr <$> msgs))])), w)
    end.
Proof.
  intros Hname. unfold put_profile, try_catch.
  assert (name ≠ "") as Hne by (intros ->; by apply Hname).
  apply String.eqb_neq in Hne. change (default "" (Some name)) with name.
  unfold truthy. rewrite Hne. cbn [negb orb].
  assert ((String.length (trim name) =? 0)%nat = false) as ->.
  { apply Nat.eqb_neq. destruct (trim name); [done|cbn; lia]. }
  unfold bind, User_findByIdAndUpdate.
  destruct (name_errors (trim name)) as [|m ms]; [|reflexivity].
  unfold bind, Date_now, gets, modify, ret. cbn.
  by destruct (users w !! u.1).
Qed.

Lemma put_profile_blank name_errors stamps (u : UserDoc) name env w :
  trim (default "" name) = "" →
  put_profile name_errors stamps (Some u) name env w
  = (Ok (res_status_json 400 (failure "Name is required")), w).
Proof.
  intros Hb. unfold put_profile, try_catch. rewrite Hb. by rewrite orb_true_r.
Qed.

(** X5. Neither profile route ever returns the stored password (hash):
    no response of [GET /profile] or [PUT /profile] carries a [password]
    property, whatever the request. *)
Theorem profile_hides_password (name_errors : string → list string) (stamps : bool)
    (user : option UserDoc) (name : option string) (env : Env) (w : World) :
  exposes "password" (get_profile user env w) = false
  ∧ exposes "password" (put_profile name_errors stamps user name env w) = false.
Proof.
  split.
  - unfold exposes, get_profile, try_catch, ret. by destruct user.
  - destruct user as [u|]; [|reflexivity].
    destruct (decide (trim (default "" name) = "")) as [Hb|Hb].
    + unfold exposes, put_profile, try_catch. rewrite Hb. by rewrite orb_true_r.
    + destruct name as [n|]; [|done]. change (default "" (Some n)) with n in Hb.
      unfold exposes. rewrite (put_profile_run name_errors stamps u n env w Hb).
      destruct (name_errors (trim n)) as [|m ms].
      * by destruct (users w !! u.1).
      * cbn [fst body res_status_json json_has_key existsb].
        by rewrite strings_no_key.
Qed.

(** X6. [PUT /profile] with a missing name, or a name that is blank once
    trimmed, is answered 400 "Name is required" before anything is read
    or written: the state is exactly as before. *)
Theorem put_profile_blank_name (name_errors : string → list string) (stamps : bool)
    (u : UserDoc) (name : option string) (env : Env) (w : World) :
  trim (default "" name) = "" →
  put_profile name_errors stamps (Some u) name env w
  = (Ok (res_status_json 400 (failure "Name is required")), w).
Proof. apply put_profile_blank. Qed.

Lemma put_profile_blank_name_witness :
  put_profile (λ _, []) true (Some Sample.alice) (Some "   ") Sample.env0 Sample.world
  = (Ok (res_status_json 400 (failure "Name is required")), Sample.world).
Proof.
  apply (put_profile_blank_name (λ _, []) true Sample.alice (Some "   ")
           Sample.env0 Sample.world).
  reflexivity.
Defined.

(** X7. A successful [PUT /profile] stores the trimmed name on the
    caller's own account and changes nothing else: the account keeps its
    email, password and creation time, every other account, every scan
    record and every blob is as before, and the response carries the
    stored document. *)
Theorem put_profile_changes_only_name (name_errors : string → list string)
    (stamps : bool) (u : UserDoc) (name : option string) (env : Env)
    (w w' : World) (r : Response) :
  put_profile name_errors stamps (Some u) name env w = (Ok r, w') →
  status r = 200 →
  ∃ old new,
    users w !! u.1 = Some old ∧ users w' !! u.1 = Some new
    ∧ u_name new = trim (default "" name) ∧ u_name new ≠ ""
    ∧ u_email new = u_email old ∧ u_password new = u_password old
    ∧ u_createdAt new = u_createdAt old
    ∧ (∀ j, j ≠ u.1 → users w' !! j = users w !! j)
    ∧ scans w' = scans w ∧ uploads w' = uploads w ∧ trace w' = trace w
    ∧ json_get "data" (body r) = Some (profile_data (u.1, new)).
Proof.
  intros E Hst.
  destruct (decide (trim (default "" name) = "")) as [Hb|Hb].
  { rewrite (put_profile_blank name_errors stamps u name env w Hb) in E.
    by injection E as <- <-. }
  destruct name as [n|]; [|done]. change (default "" (Some n)) with n in *.
  rewrite (put_profile_run name_errors stamps u n env w Hb) in E.
  destruct (name_errors (trim n)) as [|m ms]; [|by injection E as <- <-].
  destruct (users w !! u.1) as [old|] eqn:Hold; [|by injection E as <- <-].
  injection E as <- <-.
  exists old, (rename (trim n) (if stamps then Some (now env (clk w)) else None) old).
  cbn. split_and!; try done.
  - apply lookup_insert_eq.
  - intros j Hj. by apply lookup_insert_ne.
Qed.

Lemma put_profile_changes_only_name_witness :
  ∃ old new,
    users Sample.world !! Sample.alice.1 = Some old
    ∧ users (put_profile (λ _, []) true (Some Sample.alice) (Some "  Alicia ")
               Sample.env0 Sample.world).2 !! Sample.alice.1 = Some new
    ∧ u_name new = "Alicia".
Proof.
  destruct (put_profile_changes_only_name (λ _, []) true Sample.alice
              (Some "  Alicia ") Sample.env0 Sample.world _ _ eq_refl eq_refl)
    as (old & new & H1 & H2 & H3 & _).
  exists old, new. exact (conj H1 (conj H2 H3)).
Defined.

(** ** Statistics *)

Lemma matching_owner_only owner (m : gmap ObjectId Scan) :
  matching {| f_userId := owner; f_freshness := None; f_qualityScore := None |}
           (None, None) m
  = owned owner m.
Proof.
  unfold matching, owned. apply map_filter_ext. intros i s _.
  cbn [f_userId f_freshness snd]. rewrite matches_spec. cbn [fst snd].
  split; [by intros [? _]|]. intros ?. by split_and!.
Qed.

Lemma owned_scans_length owner w :
  Z.of_nat (length (owned_scans owner w)) = Z.of_nat (size (owned owner (scans w))).
Proof. unfold owned_scans. by rewrite length_fmap, length_map_to_list. Qed.

Lemma owned_scans_elem owner w s :
  s ∈ owned_scans owner w ↔ ∃ id, scans w !! id = Some s ∧ userId s = owner.
Proof.
  unfold owned_scans, owned. rewrite list_elem_of_fmap. split.
  - intros ([id s'] & -> & H). apply elem_of_map_to_list in H.
    apply map_lookup_filter_Some in H. eauto.
  - intros (id & Hs & Ho). exists (id, s). split; [done|].
    apply elem_of_map_to_list. by apply map_lookup_filter_Some.
Qed.

(** The answer of [GET /stats] for an authenticated caller, in terms of
    the caller's records. *)
Lemma get_stats_run six year month (u : UserDoc) env w :
  let mine := owned_scans u.1 w in
  get_stats six year month (Some u) env w =
    (Ok (res_json
           (stats_body
              (Z.of_nat (length mine))
              (match avg_score mine with Some avg => Math_round avg | None => 0 end)
              (head (sort_newest_first (natural_rank env) (owned u.1 (scans w))))
              (group_count freshness mine)
              (group_count (λ s, quality_range (qualityScore s)) mine)
              (monthly_groups year month (six (now env (clk w))) mine))),
     (Date_now env w).2).
Proof.
  intros mine. unfold get_stats, try_catch.
  unfold bind at 1. unfold Scan_countDocuments. cbn [cast_filters f_qualityScore].
  unfold gets at 1. rewrite matching_owner_only, <- owned_scans_length. fold mine.
  reflexivity.
Qed.

Lemma group_count_lookup `{Countable K} (key : Scan → K) (l : list Scan) (k : K) :
  group_count key l !! k
  = if decide (occurrences key k l = 0) then None else Some (occurrences key k l).
Proof.
  induction l as [|s l IH]; [done|].
  cbn [group_count foldr]. fold (group_count key l).
  unfold occurrences in *. cbn [List.filter].
  destruct (decide (key s = k)) as [->|Hne].
  - rewrite lookup_insert_eq, IH, bool_decide_eq_true_2 by done. cbn [length].
    repeat case_decide; cbn; f_equal; lia.
  - rewrite lookup_insert_ne, IH, bool_decide_eq_false_2 by done. done.
Qed.

Lemma group_count_Some `{Countable K} (key : Scan → K) (l : list Scan) (k : K) (n : Z) :
  group_count key l !! k = Some n ↔ 0 < n ∧ n = occurrences key k l.
Proof.
  rewrite group_count_lookup. unfold occurrences. case_decide; split.
  - done.
  - intros [??]. lia.
  - intros [= <-]. lia.
  - by intros [_ ->].
Qed.

Lemma quality_range_spec (x : Z) :
  (quality_range x = "excellent" ↔ 90 ≤ x)
  ∧ (quality_range x = "good" ↔ 70 ≤ x ≤ 89)
  ∧ (quality_range x = "fair" ↔ 50 ≤ x ≤ 69)
  ∧ (quality_range x = "poor" ↔ x < 50).
Proof.
  unfold quality_range.
  destruct (90 <=? x) eqn:E1; [|destruct (70 <=? x) eqn:E2; [|destruct (50 <=? x) eqn:E3]];
    split_and!; split; (done || lia).
Qed.

Lemma quality_range_partition (l : list Scan) :
  let key := λ s, quality_range (qualityScore s) in
  occurrences key "excellent" l + occurrences key "good" l
  + occurrences key "fair" l + occurrences key "poor" l
  = Z.of_nat (length l).
Proof.
  intros key. unfold occurrences. induction l as [|s l IH]; [done|].
  cbn [List.filter length]. subst key. cbv beta in *.
  assert (quality_range (qualityScore s) = "excellent"
          ∨ quality_range (qualityScore s) = "good"
          ∨ quality_range (qualityScore s) = "fair"
          ∨ quality_range (qualityScore s) = "poor") as [E|[E|[E|E]]]
    by (unfold quality_range; repeat case_match; auto).
  all: rewrite E;
    repeat match goal with
      | |- context [bool_decide (?a = ?b)] =>
          first [ rewrite (bool_decide_eq_true_2 (a = b)) by done
                | rewrite (bool_decide_eq_false_2 (a = b)) by done ]
      end;
    cbn [length]; lia.
Qed.

Lemma owned_scans_nil owner w :
  (∀ id s, scans w !! id = Some s → userId s ≠ owner) →
  owned owner (scans w) = ∅ ∧ owned_scans owner w = [].
Proof.
  intros Hnone. assert (owned owner (scans w) = ∅) as E.
  { apply map_empty. intros id. apply map_lookup_filter_None. right.
    intros s Hs. by apply (Hnone id). }
  split; [done|]. unfold owned_scans. by rewrite E, map_to_list_empty.
Qed.

(** X8. For a caller who owns no scan record the statistics are all
    empty: [totalScans = 0], [averageScore = 0] (no division is
    attempted), [lastScanDate = null], and no freshness, score-range or
    monthly entry; the answer is 200. *)
Theorem stats_of_no_scans (six year month : Z → Z) (u : UserDoc) (env : Env)
    (w : World) :
  (∀ id s, scans w !! id = Some s → userId s ≠ u.1) →
  (get_stats six year month (Some u) env w).1
  = Ok (res_json (stats_body 0 0 None ∅ ∅ [])).
Proof.
  intros Hnone. rewrite get_stats_run. cbn [fst].
  destruct (owned_scans_nil u.1 w Hnone) as [-> ->].
  unfold sort_newest_first. rewrite map_to_list_empty. reflexivity.
Qed.

Lemma stats_of_no_scans_witness :
  (get_stats (λ t, t - 15778800000) (λ _, 2023) (λ _, 11) (Some Sample.bob)
     Sample.env0 Sample.world_tie).1
  = Ok (res_json (stats_body 0 0 None ∅ ∅ [])).
Proof.
  apply (stats_of_no_scans _ _ _ Sample.bob Sample.env0 Sample.world_tie).
  change (map_Forall (λ (_ : ObjectId) (s : Scan), userId s ≠ Sample.bob.1)
            (scans Sample.world_tie)).
  apply (bool_decide_unpack _). vm_compute. exact I.
Defined.

(** X9. In the statistics of an authenticated caller the score-range
    counts partition the caller's records: a band is present exactly
    when some record falls in it, with the number of such records; the
    four bands (excellent: 90 and above, good: 70 to 89, fair: 50 to 69,
    poor: below 50) add up to [totalScans]. *)
Theorem stats_score_ranges (six year month : Z → Z) (u : UserDoc) (env : Env)
    (w : World) :
  ∃ total avg latest fresh ranges monthly,
    (get_stats six year month (Some u) env w).1
      = Ok (res_json (stats_body total avg latest fresh ranges monthly))
    ∧ total = Z.of_nat (length (owned_scans u.1 w))
    ∧ (∀ band n,
         ranges !! band = Some n ↔
         0 < n ∧ n = occurrences (λ s, quality_range (qualityScore s)) band
                       (owned_scans u.1 w))
    ∧ band_count ranges "excellent" + band_count ranges "good"
      + band_count ranges "fair" + band_count ranges "poor" = total
    ∧ (∀ x, (quality_range x = "excellent" ↔ 90 ≤ x)
            ∧ (quality_range x = "good" ↔ 70 ≤ x ≤ 89)
            ∧ (quality_range x = "fair" ↔ 50 ≤ x ≤ 69)
            ∧ (quality_range x = "poor" ↔ x < 50)).
Proof.
  eexists _, _, _, _, _, _. split; [by rewrite get_stats_run|].
  split_and!; [done| | |apply quality_range_spec].
  - intros band n. apply group_count_Some.
  - rewrite <- (quality_range_partition (owned_scans u.1 w)).
    unfold band_count. rewrite !group_count_lookup.
    repeat case_decide; unfold default, from_option, id; lia.
Qed.

(** X10. The freshness counts of the statistics list exactly the
    freshness values that occur among the caller's records, each with
    the number of records that have it. *)
Theorem stats_freshness_counts (six year month : Z → Z) (u : UserDoc) (env : Env)
    (w : World) :
  ∃ total avg latest fresh ranges monthly,
    (get_stats six year month (Some u) env w).1
      = Ok (res_json (stats_body total avg latest fresh ranges monthly))
    ∧ (∀ value n,
         fresh !! value = Some n ↔
         0 < n ∧ n = occurrences freshness value (owned_scans u.1 w))
    ∧ (∀ value, is_Some (fresh !! value) ↔
                ∃ id s, scans w !! id = Some s ∧ userId s = u.1
                        ∧ freshness s = value).
Proof.
  eexists _, _, _, _, _, _. split; [by rewrite get_stats_run|]. split.
  - intros value n. apply group_count_Some.
  - intros value. rewrite group_count_lookup. unfold occurrences.
    set (hits := List.filter _ _).
    assert (Hhits : ∀ s, s ∈ hits ↔ s ∈ owned_scans u.1 w ∧ freshness s = value).
    { intros s. subst hits. rewrite list_elem_of_In, filter_In, <- list_elem_of_In.
      by rewrite bool_decide_eq_true. }
    split.
    + case_decide as Hn; [by intros [? ?]|]. intros _.
      destruct hits as [|s rest]; [done|].
      destruct (proj1 (Hhits s) ltac:(by left)) as [Hs Hv].
      apply owned_scans_elem in Hs as (id & Hs & Ho). eauto.
    + intros (id & s & Hs & Ho & Hv).
      assert (s ∈ hits) as Hin.
      { apply Hhits. split; [|done]. apply owned_scans_elem. eauto. }
      case_decide as Hn; [|by eexists].
      destruct hits; [by apply elem_of_nil in Hin|]. cbn in Hn. lia.
Qed.

Lemma sum_scores_bounds (lo hi : Z) (l : list Scan) :
  (∀ s, s ∈ l → lo ≤ qualityScore s ≤ hi) →
  lo * Z.of_nat (length l) ≤ foldr (λ s acc, qualityScore s + acc) 0 l
                           ≤ hi * Z.of_nat (length l).
Proof.
  induction l as [|s l IH]; intros Hl; [cbn; lia|].
  cbn [foldr length].
  pose proof (Hl s ltac:(by left)).
  pose proof (IH (λ x Hx, Hl x ltac:(by right))). lia.
Qed.

Lemma Math_round_fraction_bounds (sum lo hi : Z) (p : positive) :
  lo * Z.pos p ≤ sum ≤ hi * Z.pos p → lo ≤ Math_round (sum # p) ≤ hi.
Proof.
  intros [Hlo Hhi]. unfold Math_round, Qfloor, Qplus. cbn [Qnum Qden].
  split.
  - apply Z.div_le_lower_bound; lia.
  - apply Z.lt_succ_r, Z.div_lt_upper_bound; lia.
Qed.

(** X11. The average score of the statistics is a rounded mean: when
    the caller owns at least one record and every score of the caller
    lies between [lo] and [hi], so does [averageScore]. *)
Theorem stats_average_bounds (six year month : Z → Z) (u : UserDoc) (env : Env)
    (w : World) (lo hi : Z) :
  owned_scans u.1 w ≠ [] →
  (∀ id s, scans w !! id = Some s → userId s = u.1 → lo ≤ qualityScore s ≤ hi) →
  ∃ total avg latest fresh ranges monthly,
    (get_stats six year month (Some u) env w).1
      = Ok (res_json (stats_body total avg latest fresh ranges monthly))
    ∧ lo ≤ avg ≤ hi.
Proof.
  intros Hne Hrange.
  eexists _, _, _, _, _, _. split; [by rewrite get_stats_run|].
  destruct (owned_scans u.1 w) as [|s l] eqn:E; [done|].
  unfold avg_score. apply Math_round_fraction_bounds.
  assert (Z.pos (Pos.of_nat (length (s :: l))) = Z.of_nat (length (s :: l))) as ->.
  { cbn [length]. lia. }
  apply sum_scores_bounds. intros x Hx. rewrite <- E in Hx.
  apply owned_scans_elem in Hx as (id & Hs & Ho). eauto.
Qed.

Lemma stats_average_bounds_witness :
  ∃ total avg latest fresh ranges monthly,
    (get_stats (λ t, t - 15778800000) (λ _, 2023) (λ _, 11) (Some Sample.alice)
       Sample.env0 Sample.world).1
      = Ok (res_json (stats_body total avg latest fresh ranges monthly))
    ∧ 75 ≤ avg ≤ 95.
Proof.
  apply (stats_average_bounds _ _ _ Sample.alice Sample.env0 Sample.world 75 95).
  - vm_compute. discriminate.
  - change (map_Forall (λ (_ : ObjectId) (s : Scan),
              userId s = Sample.alice.1 → 75 ≤ qualityScore s ≤ 95)
              (scans Sample.world)).
    apply (bool_decide_unpack _). vm_compute. exact I.
Defined.

(** X12. [lastScanDate] is the analysis date of one of the caller's
    records, and no record of the caller was created after that one; it
    is null exactly when the caller owns no record. *)
Theorem stats_last_scan (six year month : Z → Z) (u : UserDoc) (env : Env)
    (w : World) :
  ∃ total avg latest fresh ranges monthly,
    (get_stats six year month (Some u) env w).1
      = Ok (res_json (stats_body total avg latest fresh ranges monthly))
    ∧ match latest with
      | Some d =>
          scans w !! d.1 = Some d.2 ∧ userId d.2 = u.1
          ∧ ∀ id s, scans w !! id = Some s → userId s = u.1 →
                    createdAt s ≤ createdAt d.2
      | None => ∀ id s, scans w !! id = Some s → userId s ≠ u.1
      end.
Proof.
  eexists _, _, _, _, _, _. split; [by rewrite get_stats_run|].
  pose proof (sort_newest_first_sorted (natural_rank env) (owned u.1 (scans w))) as Hs.
  pose proof (sort_newest_first_lookup (natural_rank env) (owned u.1 (scans w))) as Hl.
  destruct (sort_newest_first _ _) as [|d rest]; cbn [head].
  - intros id s Hs' Ho.
    assert ((id, s) ∈ @nil (ObjectId * Scan)) as Hin; [|by apply elem_of_nil in Hin].
    apply Hl. by apply map_lookup_filter_Some.
  - pose proof (proj1 (Hl d) ltac:(by left)) as Hd.
    apply map_lookup_filter_Some in Hd as [Hd Ho].
    split_and!; [done..|]. intros id s Hs' Ho'.
    assert ((id, s) ∈ d :: rest) as Hin
      by (apply Hl; by apply map_lookup_filter_Some).
    apply elem_of_cons in Hin as [<-|Hin]; [done|].
    apply StronglySorted_inv in Hs as [_ Hall].
    rewrite Forall_forall in Hall. specialize (Hall _ Hin).
    unfold newest_first in Hall. cbn in Hall. lia.
Qed.

Global Instance month_le_total : Total month_le.
Proof. intros x y. unfold month_le. lia. Qed.

(** X13. The monthly counts of the statistics are ordered by year and
    month, and hold one entry per calendar month in which the caller has
    a record created at or after the six-month cut-off, with the number
    of those records. *)
Theorem stats_monthly (six year month : Z → Z) (u : UserDoc) (env : Env)
    (w : World) :
  ∃ total avg latest fresh ranges monthly,
    (get_stats six year month (Some u) env w).1
      = Ok (res_json (stats_body total avg latest fresh ranges monthly))
    ∧ Sorted month_le monthly
    ∧ NoDup monthly.*1
    ∧ ∀ y m n,
        ((y, m), n) ∈ monthly ↔
        0 < n
        ∧ n = occurrences (λ s, (year (createdAt s), month (createdAt s))) (y, m)
                (List.filter (λ s, six (now env (clk w)) <=? createdAt s)
                   (owned_scans u.1 w)).
Proof.
  eexists _, _, _, _, _, _. split; [by rewrite get_stats_run|].
  unfold monthly_groups. split_and!.
  - apply Sorted_merge_sort. apply _.
  - rewrite merge_sort_Permutation. apply NoDup_fst_map_to_list.
  - intros y m n. rewrite merge_sort_Permutation, elem_of_map_to_list.
    apply group_count_Some.
Qed.

(** X14. The statistics of a caller depend on the caller's own records
    only: in two states that hold the same records of the caller (and
    read the same clock), records of other accounts may differ at will
    and the answer is the same. *)
Theorem stats_scoped_to_owner (six year month : Z → Z) (u : UserDoc) (env : Env)
    (w1 w2 : World) :
  owned u.1 (scans w1) = owned u.1 (scans w2) → clk w1 = clk w2 →
  (get_stats six year month (Some u) env w1).1
  = (get_stats six year month (Some u) env w2).1.
Proof.
  intros Ho Hc. rewrite !get_stats_run. cbn [fst].
  unfold owned_scans. by rewrite Ho, Hc.
Qed.

Lemma stats_scoped_to_owner_witness :
  (get_stats (λ t, t - 15778800000) (λ _, 2023) (λ _, 11) (Some Sample.alice)
     Sample.env0 Sample.world).1
  = (get_stats (λ t, t - 15778800000) (λ _, 2023) (λ _, 11) (Some Sample.alice)
       Sample.env0
       (delete_scan Sample.castObjectId
          {| s_user := Some Sample.bob; s_scanId := Sample.seg20 |}
          Sample.env0 Sample.world).2).1.
Proof.
  apply (stats_scoped_to_owner _ _ _ Sample.alice Sample.env0 Sample.world).
  - vm_compute. reflexivity.
  - reflexivity.
Defined.

(** ** More on uploading *)

(** X15. A part of an allowed type whose stream reaches the 10 MiB
    limit (a part of exactly that size included) is refused by the
    upload middleware and answered by the application's error
    middleware with status 500 and the message "File too large". The
    part had been written under its generated name and is removed
    again: these are the only two mutations, no file is left under that
    name and no record is created. *)
Theorem oversized_part_rejected (env : Env) (w : World) (req : AnalyzeRequest)
    (part : FilePart) :
  an_file req = Some part → mimetype part ∈ allowedTypes →
  maxFileSize ≤ size_bytes part →
  let name := generated_name env w part in
  ∃ w', post_analyze req env w
          = (Ok (res_status_json 500 (failure "File too large")), w')
        ∧ users w' = users w ∧ scans w' = scans w
        ∧ uploads w' = delete name (uploads w)
        ∧ blob_exists w' name = false
        ∧ trace w' = (trace w ++ [EWriteFile name; EUnlink name])%list.
Proof.
  intros Hf Hty Hsz name.
  destruct (post_analyze_oversized env w req part Hf Hty Hsz)
    as (w' & E & U & C & B & T).
  exists w'. fold name in B, T. split_and!; try done.
  unfold blob_exists. rewrite B, lookup_delete_eq.
  apply bool_decide_eq_false_2. by intros [? ?].
Qed.

Lemma oversized_part_rejected_witness :
  ∃ w', post_analyze
          {| an_user := Some Sample.alice;
             an_file := Some {| originalname := "big.png"; mimetype := "image/png";
                                size_bytes := maxFileSize |} |}
          Sample.env0 Sample.empty
          = (Ok (res_status_json 500 (failure "File too large")), w')
        ∧ scans w' = scans Sample.empty
        ∧ blob_exists w' "scan-1700000000000-500000000.png" = false.
Proof.
  destruct (oversized_part_rejected Sample.env0 Sample.empty
           {| an_user := Some Sample.alice;
              an_file := Some {| originalname := "big.png"; mimetype := "image/png";
                                 size_bytes := maxFileSize |} |}
           {| originalname := "big.png"; mimetype := "image/png";
              size_bytes := maxFileSize |} eq_refl)
    as (w' & E & _ & C & _ & B & _).
  - apply (bool_decide_unpack _). vm_compute. exact I.
  - vm_compute. discriminate.
  - exists w'. split; [exact E|]. split; [exact C|].
    change (generated_name Sample.env0 Sample.empty
              {| originalname := "big.png"; mimetype := "image/png";
                 size_bytes := maxFileSize |})
      with "scan-1700000000000-500000000.png" in B.
    exact B.
Defined.

(** The statuses of [POST /analyze] on a request that carries a part. *)
Lemma post_analyze_with_part env w user part :
  ∃ r w', post_analyze {| an_user := user; an_file := Some part |} env w = (Ok r, w')
          ∧ (status r = 200 ∨ status r = 401 ∨ status r = 500).
Proof.
  destruct (decide (mimetype part ∈ allowedTypes)) as [Hty|Hty].
  - destruct (decide (size_bytes part < maxFileSize)) as [Hsz|Hsz].
    + destruct user as [u|].
      * destruct (post_analyze_stored env w u part (λ _, True)) as (r & w' & E & _ & H);
          [intros; apply performFoodAnalysis_total|done..|].
        exists r, w'. split; [done|].
        destruct H as [(a & s & _ & -> & _) | (msg & -> & _)]; auto.
      * destruct (upload_single_allowed env w part Hty) as (w1 & S1 & E).
        cbn zeta in E.
        assert ((maxFileSize <=? size_bytes part) = false) as Hlt by lia.
        rewrite Hlt in E. unfold post_analyze, middleware. cbn [an_file an_user].
        rewrite E. eexists _, _. split; [reflexivity|]. auto.
    + destruct (post_analyze_oversized env w
                  {| an_user := user; an_file := Some part |} part eq_refl Hty
                  ltac:(lia)) as (w' & E & _).
      eexists _, _. split; [exact E|]. auto.
  - eexists _, _. split; [by apply (post_analyze_bad_type env w _ part)|]. auto.
Qed.

(** X16. [POST /analyze] answers 400 only when the request carries no
    file part, with "No file uploaded" and an untouched state. In
    particular the handler's own 400 "File size too large" answer is
    never sent: a part over the limit never reaches the handler. *)
Theorem analyze_400_only_without_file (env : Env) (w w' : World)
    (req : AnalyzeRequest) (r : Response) :
  post_analyze req env w = (Ok r, w') → status r = 400 →
  an_file req = None
  ∧ r = res_status_json 400 (failure "No file uploaded")
  ∧ w' = w.
Proof.
  intros E Hst. destruct req as [user [part|]].
  - destruct (post_analyze_with_part env w user part) as (r0 & w0 & E0 & H).
    rewrite E in E0. injection E0 as <- <-. lia.
  - unfold post_analyze, middleware, upload_single, ret in E.
    cbn in E. by injection E as <- <-.
Qed.

Lemma analyze_400_only_without_file_witness :
  an_file {| an_user := Some Sample.alice; an_file := None |} = None
  ∧ res_status_json 400 (failure "No file uploaded")
    = res_status_json 400 (failure "No file uploaded")
  ∧ Sample.world = Sample.world.
Proof.
  exact (analyze_400_only_without_file Sample.env0 Sample.world Sample.world
           {| an_user := Some Sample.alice; an_file := None |}
           (res_status_json 400 (failure "No file uploaded")) eq_refl eq_refl).
Defined.

(** ** More on listing *)

Lemma history_filters_owner owner req :
  f_userId (history_filters owner req) = owner.
Proof.
  unfold history_filters.
  destruct (truthy (q_freshness req)), (truthy (q_minScore req)),
    (truthy (q_maxScore req)); reflexivity.
Qed.

Lemma history_page_sublist rank f range skip limit (m : gmap ObjectId Scan) :
  history_page rank f range skip limit m `sublist_of`
    sort_newest_first rank (matching f range m).
Proof.
  unfold history_page. destruct (limit =? 0).
  - apply sublist_drop.
  - etrans; [apply sublist_take|apply sublist_drop].
Qed.

Lemma history_page_length rank f range skip limit (m : gmap ObjectId Scan) :
  limit ≠ 0 →
  Z.of_nat (length (history_page rank f range skip limit m)) ≤ Z.abs limit.
Proof.
  intros Hl. unfold history_page.
  assert ((limit =? 0) = false) as -> by lia. rewrite length_take. lia.
Qed.

(** X17. Every successful answer of [GET /history] is scoped and
    bounded: the request was authenticated, the state is untouched,
    every listed document is a stored record of the caller (never
    another account's), no record is listed twice, the page holds at
    most [|limit|] documents ([limit] is never 0: an absent, zero or
    unparsable value falls back to 10), and the listed objects are the
    views of those documents. *)
Theorem history_scoped_and_bounded (env : Env) (w w' : World)
    (req : HistoryRequest) (r : Response) :
  get_history req env w = (Ok r, w') → status r = 200 →
  ∃ u docs total,
    let page := parseInt_or (q_page req) 1 in
    let limit := parseInt_or (q_limit req) 10 in
    h_user req = Some u ∧ w' = w
    ∧ r = res_json (history_body docs page limit total)
    ∧ limit ≠ 0 ∧ page ≠ 0
    ∧ Z.of_nat (length docs) ≤ Z.abs limit
    ∧ (∀ d, d ∈ docs → scans w !! d.1 = Some d.2 ∧ userId d.2 = (u : UserDoc).1)
    ∧ NoDup docs.*1
    ∧ scans_of (body r) = scan_view <$> docs.
Proof.
  intros E Hst.
  destruct (h_user req) as [u|] eqn:Hu;
    [|unfold get_history, try_catch in E; rewrite Hu in E;
      injection E as <- <-; done].
  destruct (cast_filters (history_filters u.1 req)) as [range|e] eqn:Hc;
    [|unfold get_history, try_catch, bind, Scan_find_sorted in E;
      rewrite Hu, Hc in E; injection E as <- <-; done].
  destruct (decide (0 ≤ (parseInt_or (q_page req) 1 - 1) * parseInt_or (q_limit req) 10))
    as [Hs|Hs].
  - rewrite (get_history_ok env w req u range Hu Hc Hs) in E.
    injection E as <- <-. eexists u, _, _. cbv zeta.
    pose proof (parseInt_or_nonzero (q_limit req) 10 ltac:(done)) as Hl.
    pose proof (parseInt_or_nonzero (q_page req) 1 ltac:(done)) as Hp.
    split_and!; try done.
    + by apply history_page_length.
    + intros d Hd.
      eapply elem_of_sublist in Hd; [|apply history_page_sublist].
      apply sort_newest_first_lookup in Hd. unfold matching in Hd.
      apply map_lookup_filter_Some in Hd as [Hd Hm].
      split; [done|]. apply matches_spec in Hm as [Ho _].
      by rewrite history_filters_owner in Ho.
    + eapply sublist_NoDup; [apply sort_newest_first_NoDup|].
      apply fmap_sublist, history_page_sublist.
  - unfold get_history, try_catch in E. rewrite Hu in E.
    unfold bind at 1 in E. unfold Scan_find_sorted in E. rewrite Hc in E.
    match type of E with context [?a <? 0] =>
      assert ((a <? 0) = true) as Hneg by lia; rewrite Hneg in E end.
    injection E as <- <-. done.
Qed.

Lemma history_scoped_and_bounded_witness :
  ∃ u docs total,
    h_user (Sample.history_request "1" "2") = Some u
    ∧ Z.of_nat (length docs) ≤ Z.abs 2
    ∧ (∀ d, d ∈ docs → scans Sample.world !! d.1 = Some d.2
                       ∧ userId d.2 = (u : UserDoc).1)
    ∧ (get_history (Sample.history_request "1" "2") Sample.env_up Sample.world).1
      = Ok (res_json (history_body docs 1 2 total)).
Proof.
  pose (res := get_history (Sample.history_request "1" "2") Sample.env_up Sample.world).
  assert (E : ∃ r, get_history (Sample.history_request "1" "2") Sample.env_up
                     Sample.world = (Ok r, res.2) ∧ status r = 200)
    by (vm_compute; eexists; split; reflexivity).
  destruct E as (r & E & Hst).
  destruct (history_scoped_and_bounded Sample.env_up Sample.world res.2
              (Sample.history_request "1" "2") r E Hst)
    as (u & docs & total & Hu & _ & Hr & _ & _ & Hlen & Hdocs & _).
  exists u, docs, total. rewrite E, Hr. by split_and!.
Defined.

(** X18. The page count reported by [GET /history] is the least number
    of pages of [limit] records that holds all [total] matching records,
    and a page beyond it is answered 200 with an empty list. *)
Theorem history_page_past_end (env : Env) (w : World) (u : UserDoc)
    (req : HistoryRequest) (range : option Z * option Z) :
  h_user req = Some u →
  cast_filters (history_filters u.1 req) = Ok range →
  let page := parseInt_or (q_page req) 1 in
  let limit := parseInt_or (q_limit req) 10 in
  let total := Z.of_nat (size (matching (history_filters u.1 req) range (scans w))) in
  let pages := Math_ceil_div total limit in
  0 < limit →
  total ≤ pages * limit < total + limit
  ∧ (pages < page →
     get_history req env w = (Ok (res_json (history_body [] page limit total)), w)).
Proof.
  intros Hu Hc page limit total pages Hlimit. split.
  - subst pages. unfold Math_ceil_div.
    pose proof (Z.div_mod (- total) limit ltac:(lia)).
    pose proof (Z.mod_pos_bound (- total) limit Hlimit). nia.
  - intros Hpast.
    destruct (Math_ceil_div_covers total limit ltac:(lia) Hlimit) as [H0 H1].
    fold pages in H0, H1.
    rewrite (get_history_ok env w req u range Hu Hc); fold page limit; [|nia].
    do 4 f_equal. unfold history_page.
    assert ((limit =? 0) = false) as -> by lia.
    rewrite drop_ge; [apply take_nil|].
    rewrite sort_newest_first_length. fold total. nia.
Qed.

Lemma history_page_past_end_witness :
  let req := Sample.history_request "5" "2" in
  let total := Z.of_nat (size (matching (history_filters Sample.alice.1 req)
                                 (None, None) (scans Sample.world))) in
  let pages := Math_ceil_div total 2 in
  total ≤ pages * 2 < total + 2
  ∧ (pages < 5 →
     get_history req Sample.env0 Sample.world
     = (Ok (res_json (history_body [] 5 2 total)), Sample.world)).
Proof.
  apply (history_page_past_end Sample.env0 Sample.world Sample.alice
           (Sample.history_request "5" "2") (None, None)); reflexivity.
Defined.

(** ** Store invariants *)

(** What [POST /analyze] does to the stores, for every request: nothing;
    or a blob left without a record (a part accepted for a request that
    carries no user); or a record stored with its blob; or the blob
    written and removed again. *)
Lemma post_analyze_stores env w req :
  ∃ r w', post_analyze req env w = (Ok r, w')
    ∧ users w' = users w
    ∧ ((scans w' = scans w ∧ uploads w' = uploads w ∧ status r ≠ 200)
       ∨ (∃ part, an_file req = Some part ∧ an_user req = None
            ∧ status r = 401 ∧ scans w' = scans w
            ∧ uploads w' = <[generated_name env w part := Regular]> (uploads w))
       ∨ (∃ u part s, an_file req = Some part ∧ an_user req = Some u
            ∧ r = analyzed (new_oid env, s)
            ∧ scans w !! new_oid env = None
            ∧ scans w' = <[new_oid env := s]> (scans w)
            ∧ uploads w' = <[generated_name env w part := Regular]> (uploads w)
            ∧ validate s = [] ∧ userId s = (u : UserDoc).1
            ∧ filePath s = generated_name env w part)
       ∨ (∃ part, an_file req = Some part ∧ status r = 500
            ∧ scans w' = scans w
            ∧ uploads w' = delete (generated_name env w part) (uploads w))).
Proof.
  destruct req as [user [part|]].
  - destruct (decide (mimetype part ∈ allowedTypes)) as [Hty|Hty].
    + destruct (decide (size_bytes part < maxFileSize)) as [Hsz|Hsz].
      * destruct user as [u|].
        -- destruct (post_analyze_stored env w u part (λ _, True))
             as (r & w' & E & U & [(a & s & _ & -> & Hn & Hc & Hb & _ & Hv & Ho & Hp & _)
                                  | (msg & -> & Hc & Hb & _)]);
             [intros; apply performFoodAnalysis_total|done..| |].
           ++ eexists _, w'. split; [done|]. split; [done|].
              right; right; left. exists u, part, s. by split_and!.
           ++ eexists _, w'. split; [done|]. split; [done|].
              right; right; right. exists part. by split_and!.
        -- destruct (upload_single_allowed env w part Hty) as (w1 & (U1 & C1 & B1 & _) & E).
           cbn zeta in E.
           assert ((maxFileSize <=? size_bytes part) = false) as Hlt by lia.
           rewrite Hlt in E. unfold post_analyze, middleware. cbn [an_file an_user].
           rewrite E. eexists _, _. split; [reflexivity|]. split; [done|].
           right; left. exists part. cbn. rewrite B1. by split_and!.
      * destruct (post_analyze_oversized env w
                    {| an_user := user; an_file := Some part |} part eq_refl Hty
                    ltac:(lia)) as (w' & E & U & C & B & _).
        eexists _, _. split; [exact E|]. split; [done|].
        right; right; right. exists part. by split_and!.
    + eexists _, _. split; [by apply (post_analyze_bad_type env w _ part)|].
      split; [done|]. left. by split_and!.
  - eexists _, _. split; [reflexivity|]. split; [done|]. left. by split_and!.
Qed.

(** X19. [POST /analyze] keeps the stores consistent, whatever the
    request and the outcome, provided the generated file name is not
    already taken in the uploads directory: afterwards every record
    still has its blob, no two records share a blob, and every record
    still passes the schema validators. *)
Theorem analyze_keeps_stores_consistent (env : Env) (w : World)
    (req : AnalyzeRequest) :
  blobs_present w → blobs_distinct w → records_valid w →
  (∀ part, an_file req = Some part → uploads w !! generated_name env w part = None) →
  let w' := (post_analyze req env w).2 in
  blobs_present w' ∧ blobs_distinct w' ∧ records_valid w'.
Proof.
  intros Hp Hd Hv Hfresh w'.
  destruct (post_analyze_stores env w req) as (r & w0 & E & _ & H).
  subst w'. rewrite E. cbn [snd].
  assert (Hother : ∀ part id s, an_file req = Some part → scans w !! id = Some s →
            filePath s ≠ generated_name env w part).
  { intros part id s Hf Hs Heq. destruct (Hp id s Hs) as [a Ha].
    rewrite Heq, (Hfresh part Hf) in Ha. done. }
  unfold blobs_present, blobs_distinct, records_valid.
  destruct H as [(C & B & _) | [(part & Hf & _ & _ & C & B)
    | [(u & part & s & Hf & _ & _ & Hn & C & B & Hvs & _ & Hfp)
      | (part & Hf & _ & C & B)]]]; rewrite C, B.
  - done.
  - split_and!; [|done..]. intros id s Hs.
    rewrite lookup_insert_ne by (symmetry; by eapply Hother). by eapply Hp.
  - split_and!.
    + intros id t [[<- <-]|[Hne Ht]]%lookup_insert_Some.
      * rewrite Hfp, lookup_insert_eq. by eexists.
      * rewrite lookup_insert_ne by (rewrite <- Hfp; symmetry; rewrite Hfp; by eapply Hother).
        by eapply Hp.
    + intros i j a b [[<- <-]|[Hi Ha]]%lookup_insert_Some
                     [[<- <-]|[Hj Hb]]%lookup_insert_Some Heq; [done| | |by eapply Hd].
      * exfalso. eapply (Hother part j b); [done..|]. by rewrite <- Heq.
      * exfalso. eapply (Hother part i a); [done..|]. by rewrite Heq.
    + intros id t [[<- <-]|[Hne Ht]]%lookup_insert_Some; [done|by eapply Hv].
  - split_and!; [|done..]. intros id s Hs.
    rewrite lookup_delete_ne by (symmetry; by eapply Hother). by eapply Hp.
Qed.

Lemma analyze_keeps_stores_consistent_witness :
  let w' := (post_analyze {| an_user := Some Sample.alice; an_file := Some Sample.jpeg |}
               Sample.env0 Sample.world).2 in
  blobs_present w' ∧ blobs_distinct w' ∧ records_valid w'.
Proof.
  apply (analyze_keeps_stores_consistent Sample.env0 Sample.world
           {| an_user := Some Sample.alice; an_file := Some Sample.jpeg |}).
  - unfold blobs_present. change (map_Forall (λ _ s, is_Some (uploads Sample.world !! filePath s))
                                    (scans Sample.world)).
    apply (bool_decide_unpack _). vm_compute. exact I.
  - intros i j s t Hs Ht Heq.
    revert i s Hs j t Ht Heq.
    change (map_Forall (λ i s, map_Forall (λ j t, filePath s = filePath t → i = j)
                                 (scans Sample.world)) (scans Sample.world)).
    apply (bool_decide_unpack _). vm_compute. exact I.
  - unfold records_valid. change (map_Forall (λ _ s, validate s = []) (scans Sample.world)).
    apply (bool_decide_unpack _). vm_compute. exact I.
  - intros part [= <-]. vm_compute. reflexivity.
Defined.

(** X20. [DELETE /:scanId] never makes two records share a blob and
    never leaves an invalid record, whatever the request and the
    outcome. It also keeps every record's blob in place, whenever the
    answer is not 500 or, more precisely, unless the database refuses
    the delete of the record after its blob has been removed. *)
Theorem delete_keeps_stores_consistent (cast : string → option ObjectId)
    (env : Env) (w : World) (req : ScanIdRequest) :
  blobs_present w → blobs_distinct w → records_valid w →
  let out := delete_scan cast req env w in
  blobs_distinct out.2 ∧ records_valid out.2
  ∧ ((∀ r, out.1 = Ok r → status r ≠ 500) → blobs_present out.2)
  ∧ ((∀ id, cast (s_scanId req) = Some id → db_rejects env (EScanDelete id) = false) →
     blobs_present out.2).
Proof.
  intros Hp Hd Hv out. subst out.
  destruct (delete_scan_stores cast env w req) as (_ & [(C & B & _)
    | (u & id & s & _ & Hc & Hs & _ & B & Hcase)]).
  { unfold blobs_present, blobs_distinct, records_valid. rewrite C, B. by split_and!. }
  assert (Hkeep : scans (delete_scan cast req env w).2 = delete id (scans w) →
                  blobs_present (delete_scan cast req env w).2).
  { intros C. unfold blobs_present. rewrite C, B.
    intros i t [Hne Ht]%lookup_delete_Some.
    rewrite lookup_delete_ne; [by eapply Hp|].
    intros Heq. apply Hne. by eapply Hd. }
  destruct Hcase as [(E & Hdb & C) | (E & Hdb & C)].
  - split_and!; [| |intros _; by apply Hkeep..];
      unfold blobs_distinct, records_valid; rewrite C.
    + intros i j a b [_ Ha]%lookup_delete_Some [_ Hb]%lookup_delete_Some.
      by eapply Hd.
    + intros i t [_ Ht]%lookup_delete_Some. by eapply Hv.
  - split_and!.
    + unfold blobs_distinct. by rewrite C.
    + unfold records_valid. by rewrite C.
    + intros Hno. by destruct (Hno delete_failed E).
    + intros Hok. rewrite (Hok id Hc) in Hdb. done.
Qed.

Lemma delete_keeps_stores_consistent_witness :
  let w' := (delete_scan Sample.castObjectId
               {| s_user := Some Sample.alice; s_scanId := Sample.seg10 |}
               Sample.env0 Sample.world).2 in
  blobs_distinct w' ∧ records_valid w' ∧ blobs_present w'.
Proof.
  destruct (delete_keeps_stores_consistent Sample.castObjectId Sample.env0 Sample.world
              {| s_user := Some Sample.alice; s_scanId := Sample.seg10 |})
    as (Hd & Hv & _ & Hp).
  - unfold blobs_present. change (map_Forall (λ _ s, is_Some (uploads Sample.world !! filePath s))
                                    (scans Sample.world)).
    apply (bool_decide_unpack _). vm_compute. exact I.
  - intros i j s t Hs Ht Heq.
    revert i s Hs j t Ht Heq.
    change (map_Forall (λ i s, map_Forall (λ j t, filePath s = filePath t → i = j)
                                 (scans Sample.world)) (scans Sample.world)).
    apply (bool_decide_unpack _). vm_compute. exact I.
  - unfold records_valid. change (map_Forall (λ _ s, validate s = []) (scans Sample.world)).
    apply (bool_decide_unpack _). vm_compute. exact I.
  - split; [exact Hd|]. split; [exact Hv|]. apply Hp. intros id _. reflexivity.
Defined.

(** X29. When the database refuses the delete of a record whose blob is
    in place, [DELETE /:scanId] answers 500 after the blob has been
    removed: the record is still in the collection, its blob is gone,
    and the unlink is the only mutation. *)
Theorem rejected_delete_orphans_record (cast : string → option ObjectId)
    (env : Env) (w : World) (u : UserDoc) (seg : string) (id : ObjectId) (s : Scan) :
  cast seg = Some id → scans w !! id = Some s → userId s = u.1 →
  uploads w !! filePath s = Some Regular →
  db_rejects env (EScanDelete id) = true →
  let out := delete_scan cast {| s_user := Some u; s_scanId := seg |} env w in
  out.1 = Ok delete_failed
  ∧ scans out.2 = scans w
  ∧ blob_exists out.2 (filePath s) = false
  ∧ ¬ blobs_present out.2
  ∧ trace out.2 = (trace w ++ [EUnlink (filePath s)])%list.
Proof.
  intros Hc Hs Ho Hb Hdb out. subst out.
  rewrite (delete_scan_owned cast env w u seg id s Hc Hs Ho), Hb. cbn zeta.
  rewrite Hdb. cbn.
  assert (Hgone : blob_exists
            (log (EUnlink (filePath s)) (set_uploads (delete (filePath s)) w))
            (filePath s) = false).
  { unfold blob_exists. cbn. rewrite lookup_delete_eq.
    apply bool_decide_eq_false_2. by intros [? ?]. }
  split_and!; try done.
  intros Hp. destruct (Hp id s) as [a Ha]; [done|].
  cbn in Ha. by rewrite lookup_delete_eq in Ha.
Qed.

Lemma rejected_delete_orphans_record_witness :
  let env := {| random := random Sample.env0; now := now Sample.env0;
                new_oid := new_oid Sample.env0;
                natural_rank := natural_rank Sample.env0;
                db_rejects := fun _ => true |} in
  let out := delete_scan Sample.castObjectId
               {| s_user := Some Sample.alice; s_scanId := Sample.seg10 |}
               env Sample.world in
  out.1 = Ok delete_failed
  ∧ scans out.2 = scans Sample.world
  ∧ blob_exists out.2 (filePath Sample.apple) = false.
Proof.
  destruct (rejected_delete_orphans_record Sample.castObjectId
              {| random := random Sample.env0; now := now Sample.env0;
                 new_oid := new_oid Sample.env0;
                 natural_rank := natural_rank Sample.env0;
                 db_rejects := fun _ => true |}
              Sample.world Sample.alice Sample.seg10 10%N Sample.apple
              eq_refl eq_refl eq_refl eq_refl eq_refl)
    as (E & C & B & _).
  exact (conj E (conj C B)).
Defined.

(** X21. [DELETE /:scanId] touches nothing but its target: whatever the
    request and the outcome, the accounts are unchanged, every record
    under another id is unchanged, and every blob other than the one of
    the record under the requested id is unchanged. *)
Theorem delete_touches_only_target (cast : string → option ObjectId)
    (env : Env) (w : World) (req : ScanIdRequest) :
  let w' := (delete_scan cast req env w).2 in
  users w' = users w
  ∧ (∀ id, cast (s_scanId req) ≠ Some id → scans w' !! id = scans w !! id)
  ∧ (∀ name, (∀ id s, cast (s_scanId req) = Some id → scans w !! id = Some s →
                      filePath s ≠ name) →
             uploads w' !! name = uploads w !! name).
Proof.
  intros w'. subst w'.
  destruct (delete_scan_stores cast env w req) as (U & [(C & B & _)
    | (u & id & s & _ & Hc & Hs & _ & B & [(_ & _ & C) | (_ & _ & C)])]);
    rewrite C, B; [done| |].
  - split_and!; [done| |].
    + intros i Hne. rewrite lookup_delete_ne; [done|]. intros <-. by apply Hne.
    + intros name Hname. rewrite lookup_delete_ne; [done|]. by eapply Hname.
  - split_and!; [done|done|].
    intros name Hname. rewrite lookup_delete_ne; [done|]. by eapply Hname.
Qed.

(** ** Round trip *)

Lemma get_scan_run cast env w (u : UserDoc) seg id s :
  cast seg = Some id → scans w !! id = Some s → userId s = u.1 →
  get_scan cast {| s_user := Some u; s_scanId := seg |} env w
  = (Ok (res_json (JObj [("success", JBool true); ("data", scan_view (id, s))])), w).
Proof.
  intros Hc Hs Ho. unfold get_scan, try_catch. cbn [s_user s_scanId].
  unfold bind at 1. by rewrite (Scan_findOne_owned cast env w u.1 seg id s Hc Hs Ho).
Qed.

(** X22. A record created by [POST /analyze] can be fetched back: after
    a 200 answer the caller's [GET /:scanId] on the new id answers 200
    with the view of the stored record and leaves the state as it is,
    the record's blob is in the uploads directory, and any other
    account's [GET /:scanId] on that id answers 404 "Scan not found". *)
Theorem analyze_then_get (cast : string → option ObjectId) (env env' : Env)
    (w w' : World) (req : AnalyzeRequest) (r : Response) (seg : string) :
  post_analyze req env w = (Ok r, w') → status r = 200 →
  cast seg = Some (new_oid env) →
  ∃ u s,
    an_user req = Some u
    ∧ scans w' !! new_oid env = Some s
    ∧ is_Some (uploads w' !! filePath s)
    ∧ get_scan cast {| s_user := Some u; s_scanId := seg |} env' w'
      = (Ok (res_json (JObj [("success", JBool true);
                             ("data", scan_view (new_oid env, s))])), w')
    ∧ ∀ v : UserDoc, v.1 ≠ u.1 →
        get_scan cast {| s_user := Some v; s_scanId := seg |} env' w'
        = (Ok not_found, w').
Proof.
  intros E Hst Hcast.
  destruct (post_analyze_stores env w req) as (r0 & w0 & E0 & _ & H).
  rewrite E in E0. injection E0 as <- <-.
  destruct H as [(_ & _ & Hn) | [(part & _ & _ & H401 & _)
    | [(u & part & s & Hf & Hu & -> & Hn & C & B & Hvs & Ho & Hfp)
      | (part & _ & H500 & _)]]]; [done|lia| |lia].
  assert (Hs : scans w' !! new_oid env = Some s) by (by rewrite C, lookup_insert_eq).
  exists u, s. split_and!; [done|done| | |].
  - rewrite B, Hfp, lookup_insert_eq. by eexists.
  - by apply (get_scan_run cast env' w' u seg (new_oid env)).
  - intros v Hv. apply (get_scan_out_of_reach cast env' w' v seg (new_oid env) Hcast).
    right. exists s. split; [done|]. by rewrite Ho.
Qed.

Lemma analyze_then_get_witness :
  ∃ u s,
    scans (post_analyze {| an_user := Some Sample.alice; an_file := Some Sample.jpeg |}
             Sample.env0 Sample.world).2 !! 30%N = Some s
    ∧ (get_scan Sample.castObjectId {| s_user := Some u; s_scanId := Sample.seg30 |}
         Sample.env_up
         (post_analyze {| an_user := Some Sample.alice; an_file := Some Sample.jpeg |}
            Sample.env0 Sample.world).2).1
      = Ok (res_json (JObj [("success", JBool true); ("data", scan_view (30%N, s))])).
Proof.
  pose (out := post_analyze {| an_user := Some Sample.alice; an_file := Some Sample.jpeg |}
                 Sample.env0 Sample.world).
  assert (E : ∃ r, post_analyze {| an_user := Some Sample.alice;
                                   an_file := Some Sample.jpeg |}
                     Sample.env0 Sample.world = (Ok r, out.2) ∧ status r = 200)
    by (vm_compute; eexists; split; reflexivity).
  destruct E as (r & E & Hst).
  destruct (analyze_then_get Sample.castObjectId Sample.env0 Sample.env_up Sample.world
              out.2 _ r Sample.seg30 E Hst eq_refl)
    as (u & s & _ & Hs & _ & Hg & _).
  change (new_oid Sample.env0) with 30%N in Hs, Hg.
  exists u, s. fold out. split; [exact Hs|]. by rewrite Hg.
Defined.

(** ** More on account deletion *)

(** X23. The outcomes of [DELETE /account], which never touches the
    uploads directory. An answer with status 400, 401 or 404 leaves the
    whole state as it was. A 200 answer is given only when the request
    carries a non-empty password that the stored account accepts and
    the database carries out both deletes; then exactly the caller's
    account and the caller's records are removed. The two deletes are
    not atomic: a 500 answer either leaves the state as it was (the
    delete of the records was refused) or has removed the caller's
    records while the account is kept (the delete of the account was
    refused). *)
Theorem account_deletion_outcomes (compare : User → string → bool)
    (env : Env) (w w' : World) (req : AccountRequest) (r : Response) :
  delete_account compare req env w = (Ok r, w') →
  uploads w' = uploads w
  ∧ (status r ≠ 200 → status r ≠ 500 → w' = w)
  ∧ (status r = 200 →
     ∃ (u : UserDoc) stored pw,
       ac_user req = Some u ∧ ac_password req = Some pw ∧ pw ≠ ""
       ∧ users w !! u.1 = Some stored ∧ compare stored pw = true
       ∧ (∀ id, users w' !! id = if decide (id = u.1) then None else users w !! id)
       ∧ (∀ id, scans w' !! id
                = s ← scans w !! id; if decide (userId s = u.1) then None else Some s))
  ∧ (status r = 500 →
     ∃ u : UserDoc,
       ac_user req = Some u ∧ users w' = users w
       ∧ ((db_rejects env (EScanDeleteMany u.1) = true ∧ w' = w)
          ∨ (db_rejects env (EUserDelete u.1) = true
             ∧ scans w' = filter (λ kv : ObjectId * Scan, userId kv.2 ≠ u.1) (scans w)
             ∧ trace w' = (trace w ++ [EScanDeleteMany u.1])%list))).
Proof.
  intros E.
  destruct (delete_account_stores compare env w req) as (r0 & w0 & E0 & H).
  rewrite E in E0. injection E0 as <- <-.
  destruct H as [[Hst [-> H500]]
    | (u & stored & pw & Hu & Hpw & Hne & Hs & Hok & Hmany & C & B
       & [(-> & Hone & U & T) | (Hst & Hone & U & T)])].
  - split_and!; [done|done|intros ?; done|].
    intros H5. destruct (H500 H5) as (u & Hu & Hdb). exists u. split_and!; [done..|].
    by left.
  - split_and!; [done|intros Hst; by destruct Hst| |intros Hst; by cbn in Hst].
    intros _. exists u, stored, pw. split_and!; try done.
    + intros id. rewrite U. destruct (decide (id = u.1)) as [->|Hid].
      * apply lookup_delete_eq.
      * by apply lookup_delete_ne.
    + intros id. rewrite C. destruct (scans w !! id) as [s|] eqn:Hid; cbn.
      * destruct (decide (userId s = u.1)) as [Ho|Ho].
        -- apply map_lookup_filter_None. right. intros s' Hs'. cbn.
           rewrite Hid in Hs'. injection Hs' as <-. by intros ?.
        -- by apply map_lookup_filter_Some.
      * apply map_lookup_filter_None. by left.
  - split_and!; [done|intros _ H5; by destruct H5|intros H2; lia|].
    intros _. exists u. split_and!; [done..|]. right. by split_and!.
Qed.

Lemma account_deletion_outcomes_witness :
  ∃ w', delete_account Sample.comparePassword
          {| ac_user := Some Sample.alice; ac_password := Some "wrong" |}
          Sample.env0 Sample.world = (Ok (res_status_json 401 (failure "Invalid password")), w')
        ∧ w' = Sample.world.
Proof.
  exists Sample.world.
  assert (E : delete_account Sample.comparePassword
                {| ac_user := Some Sample.alice; ac_password := Some "wrong" |}
                Sample.env0 Sample.world
              = (Ok (res_status_json 401 (failure "Invalid password")), Sample.world))
    by (vm_compute; reflexivity).
  split; [exact E|].
  apply (account_deletion_outcomes Sample.comparePassword Sample.env0
           Sample.world Sample.world _ _ E); cbn; lia.
Defined.

(** X30. When the database carries out the delete of the caller's
    records and then refuses the delete of the account, [DELETE
    /account] answers 500 with the records gone and the account still
    in place. *)
Theorem rejected_account_delete_keeps_account (compare : User → string → bool)
    (env : Env) (w : World) (u : UserDoc) (stored : User) (pw : string) :
  users w !! u.1 = Some stored → pw ≠ "" → compare stored pw = true →
  db_rejects env (EScanDeleteMany u.1) = false →
  db_rejects env (EUserDelete u.1) = true →
  let out := delete_account compare {| ac_user := Some u; ac_password := Some pw |} env w in
  (status <$> responds out) = Some 500
  ∧ users out.2 = users w
  ∧ (∀ id s, scans out.2 !! id = Some s → userId s ≠ u.1)
  ∧ trace out.2 = (trace w ++ [EScanDeleteMany u.1])%list.
Proof.
  intros Hu Hpw Hok Hmany Hone out. subst out.
  unfold delete_account, responds. unfold_monad. cbn.
  assert (String.eqb pw "" = false) as -> by by apply String.eqb_neq.
  cbn. unfold User_findById, Scan_deleteMany, User_findByIdAndDelete, db_write.
  unfold_monad.
  cbn. rewrite Hu. cbn. rewrite Hok. cbn. rewrite Hmany. cbn. rewrite Hone. cbn.
  split_and!; try done.
  intros id s. by intros [_ ?]%map_lookup_filter_Some.
Qed.

Lemma rejected_account_delete_keeps_account_witness :
  let env := {| random := random Sample.env0; now := now Sample.env0;
                new_oid := new_oid Sample.env0;
                natural_rank := natural_rank Sample.env0;
                db_rejects := fun e => match e with EUserDelete _ => true | _ => false end |} in
  let out := delete_account Sample.comparePassword
               {| ac_user := Some Sample.alice; ac_password := Some "secret123456" |}
               env Sample.world in
  (status <$> responds out) = Some 500
  ∧ users out.2 = users Sample.world.
Proof.
  destruct (rejected_account_delete_keeps_account Sample.comparePassword
              {| random := random Sample.env0; now := now Sample.env0;
                 new_oid := new_oid Sample.env0;
                 natural_rank := natural_rank Sample.env0;
                 db_rejects := fun e => match e with EUserDelete _ => true | _ => false end |}
              Sample.world Sample.alice Sample.alice.2 "secret123456"
              eq_refl ltac:(discriminate) eq_refl eq_refl eq_refl)
    as (E & U & _).
  exact (conj E U).
Defined.

(** X24. [DELETE /account] keeps the record store consistent: whatever
    the request and the outcome, every record left still has its blob,
    no two records share a blob and every record passes the validators,
    when that held before. (The blobs of the removed records stay
    behind: the uploads directory is not touched.) *)
Theorem account_deletion_keeps_stores_consistent (compare : User → string → bool)
    (env : Env) (w : World) (req : AccountRequest) :
  blobs_present w → blobs_distinct w → records_valid w →
  let w' := (delete_account compare req env w).2 in
  blobs_present w' ∧ blobs_distinct w' ∧ records_valid w'
  ∧ ∀ id s, scans w !! id = Some s → is_Some (uploads w' !! filePath s).
Proof.
  intros Hp Hd Hv w'. subst w'.
  destruct (delete_account_stores compare env w req) as (r & w' & E & H).
  rewrite E. cbn [snd].
  destruct H as [(_ & -> & _) | (u & stored & pw & _ & _ & _ & _ & _ & _ & C & B & _)];
    [by split_and!|].
  unfold blobs_present, blobs_distinct, records_valid. rewrite C, B.
  split_and!.
  - intros id s [Hs _]%map_lookup_filter_Some. by eapply Hp.
  - intros i j a b [Ha _]%map_lookup_filter_Some [Hb _]%map_lookup_filter_Some.
    by eapply Hd.
  - intros id s [Hs _]%map_lookup_filter_Some. by eapply Hv.
  - done.
Qed.

Lemma account_deletion_keeps_stores_consistent_witness :
  let w' := (delete_account Sample.comparePassword
               {| ac_user := Some Sample.alice; ac_password := Some "secret123456" |}
               Sample.env0 Sample.world).2 in
  blobs_present w' ∧ blobs_distinct w' ∧ records_valid w'
  ∧ ∀ id s, scans Sample.world !! id = Some s → is_Some (uploads w' !! filePath s).
Proof.
  apply (account_deletion_keeps_stores_consistent Sample.comparePassword Sample.env0
           Sample.world
           {| ac_user := Some Sample.alice; ac_password := Some "secret123456" |}).
  - unfold blobs_present. change (map_Forall (λ _ s, is_Some (uploads Sample.world !! filePath s))
                                    (scans Sample.world)).
    apply (bool_decide_unpack _). vm_compute. exact I.
  - intros i j s t Hs Ht Heq.
    revert i s Hs j t Ht Heq.
    change (map_Forall (λ i s, map_Forall (λ j t, filePath s = filePath t → i = j)
                                 (scans Sample.world)) (scans Sample.world)).
    apply (bool_decide_unpack _). vm_compute. exact I.
  - unfold records_valid. change (map_Forall (λ _ s, validate s = []) (scans Sample.world)).
    apply (bool_decide_unpack _). vm_compute. exact I.
Defined.

(** ** The names of stored blobs *)

Lemma has_slash_app a b : has_slash (a +:+ b) = has_slash a || has_slash b.
Proof.
  unfold has_slash. induction a as [|c a IH]; [done|].
  change (String c a +:+ b) with (String c (a +:+ b)).
  cbn [list_ascii_of_string existsb]. by rewrite IH, orb_assoc.
Qed.

Lemma pretty_N_char_no_slash x : Ascii.eqb (pretty_N_char x) "/" = false.
Proof. unfold pretty_N_char. by repeat case_match. Qed.

Lemma has_slash_pretty_N_go x s : has_slash (pretty_N_go x s) = has_slash s.
Proof.
  revert s. induction (N.lt_wf_0 x) as [x _ IH]; intros s.
  assert (x = 0 ∨ 0 < x)%N as [->|?] by lia.
  - by rewrite pretty_N_go_0.
  - rewrite pretty_N_go_step by done. rewrite IH by (by apply N.div_lt).
    unfold has_slash. cbn. by rewrite pretty_N_char_no_slash.
Qed.

Lemma has_slash_pretty_N (x : N) : has_slash (pretty x) = false.
Proof.
  unfold pretty, pretty_N. case_decide; [done|]. by rewrite has_slash_pretty_N_go.
Qed.

Lemma has_slash_pretty_Z (x : Z) : has_slash (pretty x) = false.
Proof.
  destruct x as [|p|p]; [done| |].
  - apply (has_slash_pretty_N (N.pos p)).
  - change (pretty (Z.neg p)) with ("-" +:+ pretty (N.pos p)).
    rewrite has_slash_app. by rewrite has_slash_pretty_N.
Qed.

Lemma basename_go_cons acc c rest :
  basename_go acc (String c rest)
  = if Ascii.eqb c "/" then basename_go rest rest else basename_go acc rest.
Proof. by destruct c as [[] [] [] [] [] [] [] []]. Qed.

Lemma last_dot_suffix_cons cur c rest :
  last_dot_suffix cur (String c rest)
  = if Ascii.eqb c "." then last_dot_suffix (Some (String c rest)) rest
    else last_dot_suffix cur rest.
Proof. by destruct c as [[] [] [] [] [] [] [] []]. Qed.

Lemma has_slash_cons c s : has_slash (String c s) = Ascii.eqb c "/" || has_slash s.
Proof. done. Qed.

Lemma basename_go_no_slash pre s :
  has_slash pre = false → has_slash (basename_go (pre +:+ s) s) = false.
Proof.
  revert pre. induction s as [|c s IH]; intros pre Hpre.
  - change (basename_go (pre +:+ "") "") with (pre +:+ "").
    rewrite has_slash_app, Hpre. done.
  - rewrite basename_go_cons. destruct (Ascii.eqb c "/") eqn:Hc.
    + apply (IH ""). done.
    + replace (pre +:+ String c s) with ((pre +:+ String c "") +:+ s).
      * apply IH. rewrite has_slash_app, Hpre, has_slash_cons, Hc. done.
      * clear. induction pre as [|a pre IH]; [done|].
        change (String a pre +:+ String c s) with (String a (pre +:+ String c s)).
        rewrite <- IH. done.
Qed.

Lemma last_dot_suffix_no_slash cur s :
  has_slash (default "" cur) = false → has_slash s = false →
  has_slash (default "" (last_dot_suffix cur s)) = false.
Proof.
  revert cur. induction s as [|c s IH]; intros cur Hcur Hs; [done|].
  rewrite last_dot_suffix_cons. rewrite has_slash_cons in Hs.
  apply orb_false_iff in Hs as [Hc Hs].
  destruct (Ascii.eqb c "."); apply IH; try done.
  cbn [default from_option Datatypes.id]. unfold default, from_option, id.
  by rewrite has_slash_cons, Hc, Hs.
Qed.

Lemma extname_no_slash p : has_slash (extname p) = false.
Proof.
  unfold extname, basename. cbn zeta.
  set (q := drop_trailing_slashes p).
  pose proof (basename_go_no_slash "" q eq_refl) as H.
  change ("" +:+ q) with q in H.
  pose proof (last_dot_suffix_no_slash None (basename_go q q) eq_refl H) as Hext.
  destruct (last_dot_suffix None (basename_go q q)) as [ext|]; [|done].
  by destruct (_ || _).
Qed.

Lemma generated_name_shape env w part :
  generated_name env w part
  = "scan-" +:+ (pretty (now env (clk w)) +:+ "-"
                 +:+ pretty (Math_round (random env (rng w) * inject_Z 1000000000)))
    +:+ extname (originalname part).
Proof. reflexivity. Qed.

Lemma generated_name_no_slash env w part :
  has_slash (generated_name env w part) = false.
Proof.
  rewrite generated_name_shape.
  rewrite !has_slash_app, !has_slash_pretty_Z, extname_no_slash. done.
Qed.

(** X25. The blobs that [POST /analyze] creates or removes stay in the
    uploads directory: whatever name the client gave the part, clock
    reading and random draw, every name whose entry in the uploads
    directory differs after the request contains no path separator,
    and so does the [filePath] of the record stored. *)
Theorem analyze_blob_names_flat (env : Env) (w w' : World) (req : AnalyzeRequest)
    (r : Response) :
  post_analyze req env w = (Ok r, w') →
  (∀ name, uploads w' !! name ≠ uploads w !! name → has_slash name = false)
  ∧ (∀ id s, scans w' !! id = Some s → scans w !! id ≠ Some s →
             has_slash (filePath s) = false).
Proof.
  intros E.
  destruct (post_analyze_stores env w req) as (r0 & w0 & E0 & _ & H).
  rewrite E in E0. injection E0 as <- <-.
  destruct H as [(C & B & _) | [(part & _ & _ & _ & C & B)
    | [(u & part & s & _ & _ & _ & _ & C & B & _ & _ & Hfp)
      | (part & _ & _ & C & B)]]]; rewrite C, B.
  - split; [intros name Hne; by destruct Hne|]. intros id s Hs Hne. by destruct Hne.
  - split; [|intros id s Hs Hne; by destruct Hne].
    intros name Hne. destruct (decide (generated_name env w part = name)) as [<-|Hn].
    + apply generated_name_no_slash.
    + by rewrite lookup_insert_ne in Hne.
  - split.
    + intros name Hne. destruct (decide (generated_name env w part = name)) as [<-|Hn].
      * apply generated_name_no_slash.
      * by rewrite lookup_insert_ne in Hne.
    + intros id t [[<- <-]|[_ Ht]]%lookup_insert_Some Hne; [|done].
      rewrite Hfp. apply generated_name_no_slash.
  - split; [|intros id s Hs Hne; by destruct Hne].
    intros name Hne. destruct (decide (generated_name env w part = name)) as [<-|Hn].
    + apply generated_name_no_slash.
    + by rewrite lookup_delete_ne in Hne.
Qed.

Lemma analyze_blob_names_flat_witness :
  ∃ s, scans (post_analyze
                {| an_user := Some Sample.alice;
                   an_file := Some {| originalname := "../../etc/cron.d/x.png";
                                      mimetype := "image/png"; size_bytes := 10 |} |}
                Sample.env0 Sample.empty).2 !! 30%N = Some s
       ∧ has_slash (filePath s) = false.
Proof.
  pose (req := {| an_user := Some Sample.alice;
                  an_file := Some {| originalname := "../../etc/cron.d/x.png";
                                     mimetype := "image/png"; size_bytes := 10 |} |}).
  pose (out := post_analyze req Sample.env0 Sample.empty).
  assert (E : ∃ r s, post_analyze req Sample.env0 Sample.empty = (Ok r, out.2)
                     ∧ scans out.2 !! 30%N = Some s)
    by (vm_compute; eexists _, _; split; reflexivity).
  destruct E as (r & s & E & Hs).
  exists s. split; [exact Hs|].
  apply (analyze_blob_names_flat Sample.env0 Sample.empty out.2 req r E) with 30%N;
    [exact Hs|].
  vm_compute. discriminate.
Defined.

(** ** A well-formed upload is stored *)

(** The processing time is the difference of the two clock readings
    around the simulated delay. *)
Lemma performFoodAnalysis_time env path fileType w :
  ∃ a w', performFoodAnalysis path fileType env w = (Ok a, w')
    ∧ processingTime (a_analysisMetadata a) = now env (S (clk w)) - now env (clk w).
Proof.
  unfold performFoodAnalysis.
  unfold bind at 1. unfold Date_now at 1.
  unfold bind at 1. unfold Math_random at 1.
  unfold bind at 1. unfold Date_now at 1. cbn [clk].
  set (c := now env (S (clk w)) - now env (clk w)).
  match goal with |- ∃ a w', ?k env ?w0 = _ ∧ _ =>
    assert (H : yields env k (λ a, processingTime (a_analysisMetadata a) = c));
    [|destruct (H w0) as (a & w' & E & _ & Pa); by exists a, w'] end.
  assert (HD : yields env Math_random (λ _, True))
    by (by apply (yields_Math_random env (λ _, True))).
  eapply yields_bind; [apply HD|]; intros r1 _.
  eapply yields_bind; [apply HD|]; intros r2 _.
  eapply yields_bind; [apply HD|]; intros r3 _.
  eapply yields_bind; [apply (yields_sort_random env)|]; intros l _.
  eapply yields_bind; [apply HD|]; intros r4 _.
  eapply (yields_bind env _ _ (λ _ : list string, True)).
  { destruct (Qle_bool r4 (7 # 10)); [by apply yields_ret|].
    eapply yields_bind; [apply HD|]; intros r5 _. by apply yields_ret. }
  intros ws _.
  eapply yields_bind; [apply HD|]; intros r6 _.
  by apply yields_ret.
Qed.


Lemma performFoodAnalysis_valid env path fileType :
  fair env → steady_clock env →
  yields env (performFoodAnalysis path fileType)
    (λ a, analysis_post a ∧ 0 ≤ processingTime (a_analysisMetadata a)).
Proof.
  intros Hfair Hclock w.
  destruct (performFoodAnalysis_post env path fileType Hfair w) as (a & w' & E & S & Pa).
  destruct (performFoodAnalysis_time env path fileType w) as (a' & w'' & E' & Ht).
  rewrite E in E'. injection E' as <- <-.
  exists a, w'. split_and!; try done. rewrite Ht. specialize (Hclock (clk w)). lia.
Qed.

Lemma new_Scan_run env owner originalname mimetype filename size a w :
  ∃ w1, new_Scan owner originalname mimetype filename size a env w
        = (Ok (new_oid env,
               {| userId := owner; fileName := trim originalname;
                  fileType := mimetype; filePath := filename; fileSize := size;
                  analysisDate := now env (clk w);
                  qualityScore := a_qualityScore a; freshness := a_freshness a;
                  nutritionalValue := a_nutritionalValue a;
                  recommendations := trim <$> a_recommendations a;
                  warnings := trim <$> a_warnings a;
                  analysisMetadata := a_analysisMetadata a;
                  createdAt := 0; updatedAt := 0 |}), w1)
        ∧ same_stores w w1.
Proof.
  unfold new_Scan, asks, Date_now. unfold_monad. cbn.
  eexists. split; [reflexivity|]. by repeat split.
Qed.

Lemma Scan_save_ok env w (d : ObjectId * Scan) :
  validate d.2 = [] → scans w !! d.1 = None →
  db_rejects env (EScanSave d.1) = false →
  ∃ t w1, Scan_save d env w
          = (Ok (d.1, stamp t d.2),
             log (EScanSave d.1) (set_scans (<[d.1 := stamp t d.2]>) w1))
          ∧ same_stores w w1.
Proof.
  intros Hv Hn Hdb.
  destruct (Scan_save_run env w d) as [(_ & _ & _ & H) | ([H | [H | H]] & _)];
    [done|congruence..].
Qed.

(** The record built from a part that passed the upload middleware and
    from a result of the placeholder analysis passes every validator of
    the schema, provided the name of the part is not blank. *)
Lemma validate_new_record owner originalname mimetype filename size date a :
  trim originalname ≠ "" → mimetype ∈ allowedTypes → filename ≠ "" →
  size ≤ maxFileSize → analysis_post a → 0 ≤ processingTime (a_analysisMetadata a) →
  validate {| userId := owner; fileName := trim originalname;
              fileType := mimetype; filePath := filename; fileSize := size;
              analysisDate := date;
              qualityScore := a_qualityScore a; freshness := a_freshness a;
              nutritionalValue := a_nutritionalValue a;
              recommendations := trim <$> a_recommendations a;
              warnings := trim <$> a_warnings a;
              analysisMetadata := a_analysisMetadata a;
              createdAt := 0; updatedAt := 0 |} = [].
Proof.
  intros Hname Hty Hpath Hsz (Hq & Hf & Hn & _ & _ & Hlo & Hhi) Ht.
  unfold validate.
  cbn [fileName fileType filePath fileSize qualityScore freshness nutritionalValue
       analysisMetadata].
  apply String.eqb_neq in Hname, Hpath. rewrite Hname, Hpath.
  rewrite !bool_decide_eq_true_2 by done.
  assert ((size <=? maxFileSize) = true) as -> by lia.
  assert ((0 <=? a_qualityScore a) = true) as -> by lia.
  assert ((a_qualityScore a <=? 100) = true) as -> by lia.
  assert ((0 <=? processingTime (a_analysisMetadata a)) = true) as -> by lia.
  assert (Qle_bool 0 (confidence (a_analysisMetadata a)) = true) as ->.
  { apply Qle_bool_iff. eapply Qle_trans; [|exact Hlo]. done. }
  assert (Qle_bool (confidence (a_analysisMetadata a)) 1 = true) as ->.
  { apply Qle_bool_iff. by apply Qlt_le_weak. }
  reflexivity.
Qed.

(** X26. A well-formed upload is always stored: when the random draws
    lie in [0, 1), the clock does not run backwards, the caller is
    authenticated, the part has an allowed type, is smaller than the
    size limit and has an [originalname] that is not blank, the fresh id
    is not taken and the database carries out the insert, [POST
    /analyze] answers 200 with the new record, which is stored together
    with its blob. The result of the placeholder analysis always passes
    the schema validators, so the cleanup branch is not entered. *)
Theorem wellformed_upload_stored (env : Env) (w : World) (u : UserDoc)
    (part : FilePart) :
  fair env → steady_clock env →
  mimetype part ∈ allowedTypes → size_bytes part < maxFileSize →
  trim (originalname part) ≠ "" →
  scans w !! new_oid env = None →
  db_rejects env (EScanSave (new_oid env)) = false →
  ∃ s w', post_analyze {| an_user := Some u; an_file := Some part |} env w
          = (Ok (analyzed (new_oid env, s)), w')
    ∧ scans w' = <[new_oid env := s]> (scans w)
    ∧ uploads w' = <[generated_name env w part := Regular]> (uploads w)
    ∧ users w' = users w
    ∧ userId s = u.1 ∧ filePath s = generated_name env w part
    ∧ fileName s = trim (originalname part) ∧ fileType s = mimetype part
    ∧ fileSize s = size_bytes part.
Proof.
  intros Hfair Hclock Hty Hsz Hname Hfresh Hdb.
  set (name := generated_name env w part).
  destruct (upload_single_allowed env w part Hty) as (w1 & (U1 & C1 & B1 & T1) & E1).
  cbn zeta in E1.
  assert ((maxFileSize <=? size_bytes part) = false) as Hlt by lia.
  rewrite Hlt in E1. fold name in E1.
  unfold post_analyze, middleware. cbn [an_file an_user]. rewrite E1.
  set (w2 := log (EWriteFile name) (set_uploads (<[name:=Regular]>) w1)).
  assert (U2 : users w2 = users w) by done.
  assert (C2 : scans w2 = scans w) by done.
  assert (B2 : uploads w2 = <[name:=Regular]> (uploads w)) by (cbn; by rewrite B1).
  clearbody w2.
  unfold analyze_handler, try_catch. cbn [mf_filename mf_mimetype mf_originalname mf_size].
  destruct (performFoodAnalysis_valid env name (mimetype part) Hfair Hclock w2)
    as (a & w3 & E3 & (U3 & C3 & B3 & T3) & Pa & Ht).
  destruct (new_Scan_run env u.1 (originalname part) (mimetype part) name
              (size_bytes part) a w3) as (w4 & E4 & (U4 & C4 & B4 & T4)).
  unfold bind at 1. rewrite E3. unfold bind at 1. rewrite E4. unfold bind at 1.
  match type of E4 with _ = (Ok ?d0, _) => set (d := d0) in * end.
  assert (Hv : validate d.2 = []).
  { apply validate_new_record; try done. lia. }
  destruct (Scan_save_ok env w4 d Hv) as (t & w5 & E5 & (U5 & C5 & B5 & T5)).
  { cbn [fst d]. by rewrite C4, C3, C2. }
  { exact Hdb. }
  rewrite E5. unfold ret.
  exists (stamp t d.2), (log (EScanSave d.1) (set_scans (<[d.1 := stamp t d.2]>) w5)).
  split; [reflexivity|]. cbn.
  rewrite C5, C4, C3, C2, B5, B4, B3, B2, U5, U4, U3, U2. by split_and!.
Qed.

Lemma wellformed_upload_stored_witness :
  ∃ s w', post_analyze {| an_user := Some Sample.alice; an_file := Some Sample.jpeg |}
            Sample.env0 Sample.empty
          = (Ok (analyzed (new_oid Sample.env0, s)), w')
    ∧ userId s = Sample.alice.1
    ∧ fileType s = mimetype Sample.jpeg.
Proof.
  destruct (wellformed_upload_stored Sample.env0 Sample.empty Sample.alice Sample.jpeg)
    as (s & w' & E & _ & _ & _ & Hu & _ & _ & Hty & _).
  - intros n. split; [discriminate|reflexivity].
  - intros n. cbn [now Sample.env0]. lia.
  - apply (bool_decide_unpack _). vm_compute. exact I.
  - vm_compute. reflexivity.
  - vm_compute. discriminate.
  - vm_compute. reflexivity.
  - reflexivity.
  - exists s, w'. exact (conj E (conj Hu Hty)).
Defined.

(** ** Listing: requests that are answered 500 *)

Lemma get_history_cast_error env w req (u : UserDoc) e :
  h_user req = Some u → cast_filters (history_filters u.1 req) = Throw e →
  get_history req env w = (Ok history_failed, w).
Proof.
  intros Hu Hc. unfold get_history, try_catch. rewrite Hu.
  unfold bind at 1. unfold Scan_find_sorted. rewrite Hc. reflexivity.
Qed.

Lemma get_history_negative_skip env w req (u : UserDoc) :
  h_user req = Some u →
  (parseInt_or (q_page req) 1 - 1) * parseInt_or (q_limit req) 10 < 0 →
  get_history req env w = (Ok history_failed, w).
Proof.
  intros Hu Hs.
  destruct (cast_filters (history_filters u.1 req)) as [range|e] eqn:Hc;
    [|by eapply get_history_cast_error].
  unfold get_history, try_catch. rewrite Hu.
  unfold bind at 1. unfold Scan_find_sorted. rewrite Hc.
  match goal with |- context [?a <? 0] => assert ((a <? 0) = true) as -> by lia end.
  reflexivity.
Qed.

(** X27. A score bound that is present but does not start with a
    number ([minScore=abc]) is not ignored and not reported as a bad
    request: [parseInt] yields [NaN], the query fails to cast, and
    [GET /history] answers 500 with its generic message; the state is
    unchanged. *)
Theorem history_unparsable_bound (env : Env) (w : World) (req : HistoryRequest)
    (u : UserDoc) (s : string) :
  h_user req = Some u →
  q_minScore req = Some s ∨ q_maxScore req = Some s →
  s ≠ "" → parseInt s = NaN →
  get_history req env w = (Ok history_failed, w).
Proof.
  intros Hu Hq Hs Hnan.
  assert (Ht : truthy (Some s) = true)
    by (cbn; by apply negb_true_iff, String.eqb_neq).
  assert (∃ e, cast_filters (history_filters u.1 req) = Throw e) as [e He];
    [|by eapply get_history_cast_error].
  unfold history_filters, cast_filters.
  destruct Hq as [Hq|Hq]; rewrite Hq, Ht.
  - destruct (truthy (q_freshness req)), (truthy (q_maxScore req));
      cbn; rewrite Hnan; cbn; eauto.
    all: destruct (cast_operand (parseInt <$> q_maxScore req)); eauto.
  - destruct (truthy (q_freshness req)), (truthy (q_minScore req));
      cbn; rewrite Hnan; cbn.
    all: repeat match goal with
         | |- context [cast_operand ?x] =>
             lazymatch x with
             | Some NaN => fail
             | _ => destruct (cast_operand x)
             end
         end; eauto.
Qed.

Lemma history_unparsable_bound_witness :
  get_history {| h_user := Some Sample.alice; q_page := None; q_limit := None;
                 q_freshness := None; q_minScore := Some "abc"; q_maxScore := None |}
    Sample.env0 Sample.world = (Ok history_failed, Sample.world).
Proof.
  apply (history_unparsable_bound Sample.env0 Sample.world _ Sample.alice "abc");
    [reflexivity|by left|discriminate|reflexivity].
Defined.

(** X28. A page number below 1 is not clamped: with a positive page
    size the skip is negative, the query is rejected, and
    [GET /history] answers 500 with its generic message; the state is
    unchanged. The same happens for a negative page size from the
    second page on. *)
Theorem history_page_below_one (env : Env) (w : World) (req : HistoryRequest)
    (u : UserDoc) :
  h_user req = Some u →
  let page := parseInt_or (q_page req) 1 in
  let limit := parseInt_or (q_limit req) 10 in
  (page < 1 ∧ 0 < limit) ∨ (1 < page ∧ limit < 0) →
  get_history req env w = (Ok history_failed, w).
Proof.
  intros Hu page limit H. apply (get_history_negative_skip env w req u Hu).
  fold page limit. nia.
Qed.

Lemma history_page_below_one_witness :
  get_history (Sample.history_request "-1" "2") Sample.env0 Sample.world
  = (Ok history_failed, Sample.world).
Proof.
  apply (history_page_below_one Sample.env0 Sample.world
           (Sample.history_request "-1" "2") Sample.alice eq_refl).
  left. vm_compute. split; reflexivity.
Defined.
